(** * complexity-dashboard: the state and math kernel

    A shallow embedding of [js/complexity-state.js] (classes
    [ComplexityVector] and [ComplexityState]) and of the part of
    [js/complexity-math.js] (object [ComplexityMath]) that the dashboard's
    signal-loss analysis and demonstration cycle use.

    Conventions of the embedding:
    - a JavaScript number is a [number]: an exact rational, one of the two
      infinities, or NaN.  Arithmetic on finite numbers is exact: binary64
      rounding, overflow and the sign of zero are not modelled.  Properties
      that compare computed numbers are stated to hold of the floating-point
      program as well: with a margin, with bounds on the inputs, or with the
      program's own operators;
    - a method that may throw returns a [result]; a method of the state
      manager is a computation in the monad [M], which threads the session
      object, the clock and the notifications handed to the observers, and
      keeps every mutation made before an exception was thrown;
    - observers are handles: delivering an update records it, and an observer
      is taken to read the state only (its own exceptions are swallowed by
      [notify] in the source);
    - console output is not modelled. *)

From Stdlib Require Import QArith Qabs Qround ZArith Lia Lqa.
From stdpp Require Import base option list strings gmap pretty.

Local Open Scope Q_scope.

(** ** JavaScript numbers *)

Inductive number : Type :=
| Fin (q : Q)
| PInf
| NInf
| NaN.

Module Number.

Definition isNaN (x : number) : bool :=
  match x with NaN => true | _ => false end.

Definition isFinite (x : number) : bool :=
  match x with Fin _ => true | _ => false end.

(** [x < y] the way Rocq's [Q] decides it. *)
Definition Qltb (a b : Q) : bool := negb (Qle_bool b a).

Definition neg (x : number) : number :=
  match x with
  | Fin q => Fin (- q)
  | PInf => NInf
  | NInf => PInf
  | NaN => NaN
  end.

Definition add (x y : number) : number :=
  match x, y with
  | NaN, _ | _, NaN => NaN
  | Fin a, Fin b => Fin (a + b)
  | PInf, NInf | NInf, PInf => NaN
  | PInf, _ | _, PInf => PInf
  | NInf, _ | _, NInf => NInf
  end.

Definition sub (x y : number) : number := add x (neg y).

(** The infinity whose sign is the sign of [q]; NaN when [q] is zero. *)
Definition signed_inf (q : Q) : number :=
  if Qeq_bool q 0 then NaN else if Qltb 0 q then PInf else NInf.

Definition mul (x y : number) : number :=
  match x, y with
  | NaN, _ | _, NaN => NaN
  | Fin a, Fin b => Fin (a * b)
  | Fin a, PInf | PInf, Fin a => signed_inf a
  | Fin a, NInf | NInf, Fin a => signed_inf (- a)
  | PInf, PInf | NInf, NInf => PInf
  | PInf, NInf | NInf, PInf => NInf
  end.

Definition div (x y : number) : number :=
  match x, y with
  | NaN, _ | _, NaN => NaN
  | Fin a, Fin b => if Qeq_bool b 0 then signed_inf a else Fin (a / b)
  | Fin _, (PInf | NInf) => Fin 0
  | (PInf | NInf), (PInf | NInf) => NaN
  | PInf, Fin b => if Qltb b 0 then NInf else PInf
  | NInf, Fin b => if Qltb b 0 then PInf else NInf
  end.

(** The comparisons [<] and [>]: false as soon as one side is NaN. *)
Definition lt (x y : number) : bool :=
  match x, y with
  | NaN, _ | _, NaN => false
  | Fin a, Fin b => Qltb a b
  | NInf, (Fin _ | PInf) => true
  | Fin _, PInf => true
  | _, _ => false
  end.

Definition gt (x y : number) : bool := lt y x.

(** [x >= y] and [x <= y]: false as soon as one side is NaN. *)
Definition ge (x y : number) : bool :=
  match x, y with
  | NaN, _ | _, NaN => false
  | _, _ => negb (lt x y)
  end.

Definition le (x y : number) : bool := ge y x.

(** [x === y] on two numbers: NaN equals nothing. *)
Definition eq (x y : number) : bool :=
  match x, y with
  | Fin a, Fin b => Qeq_bool a b
  | PInf, PInf | NInf, NInf => true
  | _, _ => false
  end.

End Number.

Declare Scope js_scope.
Delimit Scope js_scope with js.
Bind Scope js_scope with number.
Infix "+" := Number.add : js_scope.
Infix "-" := Number.sub : js_scope.
Infix "*" := Number.mul : js_scope.
Infix "/" := Number.div : js_scope.
Infix "<" := Number.lt : js_scope.
Infix ">" := Number.gt : js_scope.
Infix ">=" := Number.ge : js_scope.
Infix "<=" := Number.le : js_scope.

(** ** The [Math] built-ins the kernel calls *)

Module Math.
Import Number.

Definition abs (x : number) : number :=
  match x with
  | Fin q => Fin (Qabs q)
  | PInf | NInf => PInf
  | NaN => NaN
  end.

Definition max (x y : number) : number :=
  match x, y with
  | NaN, _ | _, NaN => NaN
  | _, _ => if lt x y then y else x
  end.

Definition min (x y : number) : number :=
  match x, y with
  | NaN, _ | _, NaN => NaN
  | _, _ => if lt y x then y else x
  end.

(** [Math.sqrt] on a rational [n/d] is [sqrt (n*d) / d]: exact when [n*d] is
    a perfect square, and otherwise rounded down to sixteen further decimal
    places. *)
Definition Qsqrt (q : Q) : Q :=
  let n := Qnum q in
  let d := Zpos (Qden q) in
  let r := Z.sqrt (n * d) in
  if (r * r =? n * d)%Z then r # Qden q
  else Z.sqrt (n * d * 10 ^ 32) # (Qden q * 10 ^ 16).

Definition sqrt (x : number) : number :=
  match x with
  | Fin q => if Qltb q 0 then NaN else Fin (Qsqrt q)
  | PInf => PInf
  | NInf | NaN => NaN
  end.

(** [Math.max(...values)] and [Math.min(...values)]: -Infinity, resp.
    Infinity, of no values. *)
Definition max_of (values : list number) : number :=
  fold_left max values NInf.

Definition min_of (values : list number) : number :=
  fold_left min values PInf.

(** [Math.pow(x, n)] for an exponent that is a natural number. *)
Fixpoint pow (x : number) (n : nat) : number :=
  match n with
  | O => Fin 1
  | S n' => (x * pow x n')%js
  end.

End Math.

(** [x.toFixed(3)]: the nearest multiple of 1/1000, the larger one on a tie,
    printed with three decimals (the exponent form JavaScript switches to
    from 1e21 on is left out). *)
Module NumberFormat.
Import Number.

Definition pad3 (s : string) : string :=
  match String.length s with
  | 0%nat => "000" +:+ s
  | 1%nat => "00" +:+ s
  | 2%nat => "0" +:+ s
  | _ => s
  end.

Definition toFixed3 (x : number) : string :=
  match x with
  | NaN => "NaN"
  | PInf => "Infinity"
  | NInf => "-Infinity"
  | Fin q =>
      let n := Z.to_N (Qfloor (Qabs q * 1000 + (1 # 2))) in
      (if Qltb q 0 then "-" else "") +:+
      pretty (n / 1000)%N +:+ "." +:+ pad3 (pretty (n mod 1000)%N)
  end.

End NumberFormat.

(** ** Values, exceptions *)

(** // === CONFIG === *)
Definition DEFAULT_VECTOR : list number := [Fin 0.5; Fin 0.5; Fin 0.5; Fin 0.5].
Definition DEFAULT_WEIGHTS : list number := [Fin 0.25; Fin 0.25; Fin 0.25; Fin 0.25].
Definition DEFAULT_DELTAS : gmap string number :=
  <["alg" := Fin 0.2]> (<["info" := Fin 0.2]> (<["dyn" := Fin 0.15]>
  (<["geom" := Fin 0.3]> ∅))).
Definition EPSILON : number := Fin 1e-6.
Definition MAX_HISTORY : number := Fin 100.

(** An instance of class [ComplexityVector]: its [data] array.  The fields
    [labels] and [keys] are the same constants in every instance. *)
Record ComplexityVector : Type := mkVector { data : list number }.

Definition keys : list string := ["alg"; "info"; "dyn"; "geom"].

(** What a caller may pass where the source expects a vector or a
    component. *)
#[warnings="-register-all"]
Inductive value : Type :=
| VNumber (x : number)
| VUndefined
| VNull
| VBoolean (b : bool)
| VString (s : string)
| VArray (items : list value)
| VVector (v : ComplexityVector)
| VObject.

Inductive error : Type :=
| NotANumber (i : nat) (v : value)   (* Component i is not a number: v *)
| OutOfRange (i : nat) (v : value)   (* Component i out of range [0,1]: v *)
| InvalidVectorType                  (* Invalid vector type *)
| WeightsLength                      (* Weights must be array of length 4 *)
| InvalidPillar (pillar : string)    (* Invalid pillar: pillar *)
| InvalidVectorInput                 (* Invalid vector input *)
| TypeError                          (* raised by the runtime *)
| InvalidImportData.                 (* Invalid import data *)

Inductive result (A : Type) : Type :=
| Normal (a : A)
| Throw (e : error).
Arguments Normal {A} a.
Arguments Throw {A} e.

#[global] Instance result_ret : MRet result := fun A a => Normal a.
#[global] Instance result_bind : MBind result := fun A B f m =>
  match m with
  | Normal a => f a
  | Throw e => Throw e
  end.

(** Reading an array of numbers at an index: past the end the source gets
    [undefined], which every arithmetic use turns into NaN. *)
Definition at_index (l : list number) (i : nat) : number :=
  default NaN (l !! i).

(** [array.reduce((acc, v, i) => f acc v i, init)] *)
Fixpoint reduce_from {A B : Type} (f : B -> A -> nat -> B) (i : nat)
    (l : list A) (acc : B) : B :=
  match l with
  | [] => acc
  | v :: rest => reduce_from f (S i) rest (f acc v i)
  end.
Definition reduce {A B : Type} (f : B -> A -> nat -> B) (l : list A)
    (init : B) : B :=
  reduce_from f 0 l init.

(** [array.reduce((acc, v, i) => f acc v i)] without an initial value: the
    first element starts the accumulation, and an empty array is a
    [TypeError]. *)
Definition reduce1 {A : Type} (f : A -> A -> nat -> A) (l : list A) : result A :=
  match l with
  | [] => Throw TypeError
  | first :: rest => Normal (reduce_from f 1 rest first)
  end.

(** [array.indexOf(x)] on an array of numbers; [None] is -1. *)
Definition indexOf_number (l : list number) (x : number) : option nat :=
  fst <$> list_find (fun y => Number.eq y x = true) l.

(** [array.filter((v, i) => f v i)] *)
Fixpoint filter_from {A : Type} (f : A -> nat -> bool) (i : nat) (l : list A)
    : list A :=
  match l with
  | [] => []
  | v :: rest =>
      if f v i then v :: filter_from f (S i) rest else filter_from f (S i) rest
  end.
Definition filter_indexed {A : Type} (f : A -> nat -> bool) (l : list A)
    : list A :=
  filter_from f 0 l.

(** [...x]: the elements of an array, the characters of a string, and a
    [TypeError] for what is not iterable. *)
Definition spread (x : value) : result (list value) :=
  match x with
  | VArray items => Normal items
  | VString s => Normal ((fun c => VString (String c EmptyString)) <$> String.list_ascii_of_string s)
  | _ => Throw TypeError
  end.

(** ** class ComplexityVector *)

Module Vector.

Definition clamp (x : number) : number :=
  Math.max (Fin 0) (Math.min (Fin 1) x).

(** [validate(...values)] *)
Fixpoint validate_from (i : nat) (values : list value) : result unit :=
  match values with
  | [] => Normal ()
  | v :: rest =>
      match v with
      | VNumber x =>
          if Number.isNaN x then Throw (NotANumber i v)
          else if (x < Fin 0)%js || (x > Fin 1)%js then Throw (OutOfRange i v)
          else validate_from (S i) rest
      | _ => Throw (NotANumber i v)
      end
  end.
Definition validate (values : list value) : result unit :=
  validate_from 0 values.

(** A formal parameter with a default: the default is taken when the
    argument is missing or [undefined]. *)
Definition param (args : list value) (i : nat) (dflt : value) : value :=
  match args !! i with
  | None | Some VUndefined => dflt
  | Some v => v
  end.

(** An element of an array pattern: [undefined] when missing. *)
Definition element (items : list value) (i : nat) : value :=
  default VUndefined (items !! i).

(** The number a validated component is. *)
Definition component (v : value) : number :=
  match v with VNumber x => x | _ => NaN end.

(** [new ComplexityVector(...args)] *)
Definition new (args : list value) : result ComplexityVector :=
  let alg := param args 0 (VNumber (Fin 0.5)) in
  let info := param args 1 (VNumber (Fin 0.5)) in
  let dyn := param args 2 (VNumber (Fin 0.5)) in
  let geom := param args 3 (VNumber (Fin 0.5)) in
  let passed :=
    match alg with
    | VArray items =>
        [element items 0; element items 1; element items 2; element items 3]
    | _ => [alg; info; dyn; geom]
    end in
  validate passed ;;
  mret (mkVector (component <$> passed)).

Definition toArray (this : ComplexityVector) : list number := data this.

Definition indexOf (key : string) : option nat :=
  list_find (fun k => k = key) keys ≫= fun p => Some p.1.

(** [get(key)]: [None] is the source's [null]. *)
Definition get (this : ComplexityVector) (key : string) : option number :=
  match indexOf key with
  | Some index => Some (at_index (data this) index)
  | None => None
  end.

(** [set(key, value)]: the vector after the assignment. *)
Definition set (this : ComplexityVector) (key : string) (v : value)
    : result ComplexityVector :=
  match indexOf key with
  | Some index =>
      validate [v] ;;
      mret (mkVector (<[index := component v]> (data this)))
  | None => mret this
  end.

Definition clone (this : ComplexityVector) : result ComplexityVector :=
  new (VNumber <$> data this).

Definition add (this other : ComplexityVector) : result ComplexityVector :=
  let result := imap (fun i v => clamp (v + at_index (data other) i)%js) (data this) in
  new (VNumber <$> result).

Definition subtract (this other : ComplexityVector) : result ComplexityVector :=
  let result := imap (fun i v => (v - at_index (data other) i)%js) (data this) in
  new (VNumber <$> (clamp <$> result)).

Definition magnitude (this : ComplexityVector) : number :=
  Math.sqrt (reduce (fun sum v _ => (sum + v * v)%js) (data this) (Fin 0)).

Definition scale (this : ComplexityVector) (factor : number)
    : result ComplexityVector :=
  let result := (fun v => clamp (v * factor)%js) <$> data this in
  new (VNumber <$> result).

(** [equals(other, epsilon = EPSILON)]; [other = None] is a missing or
    data-less argument. *)
Definition equals (this : ComplexityVector) (other : option ComplexityVector)
    (epsilon : number) : bool :=
  match other with
  | None => false
  | Some other =>
      forallb id
        (imap (fun i v => (Math.abs (v - at_index (data other) i) < epsilon)%js)
              (data this))
  end.

(** The class invariant: four components, each a number in [0,1]. *)
Definition in_unit (x : number) : Prop :=
  exists q : Q, x = Fin q /\ 0 <= q <= 1.

Definition valid (v : ComplexityVector) : Prop :=
  length (data v) = 4%nat /\ Forall in_unit (data v).

(** The same, as a test. *)
Definition in_unitb (x : number) : bool :=
  match x with
  | Fin q => Qle_bool 0 q && Qle_bool q 1
  | _ => false
  end.

Definition validb (v : ComplexityVector) : bool :=
  (length (data v) =? 4)%nat && forallb in_unitb (data v).

End Vector.


(** ** class ComplexityState *)

(** A subscribed callback, known by its handle. *)
Definition observer : Type := nat.

(** The event objects handed to the observers, one constructor per [type]. *)
Inductive update : Type :=
| vectorUpdate (v : ComplexityVector) (operation : option string) (timestamp : Z)
| weightsUpdate (w : list number) (timestamp : Z)
| deltasUpdate (d : gmap string number) (timestamp : Z)
| undoUpdate (v : ComplexityVector) (timestamp : Z)
| importUpdate (timestamp : Z)
| manualUpdate (timestamp : Z).

(** An entry of [this.history].  [addToHistory] writes all five fields;
    [import] writes the first three, and reading the other two then gives
    [undefined] ([None]). *)
Record HistoryEntry : Type := mkEntry {
  h_vector : ComplexityVector;
  h_operation : option string;
  h_timestamp : Z;
  h_scalar : option number;
  h_operationIndex : option nat
}.

Record ComplexityState : Type := mkState {
  vector : ComplexityVector;
  history : list HistoryEntry;
  maxHistory : number;
  weights : list number;
  deltas : gmap string number;
  observers : list observer;
  lastOperation : option string;
  currentScenario : option string;
  sessionStartTime : Z;
  operationCount : nat
}.

(** The [config] object of the constructor; [None] is a missing (or falsy)
    property.  [maxHistory] is a number when it is there: the constructor
    does not check it, and keeps whatever number is truthy. *)
Record Config : Type := mkConfig {
  cfg_initial : option (list value);
  cfg_maxHistory : option number;
  cfg_weights : option (list number);
  cfg_deltas : option (gmap string number)
}.

(** The object [export] returns and [import] reads. *)
Record HistoryPayload : Type := mkHistoryPayload {
  hp_vector : value;
  hp_operation : option string;
  hp_timestamp : Z
}.

Record Metadata : Type := mkMetadata {
  md_sessionStartTime : option Z;
  md_operationCount : option nat;
  md_exportTime : option Z
}.

Record Payload : Type := mkPayload {
  p_vector : value;
  p_weights : option (list number);
  p_deltas : option (gmap string number);
  p_history : option (list HistoryPayload);
  p_metadata : option Metadata
}.

(** The session: the state object, how often the clock was read, what the
    clock will answer, and the updates delivered so far (oldest first). *)
Record Session : Type := mkSession {
  self : ComplexityState;
  ticks : nat;
  clock : nat -> Z;
  delivered : list (observer * update)
}.

(** Computations that read and write the session and may throw.  A thrown
    exception keeps the session as it was when it was thrown. *)
Definition M (A : Type) : Type := Session -> Session * result A.

#[global] Instance M_ret : MRet M := fun A a s => (s, Normal a).
#[global] Instance M_bind : MBind M := fun A B f m s =>
  match m s with
  | (s', Normal a) => f a s'
  | (s', Throw e) => (s', Throw e)
  end.

Module Effect.

Definition this : M ComplexityState := fun s => (s, Normal (self s)).

Definition modify (f : ComplexityState -> ComplexityState) : M unit :=
  fun s => (mkSession (f (self s)) (ticks s) (clock s) (delivered s), Normal ()).

Definition throw {A : Type} (e : error) : M A := fun s => (s, Throw e).

Definition lift {A : Type} (r : result A) : M A := fun s => (s, r).

(** [Date.now()] *)
Definition Date_now : M Z :=
  fun s => (mkSession (self s) (S (ticks s)) (clock s) (delivered s),
            Normal (clock s (ticks s))).

(** [try { body } catch (error) { handler }] *)
Definition try_catch {A : Type} (body : M A) (handler : error -> M A) : M A :=
  fun s =>
    match body s with
    | (s', Normal a) => (s', Normal a)
    | (s', Throw e) => handler e s'
    end.

(** Calling every observer with [u], in subscription order. *)
Definition deliver (u : update) : M unit :=
  fun s => (mkSession (self s) (ticks s) (clock s)
              (delivered s ++ ((fun o => (o, u)) <$> observers (self s))),
            Normal ()).

End Effect.

(** Assignments to the fields of [this]. *)
Definition set_vector (v : ComplexityVector) (st : ComplexityState) :=
  mkState v (history st) (maxHistory st) (weights st) (deltas st)
    (observers st) (lastOperation st) (currentScenario st)
    (sessionStartTime st) (operationCount st).
Definition set_history (h : list HistoryEntry) (st : ComplexityState) :=
  mkState (vector st) h (maxHistory st) (weights st) (deltas st)
    (observers st) (lastOperation st) (currentScenario st)
    (sessionStartTime st) (operationCount st).
Definition set_weights (w : list number) (st : ComplexityState) :=
  mkState (vector st) (history st) (maxHistory st) w (deltas st)
    (observers st) (lastOperation st) (currentScenario st)
    (sessionStartTime st) (operationCount st).
Definition set_deltas (d : gmap string number) (st : ComplexityState) :=
  mkState (vector st) (history st) (maxHistory st) (weights st) d
    (observers st) (lastOperation st) (currentScenario st)
    (sessionStartTime st) (operationCount st).
Definition set_observers (o : list observer) (st : ComplexityState) :=
  mkState (vector st) (history st) (maxHistory st) (weights st) (deltas st)
    o (lastOperation st) (currentScenario st)
    (sessionStartTime st) (operationCount st).
Definition set_lastOperation (op : option string) (st : ComplexityState) :=
  mkState (vector st) (history st) (maxHistory st) (weights st) (deltas st)
    (observers st) op (currentScenario st)
    (sessionStartTime st) (operationCount st).
Definition set_sessionStartTime (t : Z) (st : ComplexityState) :=
  mkState (vector st) (history st) (maxHistory st) (weights st) (deltas st)
    (observers st) (lastOperation st) (currentScenario st)
    t (operationCount st).
Definition set_operationCount (n : nat) (st : ComplexityState) :=
  mkState (vector st) (history st) (maxHistory st) (weights st) (deltas st)
    (observers st) (lastOperation st) (currentScenario st)
    (sessionStartTime st) n.

(** The object [getStatistics] returns. *)
Module Statistics.
Record t : Type := mk {
  mean : number;
  max : number;
  min : number;
  range : number;
  variance : number;
  dominantPillar : option string;   (* [None] is [undefined] *)
  weakestPillar : option string;
  balanced : bool
}.
End Statistics.

Module State.
Import Effect.

(** [array[i]] for a numeric index into an array of numbers; a negative
    index or one past the end reads [undefined], NaN in arithmetic. *)
Definition array_get (l : list number) (i : Z) : number :=
  if (i <? 0)%Z then NaN else at_index l (Z.to_nat i).

(** [array[i] = x]: an index past the end extends the array, leaving holes
    that read as [undefined]; a negative index, or one that is no array
    index at all, only adds a property, which [...array] does not see. *)
Definition array_set (l : list value) (i : Z) (x : value) : list value :=
  if ((i <? 0) || (4294967295 <=? i))%Z then l
  else
    let n := Z.to_nat i in
    if (n <? length l)%nat then <[n := x]> l
    else l ++ replicate (n - length l) VUndefined ++ [x].

(** [`${keys[i]}`] *)
Definition key_name (i : Z) : string :=
  if (i <? 0)%Z then "undefined" else default "undefined" (keys !! Z.to_nat i).

(** [x || dflt] on a number that may be missing: 0 and NaN are falsy. *)
Definition number_or (x : option number) (dflt : number) : number :=
  match x with
  | None | Some NaN => dflt
  | Some (Fin q) => if Qeq_bool q 0 then dflt else Fin q
  | Some x => x
  end.

(** [array.length] as a number. *)
Definition length_of {A : Type} (l : list A) : number :=
  Fin (inject_Z (Z.of_nat (length l))).

(** [constructor(config = {})]: the new session, given what the clock will
    answer. *)
Definition new (config : Config) (clk : nat -> Z) : result Session :=
  let initial := default (VNumber <$> DEFAULT_VECTOR) (cfg_initial config) in
  v ← Vector.new initial;
  mret (mkSession
          (mkState v [] (number_or (cfg_maxHistory config) MAX_HISTORY)
             (default DEFAULT_WEIGHTS (cfg_weights config))
             (default DEFAULT_DELTAS (cfg_deltas config))
             [] None None (clk 0%nat) 0)
          1 clk []).

(** [getScalar(vector = null, weights = null)] *)
Definition getScalar (st : ComplexityState)
    (vector_arg : option ComplexityVector) (weights_arg : option (list number))
    : number :=
  let v := default (vector st) vector_arg in
  let w := default (weights st) weights_arg in
  let sum := reduce (fun a b _ => (a + b)%js) w (Fin 0) in
  if (Math.abs (sum - Fin 1) > EPSILON)%js then
    let normalized := (fun wi => (wi / sum)%js) <$> w in
    reduce (fun sum val idx => (sum + val * at_index normalized idx)%js)
      (Vector.toArray v) (Fin 0)
  else
    reduce (fun sum val idx => (sum + val * at_index w idx)%js)
      (Vector.toArray v) (Fin 0).

(** [notify(update)] *)
Definition notify (u : update) : M unit := deliver u.

(** [addToHistory(vector, operation)] *)
Definition addToHistory (vector : ComplexityVector) (operation : option string)
    : M unit :=
  snapshot ← lift (Vector.clone vector);
  timestamp ← Date_now;
  st ← this;
  modify (set_history
    (history st ++
     [mkEntry snapshot operation timestamp
        (Some (getScalar st (Some vector) None))
        (Some (operationCount st))])) ;;
  st ← this;
  if (length_of (history st) > maxHistory st)%js
  then modify (set_history (tail (history st)))
  else mret ().

(** [updateVector(newVector, operation = null)] *)
Definition updateVector (newVector : value) (operation : option string)
    : M unit :=
  st ← this;
  current ← lift (Vector.clone (vector st));
  addToHistory current operation ;;
  match newVector with
  | VArray items =>
      v ← lift (Vector.new items); modify (set_vector v)
  | VVector nv =>
      v ← lift (Vector.clone nv); modify (set_vector v)
  | _ => throw InvalidVectorType
  end ;;
  modify (set_lastOperation operation) ;;
  modify (fun st => set_operationCount (S (operationCount st)) st) ;;
  st ← this;
  timestamp ← Date_now;
  notify (vectorUpdate (vector st) operation timestamp).

(** [updateWeights(newWeights)]; [None] is an argument that is not an array,
    and the entries of an array are numbers. *)
Definition updateWeights (newWeights : option (list number)) : M unit :=
  match newWeights with
  | None => throw WeightsLength
  | Some newWeights =>
      if negb (length newWeights =? 4)%nat then throw WeightsLength
      else
        let sum := reduce (fun a b _ => (a + b)%js) newWeights (Fin 0) in
        modify (set_weights ((fun w => (w / sum)%js) <$> newWeights)) ;;
        st ← this;
        timestamp ← Date_now;
        notify (weightsUpdate (weights st) timestamp)
  end.

(** [updateDeltas(newDeltas)] *)
Definition updateDeltas (newDeltas : gmap string number) : M unit :=
  modify (fun st => set_deltas (newDeltas ∪ deltas st) st) ;;
  st ← this;
  timestamp ← Date_now;
  notify (deltasUpdate (deltas st) timestamp).

(** [improve(pillar, delta)] *)
Definition improve (pillar : Z) (delta : number) : M unit :=
  st ← this;
  let current := Vector.toArray (vector st) in
  let updated := VNumber <$> current in
  let updated :=
    array_set updated pillar
      (VNumber (Vector.clamp (array_get current pillar + delta)%js)) in
  v ← lift (Vector.new updated);
  updateVector (VVector v)
    (Some ("improve_" +:+ key_name pillar +:+ "_" +:+ NumberFormat.toFixed3 delta)).

(** [subscribe(observer)] and the function it returns *)
Definition subscribe (o : observer) : M unit :=
  modify (fun st => set_observers (observers st ++ [o]) st).

Definition unsubscribe (o : observer) : M unit :=
  modify (fun st =>
    match list_find (fun x => x = o) (observers st) with
    | Some (index, _) => set_observers (delete index (observers st)) st
    | None => st
    end).

(** [notifyObservers(update)] *)
Definition notifyObservers (u : option update) : M unit :=
  match u with
  | Some u => notify u
  | None => timestamp ← Date_now; notify (manualUpdate timestamp)
  end.

(** [reset(initial = DEFAULT_VECTOR)] *)
Definition reset (initial : value) : M unit :=
  let initial :=
    match initial with
    | VUndefined => VArray (VNumber <$> DEFAULT_VECTOR)
    | _ => initial
    end in
  modify (set_history []) ;;
  modify (set_operationCount 0) ;;
  modify (set_lastOperation None) ;;
  updateVector initial (Some "reset").

(** [undo()] *)
Definition undo : M bool :=
  st ← this;
  match last (history st) with
  | Some previous =>
      modify (set_history (removelast (history st))) ;;
      v ← lift (Vector.clone (h_vector previous));
      modify (set_vector v) ;;
      modify (set_lastOperation (Some "undo")) ;;
      modify (fun st => set_operationCount (S (operationCount st)) st) ;;
      st ← this;
      timestamp ← Date_now;
      notify (undoUpdate (vector st) timestamp) ;;
      mret true
  | None => mret false
  end.

(** [export()] *)
Definition export : M Payload :=
  st ← this;
  exportTime ← Date_now;
  mret (mkPayload
    (VArray (VNumber <$> Vector.toArray (vector st)))
    (Some (weights st))
    (Some (deltas st))
    (Some ((fun h => mkHistoryPayload
                       (VArray (VNumber <$> Vector.toArray (h_vector h)))
                       (h_operation h) (h_timestamp h)) <$> history st))
    (Some (mkMetadata (Some (sessionStartTime st))
                      (Some (operationCount st)) (Some exportTime)))).

(** [x || Date.now()] for a timestamp: zero is falsy. *)
Definition or_now (x : option Z) : M Z :=
  match x with
  | Some t => if (t =? 0)%Z then Date_now else mret t
  | None => Date_now
  end.

(** [import(data)] *)
Definition import (data : Payload) : M unit :=
  try_catch
    (args ← lift (spread (p_vector data));
     v ← lift (Vector.new args);
     modify (set_vector v) ;;
     modify (set_weights (default DEFAULT_WEIGHTS (p_weights data))) ;;
     modify (set_deltas (default DEFAULT_DELTAS (p_deltas data))) ;;
     entries ← lift (mapM (fun h =>
         args ← spread (hp_vector h);
         v ← Vector.new args;
         mret (mkEntry v (hp_operation h) (hp_timestamp h) None None))
       (default [] (p_history data)));
     modify (set_history entries) ;;
     start ← or_now (p_metadata data ≫= md_sessionStartTime);
     modify (set_sessionStartTime start) ;;
     modify (set_operationCount
               (default 0%nat (p_metadata data ≫= md_operationCount))) ;;
     timestamp ← Date_now;
     notify (importUpdate timestamp))
    (fun _ => throw InvalidImportData).

(** [calculateVariance(arr)] *)
Definition calculateVariance (arr : list number) : result number :=
  total ← reduce1 (fun a b _ => (a + b)%js) arr;
  let mean := (total / Fin (inject_Z (Z.of_nat (length arr))))%js in
  let squareDiffs := (fun v => Math.pow (v - mean)%js 2) <$> arr in
  squares ← reduce1 (fun a b _ => (a + b)%js) squareDiffs;
  mret (squares / Fin (inject_Z (Z.of_nat (length arr))))%js.

(** [getStatistics()] *)
Definition getStatistics (st : ComplexityState) : result Statistics.t :=
  let arr := Vector.toArray (vector st) in
  total ← reduce1 (fun a b _ => (a + b)%js) arr;
  variance ← calculateVariance arr;
  mret (Statistics.mk
    (total / Fin 4)%js
    (Math.max_of arr)
    (Math.min_of arr)
    (Math.max_of arr - Math.min_of arr)%js
    variance
    (indexOf_number arr (Math.max_of arr) ≫= fun i => keys !! i)
    (indexOf_number arr (Math.min_of arr) ≫= fun i => keys !! i)
    (Math.max_of arr - Math.min_of arr < Fin 0.2)%js).

End State.

(** ** const ComplexityMath (js/complexity-math.js) *)

Inductive LossType : Type :=
| cancellation
| inversion
| invisibility
| compression
| none.

Record SignalLoss : Type := mkSignalLoss {
  total : number;
  byPillar : gmap string number;
  scalarChange : number;
  vectorChanges : list number;
  isSignalLost : bool;
  lossType : LossType
}.

Record Paradox : Type := mkParadox {
  scalarInitial : number;
  scalarFinal : number;
  vectorInitial : list number;
  vectorFinal : list number;
  totalDelta : number
}.

Record Cycle : Type := mkCycle {
  states : list ComplexityVector;
  operations : list string;
  paradox : Paradox
}.

Record StateValidation : Type := mkStateValidation {
  sv_valid : bool;
  sv_saturated : nat;
  sv_empty : nat;
  sv_balanced : bool;
  sv_warnings : list string
}.

(** What [interpolate] does: it throws its own error for a factor outside
    [0,1], and otherwise builds a vector, which may throw in turn. *)
Inductive interpolation : Type :=
| InterpolationFactorError   (* Interpolation factor must be in [0,1] *)
| Interpolated (r : result ComplexityVector).

Module ComplexityMath.

Definition SIGNAL_LOSS_THRESHOLD : number := Fin 0.01.

(** [computeScalarAverage(vector, weights = null)]; [None] is a missing
    vector. *)
Definition computeScalarAverage (vector : option ComplexityVector)
    (weights : option (list number)) : result number :=
  match vector with
  | None => Throw InvalidVectorInput
  | Some vector =>
      let w := default DEFAULT_WEIGHTS weights in
      let arr := Vector.toArray vector in
      let sum := reduce (fun a b _ => (a + b)%js) w (Fin 0) in
      if (Math.abs (sum - Fin 1) > EPSILON)%js then
        let normalized := (fun wi => (wi / sum)%js) <$> w in
        mret (reduce (fun sum val idx => (sum + val * at_index normalized idx)%js)
                arr (Fin 0))
      else
        mret (reduce (fun sum val idx => (sum + val * at_index w idx)%js)
                arr (Fin 0))
  end.

(** [applyImprovement(vector, pillar, delta)] *)
Definition applyImprovement (vector : ComplexityVector) (pillar : string)
    (delta : number) : result ComplexityVector :=
  improved ← Vector.clone vector;
  match Vector.get improved pillar with
  | None => Throw (InvalidPillar pillar)
  | Some current =>
      let newValue := Vector.clamp (current + delta)%js in
      Vector.set improved pillar (VNumber newValue)
  end.

(** [categorizeLoss(vectorDelta, scalarDelta)] *)
Definition categorizeLoss (vectorDelta : list number) (scalarDelta : number)
    : LossType :=
  let hasPositive := existsb (fun d => (d > EPSILON)%js) vectorDelta in
  let hasNegative := existsb (fun d => (d < Number.neg EPSILON)%js) vectorDelta in
  if hasPositive && hasNegative && (Math.abs scalarDelta < EPSILON)%js
  then cancellation
  else if hasPositive && (scalarDelta < Number.neg EPSILON)%js
  then inversion
  else if hasPositive && (Math.abs scalarDelta < EPSILON)%js
  then invisibility
  else if (Math.abs scalarDelta > EPSILON)%js
  then
    let vectorMagnitude :=
      Math.sqrt (reduce (fun s d _ => (s + d * d)%js) vectorDelta (Fin 0)) in
    if (Math.abs scalarDelta < vectorMagnitude / Fin 2)%js
    then compression
    else none
  else none.

(** [calculateSignalLoss(before, after, weights = null)] *)
Definition calculateSignalLoss (before after : ComplexityVector)
    (weights : option (list number)) : result SignalLoss :=
  let beforeArr := Vector.toArray before in
  let afterArr := Vector.toArray after in
  let vectorDelta := imap (fun i v => (v - at_index beforeArr i)%js) afterArr in
  scalarBefore ← computeScalarAverage (Some before) weights;
  scalarAfter ← computeScalarAverage (Some after) weights;
  let scalarDelta := (scalarAfter - scalarBefore)%js in
  let '(lostSignals, totalLoss) :=
    reduce (fun (acc : gmap string number * number) delta i =>
              let '(lostSignals, totalLoss) := acc in
              let key := default "undefined" (keys !! i) in
              if (delta > Fin 0)%js
                 && (Math.abs scalarDelta < SIGNAL_LOSS_THRESHOLD)%js
              then (<[key := delta]> lostSignals, (totalLoss + delta)%js)
              else if (delta > Fin 0)%js && (scalarDelta < Fin 0)%js
              then (<[key := delta]> lostSignals, (totalLoss + delta)%js)
              else acc)
      vectorDelta (∅, Fin 0) in
  mret (mkSignalLoss totalLoss lostSignals scalarDelta vectorDelta
          (totalLoss > SIGNAL_LOSS_THRESHOLD)%js
          (categorizeLoss vectorDelta scalarDelta)).

(** [deltas.key] where a number is expected: a missing property reads
    [undefined], NaN in arithmetic. *)
Definition step (deltas : gmap string number) (key : string) : number :=
  default NaN (deltas !! key).

(** [generateCycle(initial, deltas)] *)
Definition generateCycle (initial : ComplexityVector)
    (deltas : gmap string number) : result Cycle :=
  s0 ← Vector.clone initial;
  current ← Vector.clone initial;
  current ← applyImprovement current "alg" (step deltas "alg");
  s1 ← Vector.clone current;
  current ← applyImprovement current "info" (step deltas "info");
  s2 ← Vector.clone current;
  current ← applyImprovement current "dyn" (step deltas "dyn");
  s3 ← Vector.clone current;
  current ← applyImprovement current "geom" (step deltas "geom");
  s4 ← Vector.clone current;
  s5 ← Vector.clone initial;
  let states := [s0; s1; s2; s3; s4; s5] in
  let operations :=
    ["Optimize Algorithm"; "Add Correlations"; "Increase Dynamics";
     "Enrich Topology"; "Geometric Return"] in
  scalarInitial ← computeScalarAverage (Some initial) None;
  scalarFinal ← computeScalarAverage (states !! 4%nat) None;
  mret (mkCycle states operations
          (mkParadox scalarInitial scalarFinal
             (Vector.toArray initial)
             (Vector.toArray s4)
             (step deltas "alg" + step deltas "info"
              + step deltas "dyn" + step deltas "geom")%js)).

(** [dominates(a, b)] *)
Definition dominates (a b : ComplexityVector) : bool :=
  let aArr := Vector.toArray a in
  let bArr := Vector.toArray b in
  let allGeq :=
    forallb id (imap (fun i v => (v >= at_index bArr i - EPSILON)%js) aArr) in
  let someGt :=
    existsb id (imap (fun i v => (v > at_index bArr i + EPSILON)%js) aArr) in
  allGeq && someGt.

(** The inner loop of [computeParetoFrontier], from index [j] on: is there a
    state other than the [i]-th that dominates [state]?  The loop breaks at
    the first one. *)
Fixpoint dominated_from (i : nat) (state : ComplexityVector) (j : nat)
    (others : list ComplexityVector) : bool :=
  match others with
  | [] => false
  | other :: rest =>
      if negb (i =? j)%nat && dominates other state then true
      else dominated_from i state (S j) rest
  end.

(** [computeParetoFrontier(states)]: the pairs [{state, index}]. *)
Definition computeParetoFrontier (states : list ComplexityVector)
    : list (ComplexityVector * nat) :=
  let isPareto :=
    imap (fun i state => negb (dominated_from i state 0 states)) states in
  filter_indexed (fun _ i => default false (isPareto !! i))
    (imap (fun index state => (state, index)) states).

(** [projectTo3D(vector, method = 'drop-geom')]; [None] is a missing
    method. *)
Definition projectTo3D (vector : ComplexityVector) (method : option string)
    : result (list number) :=
  let arr := Vector.toArray vector in
  let method := default "drop-geom" method in
  if String.eqb method "drop-geom" then mret (take 3 arr)
  else if String.eqb method "drop-last" then mret (take 3 arr)
  else if String.eqb method "pca-simple" then
    total ← reduce1 (fun s v _ => (s + v)%js) arr;
    let mean := (total / Fin 4)%js in
    let centered := (fun v => (v - mean)%js) <$> arr in
    squares ← reduce1 (fun s v _ => (s + v * v)%js) centered;
    mret [ (at_index centered 0 * Fin 0.7 + at_index centered 1 * Fin 0.3)%js;
           (at_index centered 2 * Fin 0.7 + at_index centered 3 * Fin 0.3)%js;
           (squares / Fin 2)%js ]
  else if String.eqb method "weighted-sum" then
    scalar ← computeScalarAverage (Some vector) None;
    mret [ (at_index arr 0 * Fin 0.6 + at_index arr 1 * Fin 0.4)%js;
           (at_index arr 2 * Fin 0.6 + at_index arr 3 * Fin 0.4)%js;
           scalar ]
  else mret (take 3 arr).

(** [generateWarnings(arr)] *)
Definition generateWarnings (arr : list number) : list string :=
  let keys := ["Algorithmic"; "Information"; "Dynamical"; "Geometric"] in
  let warnings :=
    reduce (fun (warnings : list string) v i =>
              let key := default "undefined" (keys !! i) in
              if (v >= Fin 0.99)%js
              then warnings ++ [key +:+ " complexity is saturated"]
              else if (v <= Fin 0.01)%js
              then warnings ++ [key +:+ " complexity is near zero"]
              else warnings)
      arr [] in
  let range := (Math.max_of arr - Math.min_of arr)%js in
  if (range > Fin 0.8)%js
  then warnings ++ ["Highly unbalanced complexity distribution"]
  else warnings.

(** [validateState(vector)] *)
Definition validateState (vector : ComplexityVector) : StateValidation :=
  let arr := Vector.toArray vector in
  mkStateValidation
    (forallb (fun v => (v >= Fin 0)%js && (v <= Fin 1)%js) arr)
    (length (List.filter (fun v => (v >= Fin 0.99)%js) arr))
    (length (List.filter (fun v => (v <= Fin 0.01)%js) arr))
    (Math.max_of arr - Math.min_of arr < Fin 0.2)%js
    (generateWarnings arr).

(** [computeDistance(v1, v2, metric = 'euclidean')]; the default case of the
    switch calls the function again with 'euclidean'. *)
Definition euclidean (a1 a2 : list number) : number :=
  Math.sqrt
    (reduce (fun sum v i => (sum + Math.pow (v - at_index a2 i) 2)%js) a1 (Fin 0)).

Definition computeDistance (v1 v2 : ComplexityVector) (metric : option string)
    : number :=
  let a1 := Vector.toArray v1 in
  let a2 := Vector.toArray v2 in
  let metric := default "euclidean" metric in
  if String.eqb metric "euclidean" then euclidean a1 a2
  else if String.eqb metric "manhattan" then
    reduce (fun sum v i => (sum + Math.abs (v - at_index a2 i))%js) a1 (Fin 0)
  else if String.eqb metric "chebyshev" then
    Math.max_of (imap (fun i v => Math.abs (v - at_index a2 i)%js) a1)
  else if String.eqb metric "weighted" then
    let weights := [Fin 0.3; Fin 0.3; Fin 0.2; Fin 0.2] in
    Math.sqrt
      (reduce (fun sum v i =>
                 (sum + at_index weights i * Math.pow (v - at_index a2 i) 2)%js)
         a1 (Fin 0))
  else euclidean a1 a2.

(** [interpolate(v1, v2, t)] *)
Definition interpolate (v1 v2 : ComplexityVector) (t : number) : interpolation :=
  if (t < Fin 0)%js || (t > Fin 1)%js then InterpolationFactorError
  else
    let a1 := Vector.toArray v1 in
    let a2 := Vector.toArray v2 in
    let interpolated :=
      imap (fun i v => (v * (Fin 1 - t) + at_index a2 i * t)%js) a1 in
    Interpolated (Vector.new (VNumber <$> interpolated)).

End ComplexityMath.

(** * The time series chart

    The data of class [TimeSeriesChart] of [js/complexity-visualizations.js]:
    the six parallel arrays of [this.history], the chart's own operation
    counter and [maxPoints], a count of points.  [render] and [update] hand
    the arrays to the plotting library and change none of them; they are
    left out.  The constructor subscribes [recordState] to the state, so the
    chart records the state once when it is built and once for every
    notification. *)

Record Series : Type := mkSeries {
  sr_operations : list nat;
  sr_algorithmic : list number;
  sr_information : list number;
  sr_dynamical : list number;
  sr_geometric : list number;
  sr_scalar : list number
}.

Record TimeSeriesChart : Type := mkChart {
  ts_maxPoints : nat;
  ts_history : Series;
  ts_operationCount : nat
}.

Module TimeSeries.

(** [array.shift()], for the array it leaves. *)
Definition shift {A : Type} (l : list A) : list A := tail l.

Definition no_points : Series := mkSeries [] [] [] [] [] [].

(** [recordState()], given the state the chart watches. *)
Definition recordState (this : TimeSeriesChart) (state : ComplexityState)
    : TimeSeriesChart :=
  let vector := Vector.toArray (vector state) in
  let scalar := State.getScalar state None None in
  let h := ts_history this in
  let pushed :=
    mkSeries (sr_operations h ++ [ts_operationCount this])
             (sr_algorithmic h ++ [at_index vector 0])
             (sr_information h ++ [at_index vector 1])
             (sr_dynamical h ++ [at_index vector 2])
             (sr_geometric h ++ [at_index vector 3])
             (sr_scalar h ++ [scalar]) in
  let trimmed :=
    if (ts_maxPoints this <? length (sr_operations pushed))%nat
    then mkSeries (shift (sr_operations pushed)) (shift (sr_algorithmic pushed))
                  (shift (sr_information pushed)) (shift (sr_dynamical pushed))
                  (shift (sr_geometric pushed)) (shift (sr_scalar pushed))
    else pushed in
  mkChart (ts_maxPoints this) trimmed (S (ts_operationCount this)).

(** [new TimeSeriesChart(container, state, maxPoints = 50)]: [init] records
    the initial state. *)
Definition new (state : ComplexityState) (maxPoints : option nat)
    : TimeSeriesChart :=
  recordState (mkChart (default 50%nat maxPoints) no_points 0) state.

(** [clear()] *)
Definition clear (this : TimeSeriesChart) (state : ComplexityState)
    : TimeSeriesChart :=
  recordState (mkChart (ts_maxPoints this) no_points 0) state.

End TimeSeries.

(** * Vocabulary of the statements

    Sessions, payloads and predicates the properties below are stated with;
    none of them is part of the source. *)

(** ** Step sizes *)

(** The step sizes [generateCycle] reads are all there and none is NaN. *)
Definition numeric_steps (deltas : gmap string number) : Prop :=
  forall key, key ∈ keys ->
  exists d, deltas !! key = Some d /\ Number.isNaN d = false.

(** ** What the methods do to a session *)

(** The session with its state object replaced. *)
Definition with_self (st : ComplexityState) (s : Session) : Session :=
  mkSession st (ticks s) (clock s) (delivered s).

(** The session after one more reading of the clock. *)
Definition ticked (s : Session) : Session :=
  mkSession (self s) (S (ticks s)) (clock s) (delivered s).

(** The entry [updateVector] logs in session [s] under label [operation]:
    a snapshot of the current vector, stamped with the next reading of the
    clock. *)
Definition logged_entry (s : Session) (operation : option string)
    : HistoryEntry :=
  mkEntry (vector (self s)) operation (clock s (ticks s))
    (Some (State.getScalar (self s) (Some (vector (self s))) None))
    (Some (operationCount (self s))).

(** [shift()] when the array has grown past [max]. *)
Definition trimmed (max : number) (h : list HistoryEntry)
    : list HistoryEntry :=
  if (State.length_of h > max)%js then tail h else h.

(** The number a count of entries is. *)
Definition count (c : nat) : number := Fin (inject_Z (Z.of_nat c)).

(** [n > max], for a length [n]: [n] entries are more than [max] allows. *)
Definition exceeds (n : nat) (max : number) : bool :=
  (Fin (inject_Z (Z.of_nat n)) > max)%js.

(** The session once [addToHistory] has logged the current vector. *)
Definition logged (s : Session) (operation : option string) : Session :=
  mkSession
    (set_history
       (trimmed (maxHistory (self s))
          (history (self s) ++ [logged_entry s operation]))
       (self s))
    (S (ticks s)) (clock s) (delivered s).

(** The session once [updateVector] has installed [v] on top of that. *)
Definition updated (s : Session) (v : ComplexityVector)
    (operation : option string) : Session :=
  let s1 := logged s operation in
  let st :=
    set_operationCount (S (operationCount (self s1)))
      (set_lastOperation operation (set_vector v (self s1))) in
  mkSession st (S (ticks s1)) (clock s1)
    (delivered s1 ++
     ((fun o => (o, vectorUpdate v operation (clock s1 (ticks s1))))
        <$> observers st)).

(** ** Example sessions and payloads *)

(** The clock of the examples: milliseconds from some instant on. *)
Definition example_clock (n : nat) : Z := (Z.of_nat n + 1700000000000)%Z.

(** The session a page starts with: [new ComplexityState()]. *)
Definition initial_session : Session :=
  mkSession
    (mkState (mkVector DEFAULT_VECTOR) [] MAX_HISTORY DEFAULT_WEIGHTS
       DEFAULT_DELTAS [] None None (example_clock 0) 0)
    1 example_clock [].

(** ** What the methods do to a session, continued *)

(** The session [reset] hands to [updateVector], and the argument. *)
Definition cleared (s : Session) : Session :=
  with_self
    (set_lastOperation None
       (set_operationCount 0 (set_history [] (self s)))) s.

Definition reset_argument (initial : value) : value :=
  match initial with
  | VUndefined => VArray (VNumber <$> DEFAULT_VECTOR)
  | _ => initial
  end.

(** ** Sessions the interface can produce *)

(** A call of a method of the state manager, with its arguments. *)
Inductive call : Type :=
| call_updateVector (newVector : value) (operation : option string)
| call_updateWeights (newWeights : option (list number))
| call_updateDeltas (newDeltas : gmap string number)
| call_improve (pillar : Z) (delta : number)
| call_subscribe (o : observer)
| call_unsubscribe (o : observer)
| call_notifyObservers (u : option update)
| call_reset (initial : value)
| call_undo
| call_export
| call_import (data : Payload).

(** The session after the call, whether it returned or threw. *)
Definition perform (c : call) (s : Session) : Session :=
  match c with
  | call_updateVector newVector operation =>
      (State.updateVector newVector operation s).1
  | call_updateWeights newWeights => (State.updateWeights newWeights s).1
  | call_updateDeltas newDeltas => (State.updateDeltas newDeltas s).1
  | call_improve pillar delta => (State.improve pillar delta s).1
  | call_subscribe o => (State.subscribe o s).1
  | call_unsubscribe o => (State.unsubscribe o s).1
  | call_notifyObservers u => (State.notifyObservers u s).1
  | call_reset initial => (State.reset initial s).1
  | call_undo => (State.undo s).1
  | call_export => (State.export s).1
  | call_import data => (State.import data s).1
  end.

Inductive reachable : Session -> Prop :=
| reachable_new (config : Config) (clk : nat -> Z) (s : Session) :
    State.new config clk = Normal s -> reachable s
| reachable_call (c : call) (s : Session) :
    reachable s -> reachable (perform c s).

(** ** Runs of updates *)

(** A run of [updateVector] calls, each with its argument and label. *)
Fixpoint update_all (calls : list (value * option string)) : M unit :=
  match calls with
  | [] => mret ()
  | (newVector, operation) :: rest =>
      State.updateVector newVector operation ;; update_all rest
  end.

(** The entries the run logs, oldest first. *)
Fixpoint log_of (calls : list (value * option string)) (s : Session)
    : list HistoryEntry :=
  match calls with
  | [] => []
  | (newVector, operation) :: rest =>
      logged_entry s operation
      :: log_of rest (State.updateVector newVector operation s).1
  end.

(** The [n] most recent elements of a list that grows at its end. *)
Definition newest {A : Type} (n : nat) (l : list A) : list A :=
  drop (length l - n) l.

(** ** Payloads *)

(** An imported history entry: vector, label and timestamp only. *)
Definition imported_entry (v : ComplexityVector) (h : HistoryPayload)
    : HistoryEntry :=
  mkEntry v (hp_operation h) (hp_timestamp h) None None.

(** What [import] makes of the payload's history. *)
Definition import_history (data : Payload) : result (list HistoryEntry) :=
  mapM (fun h =>
          args ← spread (hp_vector h);
          v ← Vector.new args;
          mret (imported_entry v h))
       (default [] (p_history data)).

(** The state once [import] has assigned vector, weights and deltas. *)
Definition import_first (data : Payload) (v : ComplexityVector)
    (st : ComplexityState) : ComplexityState :=
  set_deltas (default DEFAULT_DELTAS (p_deltas data))
    (set_weights (default DEFAULT_WEIGHTS (p_weights data))
       (set_vector v st)).

(** The session at the end of a successful [import]. *)
Definition imported (data : Payload) (v : ComplexityVector)
    (entries : list HistoryEntry) (s : Session) : Session :=
  let st := set_history entries (import_first data v (self s)) in
  let count := default 0%nat (p_metadata data ≫= md_operationCount) in
  let finish (start : Z) (n : nat) :=
    mkSession (set_operationCount count (set_sessionStartTime start st))
      (S n) (clock s)
      (delivered s ++ ((fun o => (o, importUpdate (clock s n))) <$> observers st)) in
  match p_metadata data ≫= md_sessionStartTime with
  | Some t =>
      if (t =? 0)%Z then finish (clock s (ticks s)) (S (ticks s))
      else finish t (ticks s)
  | None => finish (clock s (ticks s)) (S (ticks s))
  end.

(** The payload [export] builds from a state, stamped with [exportTime]. *)
Definition exported (st : ComplexityState) (exportTime : Z) : Payload :=
  mkPayload
    (VArray (VNumber <$> data (vector st)))
    (Some (weights st))
    (Some (deltas st))
    (Some ((fun h => mkHistoryPayload
                       (VArray (VNumber <$> data (h_vector h)))
                       (h_operation h) (h_timestamp h)) <$> history st))
    (Some (mkMetadata (Some (sessionStartTime st))
                      (Some (operationCount st)) (Some exportTime))).

(** A history entry as it comes back from a round trip: its scalar and its
    operation index are not in the payload. *)
Definition forget (h : HistoryEntry) : HistoryEntry :=
  mkEntry (h_vector h) (h_operation h) (h_timestamp h) None None.

(** The invariant of a session: every vector it holds is valid. *)
Definition wf (s : Session) : Prop :=
  Vector.valid (vector (self s)) /\
  Forall (fun h => Vector.valid (h_vector h)) (history (self s)).

(** ** Example sessions and payloads, continued *)

(** The fresh session once observers 1 and 2 have subscribed. *)
Definition observed_session : Session :=
  perform (call_subscribe 2%nat) (perform (call_subscribe 1%nat) initial_session).

(** One call of [updateVector] on the fresh session. *)
Definition session_after_one_update : Session :=
  perform
    (call_updateVector
       (VArray [VNumber (Fin 0.8); VNumber (Fin 0.4); VNumber (Fin 0.6);
                VNumber (Fin 0.3)]) None)
    initial_session.

(** A payload whose vector is fine and whose only history entry has the
    component 2. *)
Definition payload_with_bad_history : Payload :=
  mkPayload
    (VArray [VNumber (Fin 0.1); VNumber (Fin 0.2); VNumber (Fin 0.3);
             VNumber (Fin 0.4)])
    (Some [Fin 1; Fin 0; Fin 0; Fin 0])
    (Some ∅)
    (Some [mkHistoryPayload
             (VArray [VNumber (Fin 2); VNumber (Fin 0); VNumber (Fin 0);
                      VNumber (Fin 0)])
             (Some "step") 5])
    None.

(** ** Weights *)

(** The sum [getScalar] takes of a weights array. *)
Definition weights_sum (w : list number) : number :=
  reduce (fun a b _ => (a + b)%js) w (Fin 0).

(** The weights sum to 1 within epsilon. *)
Definition sums_to_one (w : list number) : Prop :=
  exists q : Q, weights_sum w = Fin q /\ Qabs (q - 1) <= 1e-6.

(** An argument [updateWeights] refuses: not an array, or not four long. *)
Definition not_four (arg : option (list number)) : Prop :=
  match arg with
  | None => True
  | Some l => length l <> 4%nat
  end.

(** ** Example sessions and payloads, the last ones *)

(** [new ComplexityState({maxHistory: 2})] *)
Definition small_session : Session :=
  mkSession
    (mkState (mkVector DEFAULT_VECTOR) [] (Fin 2) DEFAULT_WEIGHTS
       DEFAULT_DELTAS [] None None (example_clock 0) 0)
    1 example_clock [].

(** [new ComplexityState({maxHistory: 0.5})] *)
Definition half_session : Session :=
  mkSession
    (mkState (mkVector DEFAULT_VECTOR) [] (Fin 0.5) DEFAULT_WEIGHTS
       DEFAULT_DELTAS [] None None (example_clock 0) 0)
    1 example_clock [].

(** Three updates: two arrays and a vector. *)
Definition three_updates : list (value * option string) :=
  [(VArray [VNumber (Fin 0.1); VNumber (Fin 0.1); VNumber (Fin 0.1);
            VNumber (Fin 0.1)], Some "first");
   (VArray [VNumber (Fin 0.2); VNumber (Fin 0.2); VNumber (Fin 0.2);
            VNumber (Fin 0.2)], Some "second");
   (VVector (mkVector [Fin 0.3; Fin 0.3; Fin 0.3; Fin 0.3]), None)].

(** A payload with three history entries. *)
Definition payload_with_three_entries : Payload :=
  let v := VArray [VNumber (Fin 0.5); VNumber (Fin 0.5); VNumber (Fin 0.5);
                   VNumber (Fin 0.5)] in
  mkPayload v None None
    (Some [mkHistoryPayload v (Some "a") 1; mkHistoryPayload v (Some "b") 2;
           mkHistoryPayload v (Some "c") 3])
    None.

(** ** Sessions after undo *)

(** The session once [undo] has popped [previous] off a history whose
    other entries are [older]. *)
Definition undone (s : Session) (older : list HistoryEntry)
    (previous : HistoryEntry) : Session :=
  let st :=
    set_operationCount (S (operationCount (self s)))
      (set_lastOperation (Some "undo")
         (set_vector (h_vector previous) (set_history older (self s)))) in
  mkSession st (S (ticks s)) (clock s)
    (delivered s ++
     ((fun o => (o, undoUpdate (h_vector previous) (clock s (ticks s))))
        <$> observers st)).

(** The calls that are not meant to touch vector, history or counter. *)
Definition bookkeeping (c : call) : bool :=
  match c with
  | call_updateWeights _ | call_updateDeltas _ | call_subscribe _
  | call_unsubscribe _ | call_notifyObservers _ | call_export => true
  | _ => false
  end.

Definition is_import (c : call) : bool :=
  match c with call_import _ => true | _ => false end.

(** ** Labels *)

(** [toFixed] prints [x] in fixed notation: below 1e21 in absolute value
    when it is finite (from 1e21 on JavaScript switches to the exponent
    form, which [NumberFormat.toFixed3] leaves out). *)
Definition fixed_notation (x : number) : Prop :=
  forall q : Q, x = Fin q -> Qabs q < 1e21.

(** ** Statistics *)

(** [k] is the name of the first pillar whose component in [l] equals [m]. *)
Definition first_pillar_at (l : list number) (m : Q) (k : string) : Prop :=
  exists (i : nat) (q : Q),
    keys !! i = Some k /\ l !! i = Some (Fin q) /\ q == m /\
    forall (j : nat) (q' : Q),
      (j < i)%nat -> l !! j = Some (Fin q') -> ~ q' == m.

(** ** Signal loss *)

(** The step of the loop of [calculateSignalLoss] over the vector changes,
    for a given scalar change. *)
Definition loss_step (scalarDelta : number)
    (acc : gmap string number * number) (delta : number) (i : nat)
    : gmap string number * number :=
  let '(lostSignals, totalLoss) := acc in
  let key := default "undefined" (keys !! i) in
  if (delta > Fin 0)%js
     && (Math.abs scalarDelta < ComplexityMath.SIGNAL_LOSS_THRESHOLD)%js
  then (<[key := delta]> lostSignals, (totalLoss + delta)%js)
  else if (delta > Fin 0)%js && (scalarDelta < Fin 0)%js
  then (<[key := delta]> lostSignals, (totalLoss + delta)%js)
  else acc.

(** The changes [calculateSignalLoss] computes, component by component. *)
Definition vector_delta (before after : ComplexityVector) : list number :=
  imap (fun i v => (v - at_index (data before) i)%js) (data after).

(** ** The chart after a run of notifications *)

(** The chart built on [first] after it recorded the states [later], one
    for each notification. *)
Definition chart_after (maxPoints : option nat) (first : ComplexityState)
    (later : list ComplexityState) : TimeSeriesChart :=
  fold_left TimeSeries.recordState later (TimeSeries.new first maxPoints).

(** The six arrays of the chart all hold [n] points. *)
Definition parallel (h : Series) (n : nat) : Prop :=
  length (sr_operations h) = n /\ length (sr_algorithmic h) = n /\
  length (sr_information h) = n /\ length (sr_dynamical h) = n /\
  length (sr_geometric h) = n /\ length (sr_scalar h) = n.

(** * Properties *)

(** ** Numbers and clamping *)

Section NumberFacts.

Lemma Qltb_lt (a b : Q) : Number.Qltb a b = true <-> a < b.
Proof.
  unfold Number.Qltb. rewrite negb_true_iff.
  split; intros H.
  - apply Qnot_le_lt. intros Hle. apply Qle_bool_iff in Hle. congruence.
  - destruct (Qle_bool b a) eqn:E; [|reflexivity].
    apply Qle_bool_iff in E. exfalso. apply (Qlt_not_le _ _ H E).
Qed.

Lemma Qltb_ge (a b : Q) : Number.Qltb a b = false <-> b <= a.
Proof.
  unfold Number.Qltb. rewrite negb_false_iff. apply Qle_bool_iff.
Qed.

Lemma clamp_Fin (q : Q) :
  exists r : Q, Vector.clamp (Fin q) = Fin r /\ 0 <= r <= 1.
Proof.
  unfold Vector.clamp, Math.min, Math.max, Number.lt.
  destruct (Number.Qltb q 1) eqn:H1.
  - destruct (Number.Qltb 0 q) eqn:H0.
    + exists q. apply Qltb_lt in H1, H0. split; [reflexivity | lra].
    + exists 0. split; [reflexivity | lra].
  - simpl. exists 1. split; [reflexivity | lra].
Qed.

Lemma clamp_in_unit (x : number) :
  Number.isNaN x = false -> Vector.in_unit (Vector.clamp x).
Proof.
  destruct x as [q| | |]; intros H; try discriminate.
  - apply clamp_Fin.
  - exists 1. split; [reflexivity | lra].
  - exists 0. split; [reflexivity | lra].
Qed.

End NumberFacts.

(** ** The class invariant of [ComplexityVector] *)

Arguments Vector.clamp : simpl never.

Lemma in_unit_passes (x : number) :
  Vector.in_unit x ->
  Number.isNaN x = false /\ (x < Fin 0)%js || (x > Fin 1)%js = false.
Proof.
  intros (q & -> & H0 & H1). split; [reflexivity|].
  unfold Number.gt, Number.lt. apply orb_false_iff.
  split; apply Qltb_ge; assumption.
Qed.

Lemma validate_in_unit (l : list number) (i : nat) :
  Forall Vector.in_unit l -> Vector.validate_from i (VNumber <$> l) = Normal ().
Proof.
  intros H. revert i. induction H as [|x l Hx _ IH]; intros i; [reflexivity|].
  destruct (in_unit_passes x Hx) as [Hn Hr].
  cbn [fmap list_fmap Vector.validate_from]. rewrite Hn, Hr. apply IH.
Qed.

Lemma validate_sound (l : list value) (i : nat) :
  Vector.validate_from i l = Normal () ->
  Forall (fun v => Vector.in_unit (Vector.component v)) l.
Proof.
  revert i. induction l as [|v l IH]; intros i H; [constructor|].
  cbn [Vector.validate_from] in H.
  destruct v as [x| | | | | | |]; try discriminate.
  destruct (Number.isNaN x) eqn:Hn; [discriminate|].
  destruct ((x < Fin 0)%js || (x > Fin 1)%js) eqn:Hr; [discriminate|].
  constructor; [|exact (IH _ H)].
  apply orb_false_iff in Hr. destruct Hr as [H0 H1].
  destruct x as [q| | |]; try discriminate.
  exists q. split; [reflexivity|].
  unfold Number.gt, Number.lt in *. apply Qltb_ge in H0, H1. split; assumption.
Qed.

(** Whatever the constructor returns satisfies the invariant. *)
Lemma new_valid (args : list value) (v : ComplexityVector) :
  Vector.new args = Normal v -> Vector.valid v.
Proof.
  unfold Vector.new.
  set (passed := match Vector.param args 0 _ with VArray _ => _ | _ => _ end).
  assert (Hlen : length passed = 4%nat).
  { subst passed. destruct (Vector.param args 0 _); reflexivity. }
  unfold Vector.validate.
  destruct (Vector.validate_from 0 passed) as [[]|e] eqn:Hv; [|discriminate].
  cbn. intros [= <-]. split; cbn.
  - rewrite length_fmap. exact Hlen.
  - apply Forall_fmap. exact (validate_sound _ _ Hv).
Qed.

(** On four components in range the constructor returns them. *)
Lemma new_of_valid (l : list number) :
  length l = 4%nat -> Forall Vector.in_unit l ->
  Vector.new (VNumber <$> l) = Normal (mkVector l).
Proof.
  intros Hlen Hall.
  destruct l as [|a [|b [|c [|d [|]]]]]; try discriminate.
  pose proof (validate_in_unit _ 0 Hall) as Hv.
  unfold Vector.new, Vector.param. cbn [fmap list_fmap lookup list_lookup].
  unfold Vector.validate. cbn [fmap list_fmap] in Hv. rewrite Hv.
  reflexivity.
Qed.

Lemma clone_valid (v : ComplexityVector) :
  Vector.valid v -> Vector.clone v = Normal v.
Proof.
  intros [Hlen Hall]. unfold Vector.clone.
  rewrite (new_of_valid _ Hlen Hall). destruct v; reflexivity.
Qed.

Lemma clone_result_valid (v w : ComplexityVector) :
  Vector.clone v = Normal w -> Vector.valid w.
Proof. apply new_valid. Qed.

Lemma in_unitb_spec (x : number) : Vector.in_unitb x = true <-> Vector.in_unit x.
Proof.
  split.
  - destruct x as [q| | |]; try discriminate. cbn.
    intros [H0 H1]%andb_true_iff. apply Qle_bool_iff in H0, H1.
    exists q. auto.
  - intros (q & -> & H0 & H1). cbn. apply andb_true_iff.
    split; apply Qle_bool_iff; assumption.
Qed.

Lemma validb_spec (v : ComplexityVector) :
  Vector.validb v = true <-> Vector.valid v.
Proof.
  unfold Vector.validb, Vector.valid.
  rewrite andb_true_iff, Nat.eqb_eq, forallb_forall, Forall_forall.
  split; intros [Hl H]; (split; [exact Hl|]); intros x Hx.
  - apply in_unitb_spec, H. apply list_elem_of_In. exact Hx.
  - apply in_unitb_spec, H. apply list_elem_of_In. exact Hx.
Qed.

(** Destructs a valid vector into its four rational components. *)
Ltac components v Hv :=
  let l := fresh "l" in
  let Hlen := fresh "Hlen" in
  let Hall := fresh "Hall" in
  destruct v as [l]; destruct Hv as [Hlen Hall]; cbn [data] in Hlen, Hall;
  destruct l as [|? [|? [|? [|? [|]]]]]; try discriminate Hlen;
  repeat match goal with
         | H : Forall _ (_ :: _) |- _ =>
             let Hx := fresh "Hx" in
             apply Forall_cons in H; destruct H as [Hx H];
             destruct Hx as (? & -> & ?)
         end;
  clear Hlen Hall.

Ltac all_clamped :=
  repeat (apply List.Forall_cons; [apply clamp_in_unit; reflexivity|]);
  apply List.Forall_nil.

Lemma add_valid (a b : ComplexityVector) :
  Vector.valid a -> Vector.valid b ->
  exists r, Vector.add a b = Normal r /\ Vector.valid r.
Proof.
  intros Ha Hb. components a Ha. components b Hb.
  unfold Vector.add. cbn [data imap at_index lookup list_lookup default Number.add].
  eexists. split.
  - apply new_of_valid; [reflexivity|].
    all_clamped.
  - split; [reflexivity|].
    all_clamped.
Qed.

Lemma subtract_valid (a b : ComplexityVector) :
  Vector.valid a -> Vector.valid b ->
  exists r, Vector.subtract a b = Normal r /\ Vector.valid r.
Proof.
  intros Ha Hb. components a Ha. components b Hb.
  unfold Vector.subtract. cbn [data].
  eexists. split.
  - apply new_of_valid; [reflexivity|].
    cbn. all_clamped.
  - split; [reflexivity|].
    cbn. all_clamped.
Qed.

Lemma scale_valid (a : ComplexityVector) (factor : Q) :
  Vector.valid a ->
  exists r, Vector.scale a (Fin factor) = Normal r /\ Vector.valid r.
Proof.
  intros Ha. components a Ha.
  unfold Vector.scale. cbn [data].
  eexists. split.
  - apply new_of_valid; [reflexivity|].
    cbn. all_clamped.
  - split; [reflexivity|].
    cbn. all_clamped.
Qed.

(** ** Vector arithmetic *)

(** C8, as amended: for valid vectors [a] and [b], [a.add(b)] and
    [a.subtract(b)] return a vector whose components all lie in [0,1], and
    so does [a.scale(factor)] for every finite [factor]. *)
Theorem C8_add_subtract_scale_stay_in_range
    (a b : ComplexityVector) (factor : Q) :
  Vector.valid a -> Vector.valid b ->
  (exists r, Vector.add a b = Normal r /\ Vector.valid r) /\
  (exists r, Vector.subtract a b = Normal r /\ Vector.valid r) /\
  (exists r, Vector.scale a (Fin factor) = Normal r /\ Vector.valid r).
Proof.
  intros Ha Hb. split; [|split].
  - exact (add_valid a b Ha Hb).
  - exact (subtract_valid a b Ha Hb).
  - exact (scale_valid a factor Ha).
Qed.

Lemma C8_witness :
  let a := mkVector [Fin 0.8; Fin 0.4; Fin 0.6; Fin 0.3] in
  let b := mkVector [Fin 0.5; Fin 0.5; Fin 0.5; Fin 0.5] in
  Vector.valid a /\ Vector.valid b /\
  (exists r, Vector.add a b = Normal r /\ Vector.valid r) /\
  (exists r, Vector.subtract a b = Normal r /\ Vector.valid r) /\
  (exists r, Vector.scale a (Fin 3) = Normal r /\ Vector.valid r).
Proof.
  intros a b.
  assert (Ha : Vector.valid a) by (apply validb_spec; reflexivity).
  assert (Hb : Vector.valid b) by (apply validb_spec; reflexivity).
  split; [exact Ha|]. split; [exact Hb|].
  exact (C8_add_subtract_scale_stay_in_range a b 3 Ha Hb).
Defined.

(** C8 as stated fails: [Infinity] is a number, and scaling a vector that
    has a zero component by it multiplies 0 by Infinity, which is NaN; the
    constructor then throws. *)
Lemma C8_scale_by_infinity_throws :
  ~ (forall (a : ComplexityVector) (factor : number),
       Vector.valid a -> Number.isNaN factor = false ->
       exists r, Vector.scale a factor = Normal r /\ Vector.valid r).
Proof.
  intros H.
  destruct (H (mkVector [Fin 0; Fin 0.5; Fin 0.5; Fin 0.5]) PInf) as (r & Hr & _).
  - apply validb_spec. reflexivity.
  - reflexivity.
  - vm_compute in Hr. discriminate Hr.
Qed.

(** ** Signal loss *)

(** C3, as amended: on before = [0.5,0.5,0.5,0.5], after = [0.7,0.5,0.5,0.5]
    and equal weights, [calculateSignalLoss] flags no dimension as lost (total
    0, empty per-dimension map), and the loss type is [compression]: the
    scalar change is above epsilon and below half of the magnitude of the
    vector change. *)
Theorem C3_signal_loss_example :
  exists r : SignalLoss,
    ComplexityMath.calculateSignalLoss
      (mkVector [Fin 0.5; Fin 0.5; Fin 0.5; Fin 0.5])
      (mkVector [Fin 0.7; Fin 0.5; Fin 0.5; Fin 0.5])
      (Some [Fin 0.25; Fin 0.25; Fin 0.25; Fin 0.25]) = Normal r /\
    total r = Fin 0 /\
    byPillar r = ∅ /\
    lossType r = compression.
Proof.
  eexists. split; [vm_compute; reflexivity|].
  cbn [total byPillar lossType].
  repeat split.
Qed.

(** C3 as stated fails: the report's loss type on that input is not
    [none]. *)
Lemma C3_loss_type_is_not_none :
  ~ (exists r : SignalLoss,
       ComplexityMath.calculateSignalLoss
         (mkVector [Fin 0.5; Fin 0.5; Fin 0.5; Fin 0.5])
         (mkVector [Fin 0.7; Fin 0.5; Fin 0.5; Fin 0.5])
         (Some [Fin 0.25; Fin 0.25; Fin 0.25; Fin 0.25]) = Normal r /\
       total r = Fin 0 /\ byPillar r = ∅ /\ lossType r = none).
Proof.
  intros (r & Hr & _ & _ & Hnone).
  vm_compute in Hr. injection Hr as <-. discriminate Hnone.
Qed.

(** ** The demonstration cycle *)

Section Cycle.

Lemma bind_Normal {A B : Type} (a : A) (f : A -> result B) :
  (Normal a ≫= f) = f a.
Proof. reflexivity. Qed.

Lemma add_not_NaN (q : Q) (delta : number) :
  Number.isNaN delta = false -> Number.isNaN (Fin q + delta)%js = false.
Proof. destruct delta; intros H; try discriminate; reflexivity. Qed.

Lemma insert_in_unit (l : list number) (i : nat) (x : number) :
  Forall Vector.in_unit l -> Vector.in_unit x ->
  Forall Vector.in_unit (<[i := x]> l).
Proof. intros Hl Hx. apply Forall_insert; assumption. Qed.

Lemma at_index_in_unit (l : list number) (i : nat) :
  Forall Vector.in_unit l -> (i < length l)%nat ->
  exists q : Q, at_index l i = Fin q.
Proof.
  intros Hl Hi. unfold at_index.
  destruct (lookup_lt_is_Some_2 l i Hi) as [x Hx]. rewrite Hx. cbn.
  destruct (Forall_lookup_1 _ _ _ _ Hl Hx) as (q & -> & _). eauto.
Qed.

(** Improving a named pillar of a valid vector by a step that is not NaN
    returns a valid vector. *)
Lemma applyImprovement_valid (v : ComplexityVector) (pillar : string)
    (delta : number) :
  Vector.valid v -> pillar ∈ keys -> Number.isNaN delta = false ->
  exists r, ComplexityMath.applyImprovement v pillar delta = Normal r
            /\ Vector.valid r.
Proof.
  intros Hv Hk Hd.
  assert (Hidx : exists i, Vector.indexOf pillar = Some i /\ (i < 4)%nat).
  { unfold keys in Hk. repeat (apply elem_of_cons in Hk; destruct Hk as [->|Hk]);
      [exists 0%nat|exists 1%nat|exists 2%nat|exists 3%nat|];
      try (split; [vm_compute; reflexivity | lia]).
    apply elem_of_nil in Hk. destruct Hk. }
  destruct Hidx as (i & Hidx & Hi).
  unfold ComplexityMath.applyImprovement.
  rewrite (clone_valid v Hv), bind_Normal.
  unfold Vector.get, Vector.set. rewrite Hidx.
  destruct Hv as [Hlen Hall].
  destruct (at_index_in_unit (data v) i Hall) as [q Hq]; [lia|]. rewrite Hq.
  pose proof (clamp_in_unit _ (add_not_NaN q delta Hd)) as Hc.
  unfold Vector.validate.
  change [VNumber (Vector.clamp (Fin q + delta))]
    with (VNumber <$> [Vector.clamp (Fin q + delta)%js]).
  rewrite validate_in_unit by (constructor; [exact Hc | constructor]).
  eexists. split; [reflexivity|].
  split; cbn [data Vector.component fmap list_fmap].
  - rewrite length_insert. exact Hlen.
  - apply insert_in_unit; assumption.
Qed.

Lemma computeScalarAverage_returns (v : ComplexityVector)
    (w : option (list number)) :
  exists s, ComplexityMath.computeScalarAverage (Some v) w = Normal s.
Proof.
  unfold ComplexityMath.computeScalarAverage.
  destruct (_ > EPSILON)%js; eexists; reflexivity.
Qed.

Lemma abs_diff_self (q : Q) :
  (Math.abs (Fin q - Fin q) < EPSILON)%js = true.
Proof.
  unfold Number.sub, Number.neg, Number.add, Math.abs, Number.lt, EPSILON.
  apply Qltb_lt.
  assert (H : q + - q == 0) by ring.
  rewrite H. reflexivity.
Qed.

(** A valid vector equals itself under the default tolerance. *)
Lemma equals_refl (v : ComplexityVector) :
  Vector.valid v -> Vector.equals v (Some v) EPSILON = true.
Proof.
  intros Hv. components v Hv. unfold Vector.equals.
  cbn [data imap forallb at_index lookup list_lookup default id compose].
  rewrite !abs_diff_self. reflexivity.
Qed.

Lemma step_numeric (deltas : gmap string number) (key : string) :
  numeric_steps deltas -> key ∈ keys ->
  Number.isNaN (ComplexityMath.step deltas key) = false.
Proof.
  intros H Hk. destruct (H key Hk) as (d & Hd & Hn).
  unfold ComplexityMath.step. rewrite Hd. exact Hn.
Qed.

End Cycle.

(** C6: for a valid initial vector and step sizes that are numbers,
    [generateCycle] returns six states, and the last one equals the initial
    vector under [equals] with the default tolerance. *)
Theorem C6_cycle_returns_to_initial
    (initial : ComplexityVector) (deltas : gmap string number) :
  Vector.valid initial -> numeric_steps deltas ->
  exists c final,
    ComplexityMath.generateCycle initial deltas = Normal c /\
    length (states c) = 6%nat /\
    last (states c) = Some final /\
    Vector.equals final (Some initial) EPSILON = true.
Proof.
  intros Hv Hd.
  unfold ComplexityMath.generateCycle.
  rewrite (clone_valid initial Hv), !bind_Normal.
  destruct (applyImprovement_valid initial "alg" _ Hv
              ltac:(unfold keys; set_solver) (step_numeric _ "alg" Hd ltac:(unfold keys; set_solver)))
    as (c1 & -> & H1).
  rewrite bind_Normal, (clone_valid c1 H1), bind_Normal.
  destruct (applyImprovement_valid c1 "info" _ H1
              ltac:(unfold keys; set_solver) (step_numeric _ "info" Hd ltac:(unfold keys; set_solver)))
    as (c2 & -> & H2).
  rewrite bind_Normal, (clone_valid c2 H2), bind_Normal.
  destruct (applyImprovement_valid c2 "dyn" _ H2
              ltac:(unfold keys; set_solver) (step_numeric _ "dyn" Hd ltac:(unfold keys; set_solver)))
    as (c3 & -> & H3).
  rewrite bind_Normal, (clone_valid c3 H3), bind_Normal.
  destruct (applyImprovement_valid c3 "geom" _ H3
              ltac:(unfold keys; set_solver) (step_numeric _ "geom" Hd ltac:(unfold keys; set_solver)))
    as (c4 & -> & H4).
  rewrite bind_Normal, (clone_valid c4 H4), bind_Normal.
  cbn [lookup list_lookup].
  destruct (computeScalarAverage_returns initial None) as (si & ->).
  destruct (computeScalarAverage_returns c4 None) as (sf & ->).
  rewrite !bind_Normal.
  eexists. exists initial. split; [reflexivity|].
  cbn [states]. split; [reflexivity|]. split; [reflexivity|].
  exact (equals_refl initial Hv).
Qed.

Lemma C6_witness :
  Vector.valid (mkVector [Fin 0.8; Fin 0.4; Fin 0.6; Fin 0.3]) /\
  numeric_steps DEFAULT_DELTAS /\
  exists c final,
    ComplexityMath.generateCycle
      (mkVector [Fin 0.8; Fin 0.4; Fin 0.6; Fin 0.3]) DEFAULT_DELTAS = Normal c /\
    length (states c) = 6%nat /\
    last (states c) = Some final /\
    Vector.equals final (Some (mkVector [Fin 0.8; Fin 0.4; Fin 0.6; Fin 0.3]))
      EPSILON = true.
Proof.
  assert (Hv : Vector.valid (mkVector [Fin 0.8; Fin 0.4; Fin 0.6; Fin 0.3]))
    by (apply validb_spec; reflexivity).
  assert (Hd : numeric_steps DEFAULT_DELTAS).
  { intros key Hk. unfold keys in Hk.
    repeat (apply elem_of_cons in Hk; destruct Hk as [->|Hk]);
      try (eexists; split; [vm_compute; reflexivity | reflexivity]).
    apply elem_of_nil in Hk. destruct Hk. }
  split; [exact Hv|]. split; [exact Hd|].
  exact (C6_cycle_returns_to_initial _ _ Hv Hd).
Defined.

(** ** The state manager: what each method does to a session *)

Lemma M_bind_unfold {A B : Type} (m : M A) (f : A -> M B) (s : Session) :
  (m ≫= f) s =
  match m s with
  | (s', Normal a) => f a s'
  | (s', Throw e) => (s', Throw e)
  end.
Proof. reflexivity. Qed.

(** Unfolds the plumbing of [M] and computes. *)
Ltac run_effects :=
  unfold mbind, M_bind, mret, M_ret, State.notify, Effect.this, Effect.modify,
    Effect.Date_now, Effect.lift, Effect.deliver, Effect.throw;
  cbn -[Nat.ltb].

Lemma addToHistory_current (s : Session) (operation : option string) :
  Vector.valid (vector (self s)) ->
  State.addToHistory (vector (self s)) operation s
  = (logged s operation, Normal ()).
Proof.
  intros Hv. unfold State.addToHistory.
  rewrite M_bind_unfold. unfold Effect.lift at 1.
  rewrite (clone_valid _ Hv).
  destruct s as [st n clk dl].
  unfold mbind, M_bind, mret, M_ret, Effect.this, Effect.modify,
    Effect.Date_now, logged, trimmed, logged_entry.
  cbn -[Number.gt State.length_of].
  destruct (_ > _)%js; reflexivity.
Qed.

(** What [updateVector] does, by the shape of its argument. *)
Lemma updateVector_spec (s : Session) (newVector : value)
    (operation : option string) :
  Vector.valid (vector (self s)) ->
  State.updateVector newVector operation s =
  match newVector with
  | VArray items =>
      match Vector.new items with
      | Normal v => (updated s v operation, Normal ())
      | Throw e => (logged s operation, Throw e)
      end
  | VVector nv =>
      match Vector.clone nv with
      | Normal v => (updated s v operation, Normal ())
      | Throw e => (logged s operation, Throw e)
      end
  | _ => (logged s operation, Throw InvalidVectorType)
  end.
Proof.
  intros Hv. unfold State.updateVector.
  rewrite M_bind_unfold. unfold Effect.this at 1. cbn iota.
  rewrite M_bind_unfold. unfold Effect.lift at 1.
  rewrite (clone_valid _ Hv). cbn iota.
  rewrite M_bind_unfold, (addToHistory_current s operation Hv). cbn iota.
  destruct newVector as [x| | |b|str|items|nv|]; try reflexivity.
  - rewrite !M_bind_unfold. unfold Effect.lift at 1.
    destruct (Vector.new items) as [v|e]; reflexivity.
  - rewrite !M_bind_unfold. unfold Effect.lift at 1.
    destruct (Vector.clone nv) as [v|e]; reflexivity.
Qed.

(** A failed [updateVector] has already logged the current vector: the
    vector and the operation counter are as before, the history is not. *)
Lemma failed_updateVector (s s' : Session) (newVector : value)
    (operation : option string) (e : error) :
  Vector.valid (vector (self s)) ->
  State.updateVector newVector operation s = (s', Throw e) ->
  vector (self s') = vector (self s) /\
  operationCount (self s') = operationCount (self s) /\
  history (self s') =
    trimmed (maxHistory (self s))
      (history (self s) ++ [logged_entry s operation]).
Proof.
  intros Hv H. rewrite (updateVector_spec _ _ _ Hv) in H.
  assert (Hs : s' = logged s operation).
  { destruct newVector as [x| | |b|str|items|nv|]; try (injection H as <- _; reflexivity).
    - destruct (Vector.new items); [discriminate | injection H as <- _; reflexivity].
    - destruct (Vector.clone nv); [discriminate | injection H as <- _; reflexivity]. }
  subst s'. destruct s as [[] ? ? ?]. repeat split.
Qed.

(** A successful [updateVector] installs a valid vector. *)
Lemma successful_updateVector (s s' : Session) (newVector : value)
    (operation : option string) :
  Vector.valid (vector (self s)) ->
  State.updateVector newVector operation s = (s', Normal ()) ->
  exists v, Vector.valid v /\ s' = updated s v operation.
Proof.
  intros Hv H. rewrite (updateVector_spec _ _ _ Hv) in H.
  destruct newVector as [x| | |b|str|items|nv|]; try discriminate.
  - destruct (Vector.new items) as [v|] eqn:E; [|discriminate].
    injection H as <-. exists v. split; [exact (new_valid _ _ E) | reflexivity].
  - destruct (Vector.clone nv) as [v|] eqn:E; [|discriminate].
    injection H as <-. exists v.
    split; [exact (clone_result_valid _ _ E) | reflexivity].
Qed.

Lemma new_default :
  State.new (mkConfig None None None None) example_clock = Normal initial_session.
Proof. reflexivity. Qed.

(** C2, at two failing inputs: on a fresh session, [updateVector("bad")] and
    [updateVector([2, 0.5, 0.5, 0.5])] both throw, and both leave the vector
    and the operation counter alone, but the history, empty before the call,
    holds one entry after it. *)
Theorem C2_failed_update_has_logged_history :
  let bad_type := State.updateVector (VString "bad") None initial_session in
  let bad_range :=
    State.updateVector
      (VArray [VNumber (Fin 2); VNumber (Fin 0.5); VNumber (Fin 0.5);
               VNumber (Fin 0.5)]) None initial_session in
  bad_type.2 = Throw InvalidVectorType /\
  bad_range.2 = Throw (OutOfRange 0 (VNumber (Fin 2))) /\
  history (self initial_session) = [] /\
  length (history (self bad_type.1)) = 1%nat /\
  length (history (self bad_range.1)) = 1%nat /\
  vector (self bad_type.1) = vector (self initial_session) /\
  vector (self bad_range.1) = vector (self initial_session) /\
  operationCount (self bad_type.1) = 0%nat /\
  operationCount (self bad_range.1) = 0%nat.
Proof. vm_compute. repeat split. Qed.

(** ** reset *)

Lemma trimmed_exceeds (max : number) (h : list HistoryEntry) :
  trimmed max h = if exceeds (length h) max then tail h else h.
Proof. reflexivity. Qed.

(** More entries than too many are too many. *)
Lemma exceeds_mono (n n' : nat) (max : number) :
  (n <= n')%nat -> exceeds n max = true -> exceeds n' max = true.
Proof.
  intros Hn. unfold exceeds, Number.gt, Number.lt.
  destruct max as [q| | |]; try (intros H; exact H).
  rewrite !Qltb_lt. intros H.
  apply Qlt_le_trans with (1 := H).
  rewrite <- Zle_Qle. lia.
Qed.

Lemma exceeds_false_le (n n' : nat) (max : number) :
  (n' <= n)%nat -> exceeds n max = false -> exceeds n' max = false.
Proof.
  intros Hn H. destruct (exceeds n' max) eqn:E; [|reflexivity].
  rewrite (exceeds_mono n' n max Hn E) in H. discriminate.
Qed.

(** Against a natural number [c], more than [c] entries are too many. *)
Lemma exceeds_integer (c n : nat) :
  exceeds n (Fin (inject_Z (Z.of_nat c))) = (c <? n)%nat.
Proof.
  unfold exceeds, Number.gt, Number.lt.
  destruct (Nat.ltb_spec c n) as [H|H].
  - apply Qltb_lt. rewrite <- Zlt_Qlt. lia.
  - apply Qltb_ge. rewrite <- Zle_Qle. lia.
Qed.

Lemma trimmed_singleton (max : number) (e : HistoryEntry) :
  exceeds 1 max = false -> trimmed max [e] = [e].
Proof. intros H. rewrite trimmed_exceeds. cbn [length]. rewrite H. reflexivity. Qed.

Lemma reset_unfold (s : Session) (initial : value) :
  State.reset initial s
  = State.updateVector (reset_argument initial) (Some "reset") (cleared s).
Proof. destruct s as [[] n clk dl]. reflexivity. Qed.

(** C10, as amended: on a session whose [maxHistory] admits one entry (1 is
    not more than [maxHistory], as with the default 100), after a successful
    [reset] the history is exactly one entry, the snapshot of the vector
    that was current when [reset] was called, logged under the label "reset"
    with operation index 0, and the operation counter is 1. *)
Theorem C10_reset_logs_previous_vector (s s' : Session) (initial : value) :
  Vector.valid (vector (self s)) ->
  exceeds 1 (maxHistory (self s)) = false ->
  State.reset initial s = (s', Normal ()) ->
  operationCount (self s') = 1%nat /\
  exists e : HistoryEntry,
    history (self s') = [e] /\
    h_vector e = vector (self s) /\
    h_operation e = Some "reset" /\
    h_timestamp e = clock s (ticks s) /\
    h_scalar e = Some (State.getScalar (self s) (Some (vector (self s))) None) /\
    h_operationIndex e = Some 0%nat.
Proof.
  intros Hv Hmax H. rewrite reset_unfold in H.
  assert (Hc : Vector.valid (vector (self (cleared s))))
    by (destruct s as [[] n clk dl]; exact Hv).
  destruct (successful_updateVector _ _ _ _ Hc H) as (v & _ & ->).
  destruct s as [st n clk dl].
  unfold updated, logged, logged_entry, cleared, with_self.
  cbn [self history operationCount
    set_history set_operationCount set_lastOperation set_vector maxHistory
    app vector ticks clock] in *.
  rewrite (trimmed_singleton _ _ Hmax). split; [reflexivity|].
  eexists. split; [reflexivity|]. repeat split.
Qed.

(** [reset()] and [reset] to a valid vector do succeed. *)
Lemma reset_returns (s : Session) (v : ComplexityVector) :
  Vector.valid (vector (self s)) -> Vector.valid v ->
  (exists s', State.reset VUndefined s = (s', Normal ())) /\
  (exists s', State.reset (VVector v) s = (s', Normal ())) /\
  (exists s', State.reset (VArray (VNumber <$> data v)) s = (s', Normal ())).
Proof.
  intros Hs Hv.
  assert (Hc : Vector.valid (vector (self (cleared s))))
    by (destruct s as [[] n clk dl]; exact Hs).
  rewrite !reset_unfold. cbn [reset_argument]. repeat split.
  - rewrite updateVector_spec by exact Hc. eexists. reflexivity.
  - rewrite updateVector_spec by exact Hc. rewrite (clone_valid v Hv).
    eexists. reflexivity.
  - rewrite updateVector_spec by exact Hc.
    destruct Hv as [Hl Ha]. rewrite (new_of_valid _ Hl Ha).
    eexists. reflexivity.
Qed.

Lemma C10_witness :
  let s1 :=
    updated (cleared initial_session) (mkVector DEFAULT_VECTOR) (Some "reset") in
  Vector.valid (vector (self initial_session)) /\
  exceeds 1 (maxHistory (self initial_session)) = false /\
  State.reset VUndefined initial_session = (s1, Normal ()) /\
  operationCount (self s1) = 1%nat /\
  exists e : HistoryEntry,
    history (self s1) = [e] /\
    h_vector e = vector (self initial_session) /\
    h_operation e = Some "reset" /\
    h_timestamp e = clock initial_session (ticks initial_session) /\
    h_scalar e =
      Some (State.getScalar (self initial_session)
              (Some (vector (self initial_session))) None) /\
    h_operationIndex e = Some 0%nat.
Proof.
  intros s1.
  assert (Hv : Vector.valid (vector (self initial_session)))
    by (apply validb_spec; reflexivity).
  assert (Hm : exceeds 1 (maxHistory (self initial_session)) = false)
    by reflexivity.
  assert (Hr : State.reset VUndefined initial_session = (s1, Normal ()))
    by (vm_compute; reflexivity).
  split; [exact Hv|]. split; [exact Hm|]. split; [exact Hr|].
  exact (C10_reset_logs_previous_vector initial_session s1 VUndefined Hv Hm Hr).
Defined.

Lemma new_half :
  State.new (mkConfig None (Some (Fin 0.5)) None None) example_clock
  = Normal half_session.
Proof. reflexivity. Qed.

(** C10 as stated fails: the constructor keeps any [maxHistory] that is
    truthy, and on a state built with [maxHistory] 0.5 [addToHistory] shifts
    out the entry [reset] has just logged: the call returns normally, the
    operation counter is 1 and the history is empty. *)
Lemma C10_reset_on_fractional_maxHistory :
  ~ (forall (s s' : Session) (initial : value),
       reachable s ->
       State.reset initial s = (s', Normal ()) ->
       operationCount (self s') = 1%nat /\
       exists e : HistoryEntry,
         history (self s') = [e] /\ h_vector e = vector (self s)).
Proof.
  intros H.
  assert (Hr : State.reset VUndefined half_session
               = ((State.reset VUndefined half_session).1, Normal ()))
    by (vm_compute; reflexivity).
  destruct (H half_session _ VUndefined (reachable_new _ _ _ new_half) Hr)
    as (_ & e & He & _).
  vm_compute in He. discriminate He.
Qed.

(** On that state [reset] leaves the history empty. *)
Lemma reset_on_fractional_maxHistory :
  let s' := (State.reset VUndefined half_session).1 in
  State.reset VUndefined half_session = (s', Normal ()) /\
  operationCount (self s') = 1%nat /\
  history (self s') = [].
Proof. vm_compute. repeat split. Qed.

(** ** improve with an index that names no pillar *)

Lemma array_set_out_of_range (a b c d x : value) (pillar : Z) :
  (pillar < 0 \/ 3 < pillar)%Z ->
  exists rest, State.array_set [a; b; c; d] pillar x = [a; b; c; d] ++ rest.
Proof.
  intros Hp. unfold State.array_set.
  destruct ((pillar <? 0) || (4294967295 <=? pillar))%Z eqn:E.
  - exists []. reflexivity.
  - apply orb_false_iff in E. destruct E as [E _]. apply Z.ltb_ge in E.
    destruct (Nat.ltb_spec (Z.to_nat pillar) (length [a; b; c; d])) as [H|H].
    + cbn [length] in H. lia.
    + eexists. reflexivity.
Qed.

Lemma new_four_and_more (a b c d : value) (rest : list value) :
  Vector.new ([a; b; c; d] ++ rest) = Vector.new [a; b; c; d].
Proof. reflexivity. Qed.

Lemma key_name_out_of_range (pillar : Z) :
  (pillar < 0 \/ 3 < pillar)%Z -> State.key_name pillar = "undefined".
Proof.
  intros Hp. unfold State.key_name.
  destruct (Z.ltb_spec pillar 0) as [H|H]; [reflexivity|].
  assert (Hn : (4 <= Z.to_nat pillar)%nat) by lia.
  destruct (Z.to_nat pillar) as [|[|[|[|n]]]]; try lia. reflexivity.
Qed.

(** C9: [improve] with a pillar index outside 0..3 returns normally whatever
    number [delta] is; the vector is what it was, and yet the call has logged
    a history entry (under the label improve_undefined_<delta>), incremented
    the operation counter and delivered a [vectorUpdate] to every observer. *)
Theorem C9_improve_out_of_range (s : Session) (pillar : Z) (delta : number) :
  Vector.valid (vector (self s)) ->
  (pillar < 0 \/ 3 < pillar)%Z ->
  let label := Some ("improve_undefined_" +:+ NumberFormat.toFixed3 delta) in
  exists s',
    State.improve pillar delta s = (s', Normal ()) /\
    vector (self s') = vector (self s) /\
    history (self s') =
      trimmed (maxHistory (self s))
        (history (self s) ++ [logged_entry s label]) /\
    operationCount (self s') = S (operationCount (self s)) /\
    delivered s' =
      delivered s ++
      ((fun o => (o, vectorUpdate (vector (self s)) label (clock s (S (ticks s)))))
         <$> observers (self s)).
Proof.
  intros Hv Hp label.
  exists (updated s (vector (self s)) label). split.
  - unfold State.improve. rewrite M_bind_unfold. unfold Effect.this at 1.
    cbn iota. rewrite M_bind_unfold. unfold Effect.lift at 1.
    pose proof Hv as Hv'. destruct Hv' as [Hlen Hall].
    unfold Vector.toArray.
    destruct (data (vector (self s))) as [|a [|b [|c [|d [|]]]]] eqn:Hd;
      try discriminate Hlen.
    cbn [fmap list_fmap].
    destruct (array_set_out_of_range (VNumber a) (VNumber b) (VNumber c)
                (VNumber d)
                (VNumber (Vector.clamp (State.array_get [a; b; c; d] pillar + delta)))
                pillar Hp) as [rest ->].
    rewrite new_four_and_more.
    change [VNumber a; VNumber b; VNumber c; VNumber d]
      with (VNumber <$> [a; b; c; d]).
    rewrite (new_of_valid _ Hlen Hall). cbn iota.
    rewrite (key_name_out_of_range pillar Hp).
    rewrite (updateVector_spec _ _ _ Hv).
    assert (Hclone : Vector.clone (mkVector [a; b; c; d]) = Normal (vector (self s))).
    { rewrite clone_valid; [|split; assumption].
      destruct (vector (self s)); cbn in Hd; subst; reflexivity. }
    rewrite Hclone. reflexivity.
  - destruct s as [[] n clk dl]. repeat split.
Qed.

Lemma C9_witness :
  let label := Some ("improve_undefined_" +:+ NumberFormat.toFixed3 (Fin 0.1)) in
  Vector.valid (vector (self observed_session)) /\
  (7 < 0 \/ 3 < 7)%Z /\
  exists s',
    State.improve 7 (Fin 0.1) observed_session = (s', Normal ()) /\
    vector (self s') = vector (self observed_session) /\
    history (self s') =
      trimmed (maxHistory (self observed_session))
        (history (self observed_session) ++ [logged_entry observed_session label]) /\
    operationCount (self s') = S (operationCount (self observed_session)) /\
    delivered s' =
      delivered observed_session ++
      ((fun o => (o, vectorUpdate (vector (self observed_session)) label
                       (clock observed_session (S (ticks observed_session)))))
         <$> observers (self observed_session)).
Proof.
  intros label.
  assert (Hv : Vector.valid (vector (self observed_session)))
    by (apply validb_spec; reflexivity).
  assert (Hp : (7 < 0 \/ 3 < 7)%Z) by (right; lia).
  split; [exact Hv|]. split; [exact Hp|].
  exact (C9_improve_out_of_range observed_session 7 (Fin 0.1) Hv Hp).
Defined.

(** On the session with two observers, [improve(7, 0.1)] delivers the same
    [vectorUpdate] to both, in subscription order. *)
Lemma improve_out_of_range_notifies_both :
  delivered (State.improve 7 (Fin 0.1) observed_session).1
  = [(1%nat, vectorUpdate (mkVector DEFAULT_VECTOR)
               (Some "improve_undefined_0.100") (example_clock 2));
     (2%nat, vectorUpdate (mkVector DEFAULT_VECTOR)
               (Some "improve_undefined_0.100") (example_clock 2))].
Proof. reflexivity. Qed.

(** ** The bound on the history *)

Lemma trimmed_newest (c : nat) (h : list HistoryEntry) :
  (length h <= S c)%nat ->
  trimmed (count c) h = newest c h.
Proof.
  intros H. rewrite trimmed_exceeds. unfold count, newest.
  rewrite exceeds_integer.
  destruct (Nat.ltb_spec c (length h)) as [Hlt|Hge].
  - replace (length h - c)%nat with 1%nat by lia.
    destruct h; reflexivity.
  - replace (length h - c)%nat with 0%nat by lia. reflexivity.
Qed.

Lemma newest_length {A : Type} (n : nat) (l : list A) :
  length (newest n l) = Nat.min n (length l).
Proof. unfold newest. rewrite length_drop. lia. Qed.

Lemma newest_app {A : Type} (n : nat) (l k : list A) :
  newest n (newest n l ++ k) = newest n (l ++ k).
Proof.
  unfold newest at 1 3.
  rewrite !length_app, newest_length. unfold newest.
  destruct (Nat.le_gt_cases (length l) n) as [H|H].
  - replace (length l - n)%nat with 0%nat by lia. rewrite drop_0.
    f_equal. lia.
  - rewrite <- (drop_app_le l k (length l - n)) by lia.
    rewrite drop_drop. f_equal. lia.
Qed.

Lemma updated_history (s : Session) (v : ComplexityVector)
    (operation : option string) :
  history (self (updated s v operation))
  = trimmed (maxHistory (self s))
      (history (self s) ++ [logged_entry s operation]) /\
  maxHistory (self (updated s v operation)) = maxHistory (self s) /\
  vector (self (updated s v operation)) = v.
Proof. destruct s as [[] n clk dl]. repeat split. Qed.

(** After any successful run of [updateVector] calls on a session whose
    [maxHistory] is a count [c] and whose history is within this bound, the
    history is the newest [c] entries of everything logged so far. *)
Lemma update_all_history (calls : list (value * option string)) (c : nat) :
  forall s s' : Session,
    Vector.valid (vector (self s)) ->
    maxHistory (self s) = count c ->
    (length (history (self s)) <= c)%nat ->
    update_all calls s = (s', Normal ()) ->
    maxHistory (self s') = maxHistory (self s) /\
    history (self s') = newest c (history (self s) ++ log_of calls s).
Proof.
  induction calls as [|[newVector operation] rest IH];
    intros s s' Hv Hmax Hlen Hrun.
  - injection Hrun as <-. split; [reflexivity|].
    cbn [log_of]. rewrite app_nil_r. unfold newest.
    replace (_ - _)%nat with 0%nat by lia. reflexivity.
  - cbn [update_all log_of] in *. rewrite M_bind_unfold in Hrun.
    destruct (State.updateVector newVector operation s) as [s1 [[]|e]] eqn:Hstep;
      [|discriminate].
    destruct (successful_updateVector _ _ _ _ Hv Hstep) as (v & Hvalid & ->).
    destruct (updated_history s v operation) as (Hh & Hm & Hvec).
    assert (Htrim : history (self (updated s v operation))
                    = newest c (history (self s) ++ [logged_entry s operation])).
    { rewrite Hh, Hmax. apply trimmed_newest.
      rewrite length_app. cbn [length]. lia. }
    destruct (IH (updated s v operation) s') as [IHm IHh].
    + rewrite Hvec. exact Hvalid.
    + rewrite Hm. exact Hmax.
    + rewrite Htrim, newest_length. lia.
    + exact Hrun.
    + split; [congruence|].
      cbn [fst]. rewrite IHh, Htrim, newest_app, <- app_assoc. reflexivity.
Qed.

Lemma log_of_length (calls : list (value * option string)) (s : Session) :
  length (log_of calls s) = length calls.
Proof.
  revert s. induction calls as [|[v op] rest IH]; intros s; [reflexivity|].
  cbn [log_of length]. rewrite IH. reflexivity.
Qed.

(** Where the bound does hold: on a session whose [maxHistory] is a count
    [c] and whose history holds at most [c] entries, [c + k] successful
    [updateVector] calls leave exactly [c] entries, and they are the most
    recent ones of the old history followed by the entries the calls logged,
    in that order. *)
Lemma history_bounded_fifo
    (s s' : Session) (calls : list (value * option string)) (c k : nat) :
  Vector.valid (vector (self s)) ->
  maxHistory (self s) = count c ->
  (length (history (self s)) <= c)%nat ->
  length calls = (c + k)%nat ->
  update_all calls s = (s', Normal ()) ->
  length (history (self s')) = c /\
  history (self s') =
    drop (length (history (self s)) + k)
      (history (self s) ++ log_of calls s).
Proof.
  intros Hv Hmax Hlen Hcalls Hrun.
  destruct (update_all_history calls c s s' Hv Hmax Hlen Hrun) as [_ Hh].
  rewrite Hh. split.
  - rewrite newest_length, length_app, log_of_length. lia.
  - unfold newest. rewrite length_app, log_of_length. f_equal. lia.
Qed.

(** ** export and import *)

(** [import], case by case: it throws with the state untouched when the
    payload's vector is rejected, throws with vector, weights and deltas
    already replaced when a history entry is rejected, and otherwise
    replaces everything. *)
Lemma import_spec (data : Payload) (s : Session) :
  State.import data s =
  match spread (p_vector data) ≫= Vector.new with
  | Throw _ => (s, Throw InvalidImportData)
  | Normal v =>
      match import_history data with
      | Throw _ =>
          (with_self (import_first data v (self s)) s, Throw InvalidImportData)
      | Normal entries => (imported data v entries s, Normal ())
      end
  end.
Proof.
  unfold State.import, Effect.try_catch.
  rewrite M_bind_unfold. unfold Effect.lift at 1.
  destruct (spread (p_vector data)) as [args|e]; [|destruct s; reflexivity].
  rewrite bind_Normal, M_bind_unfold. unfold Effect.lift at 1.
  destruct (Vector.new args) as [v|e]; [|destruct s; reflexivity].
  destruct s as [st n clk dl]. run_effects.
  unfold import_history, imported_entry, mbind, mret.
  destruct (mapM _ _) as [entries|e]; [|reflexivity].
  unfold imported, State.or_now, mbind. cbn [self ticks clock delivered].
  destruct (option_bind _ _ md_sessionStartTime _) as [t|]; [|reflexivity].
  destruct (t =? 0)%Z; reflexivity.
Qed.

Lemma export_spec (s : Session) :
  State.export s = (ticked s, Normal (exported (self s) (clock s (ticks s)))).
Proof. destruct s as [st n clk dl]. reflexivity. Qed.

Lemma import_exported_entries (hs : list HistoryEntry) :
  Forall (fun h => Vector.valid (h_vector h)) hs ->
  mapM (fun h =>
          args ← spread (hp_vector h);
          v ← Vector.new args;
          mret (imported_entry v h))
       ((fun h => mkHistoryPayload
                    (VArray (VNumber <$> data (h_vector h)))
                    (h_operation h) (h_timestamp h)) <$> hs)
  = Normal (forget <$> hs).
Proof.
  induction 1 as [|h hs Hh _ IH]; [reflexivity|].
  rewrite !fmap_cons. cbn [mapM]. rewrite IH.
  cbn [hp_vector spread]. rewrite bind_Normal.
  destruct Hh as [Hl Ha]. rewrite (new_of_valid _ Hl Ha).
  destruct h as [[d] op t sc oi]. reflexivity.
Qed.

Lemma import_history_exported (st : ComplexityState) (t : Z) :
  Forall (fun h => Vector.valid (h_vector h)) (history st) ->
  import_history (exported st t) = Normal (forget <$> history st).
Proof. exact (import_exported_entries (history st)). Qed.

(** ** Every session the interface produces holds valid vectors only *)

Lemma Forall_trimmed (P : HistoryEntry -> Prop) (max : number)
    (h : list HistoryEntry) :
  Forall P h -> Forall P (trimmed max h).
Proof.
  intros H. unfold trimmed. destruct (_ > _)%js; [|exact H].
  destruct H; [constructor | assumption].
Qed.

Lemma wf_logged (s : Session) (operation : option string) :
  wf s -> wf (logged s operation).
Proof.
  intros [Hv Hh]. destruct s as [[] n clk dl]. split; [exact Hv|].
  cbn in *. apply Forall_trimmed, Forall_app. split; [exact Hh|].
  constructor; [exact Hv | constructor].
Qed.

Lemma wf_updated (s : Session) (v : ComplexityVector)
    (operation : option string) :
  wf s -> Vector.valid v -> wf (updated s v operation).
Proof.
  intros Hs Hv. destruct (wf_logged s operation Hs) as [_ Hh].
  destruct s as [[] n clk dl]. split; [exact Hv | exact Hh].
Qed.

Lemma wf_updateVector (s : Session) (newVector : value)
    (operation : option string) :
  wf s -> wf (State.updateVector newVector operation s).1.
Proof.
  intros Hs. rewrite (updateVector_spec _ _ _ (proj1 Hs)).
  destruct newVector as [x| | |b|str|items|nv|];
    try exact (wf_logged s operation Hs).
  - destruct (Vector.new items) as [v|e] eqn:E.
    + exact (wf_updated s v operation Hs (new_valid _ _ E)).
    + exact (wf_logged s operation Hs).
  - destruct (Vector.clone nv) as [v|e] eqn:E.
    + exact (wf_updated s v operation Hs (clone_result_valid _ _ E)).
    + exact (wf_logged s operation Hs).
Qed.

Lemma wf_improve (s : Session) (pillar : Z) (delta : number) :
  wf s -> wf (State.improve pillar delta s).1.
Proof.
  intros Hs. unfold State.improve.
  rewrite M_bind_unfold. unfold Effect.this at 1. cbn iota.
  rewrite M_bind_unfold. unfold Effect.lift at 1.
  destruct (Vector.new _) as [v|e]; [|exact Hs].
  apply wf_updateVector. exact Hs.
Qed.

Lemma wf_reset (s : Session) (initial : value) :
  wf s -> wf (State.reset initial s).1.
Proof.
  intros [Hv Hh]. rewrite reset_unfold. apply wf_updateVector.
  destruct s as [[] n clk dl]. split; [exact Hv | constructor].
Qed.

Lemma wf_undo (s : Session) : wf s -> wf (State.undo s).1.
Proof.
  intros [Hv Hh]. unfold State.undo.
  rewrite M_bind_unfold. unfold Effect.this at 1. cbn iota.
  destruct (last (history (self s))) as [previous|] eqn:Hlast;
    [|split; assumption].
  assert (Hp : Vector.valid (h_vector previous)).
  { apply last_Some in Hlast. destruct Hlast as [l' Hl]. rewrite Hl in Hh.
    apply Forall_app in Hh. destruct Hh as [_ Hh].
    apply Forall_cons in Hh. exact (proj1 Hh). }
  assert (Hr : Forall (fun h => Vector.valid (h_vector h))
                 (removelast (history (self s)))).
  { apply last_Some in Hlast. destruct Hlast as [l' Hl]. rewrite Hl in *.
    rewrite removelast_last. apply Forall_app in Hh. exact (proj1 Hh). }
  destruct s as [[] n clk dl]. run_effects. cbn in Hp, Hr.
  rewrite (clone_valid _ Hp). cbn. split; [exact Hp | exact Hr].
Qed.

Lemma import_history_valid (data : Payload) (entries : list HistoryEntry) :
  import_history data = Normal entries ->
  Forall (fun h => Vector.valid (h_vector h)) entries.
Proof.
  unfold import_history. generalize (default [] (p_history data)).
  intros l. revert entries.
  induction l as [|h l IH]; intros entries H.
  - injection H as <-. constructor.
  - cbn [mapM] in H.
    destruct (spread (hp_vector h)) as [args|]; [|discriminate].
    rewrite bind_Normal in H.
    destruct (Vector.new args) as [v|] eqn:E; [|discriminate].
    rewrite !bind_Normal in H.
    destruct (mapM _ l) as [rest|]; [|discriminate].
    injection H as <-. constructor; [exact (new_valid _ _ E) | exact (IH _ eq_refl)].
Qed.

Lemma wf_import (s : Session) (data : Payload) :
  wf s -> wf (State.import data s).1.
Proof.
  intros [Hv Hh]. rewrite import_spec.
  destruct (spread (p_vector data) ≫= Vector.new) as [v|e] eqn:E;
    [|split; assumption].
  assert (Hnew : Vector.valid v).
  { destruct (spread (p_vector data)) as [args|]; [|discriminate].
    exact (new_valid _ _ E). }
  destruct (import_history data) as [entries|e] eqn:Eh.
  - pose proof (import_history_valid _ _ Eh) as He.
    destruct s as [[] n clk dl]. unfold imported. cbn [fst].
    destruct (p_metadata data ≫= md_sessionStartTime) as [t|];
      [destruct (t =? 0)%Z|]; (split; [exact Hnew | exact He]).
  - destruct s as [[] n clk dl]. split; [exact Hnew | exact Hh].
Qed.

Lemma wf_new (config : Config) (clk : nat -> Z) (s : Session) :
  State.new config clk = Normal s -> wf s.
Proof.
  unfold State.new. destruct (Vector.new _) as [v|] eqn:E; [|discriminate].
  rewrite bind_Normal. intros [= <-].
  split; [exact (new_valid _ _ E) | constructor].
Qed.

Lemma wf_perform (c : call) (s : Session) : wf s -> wf (perform c s).
Proof.
  intros Hs. destruct c; cbn [perform].
  - apply wf_updateVector, Hs.
  - unfold State.updateWeights. destruct newWeights as [w|]; [|exact Hs].
    destruct (negb _); [exact Hs|].
    destruct s as [[] n clk dl]. exact Hs.
  - destruct s as [[] n clk dl]. exact Hs.
  - apply wf_improve, Hs.
  - destruct s as [[] n clk dl]. exact Hs.
  - destruct s as [[] n clk dl]. unfold State.unsubscribe. run_effects.
    destruct (list_find _ _) as [[index x]|]; exact Hs.
  - destruct s as [[] n clk dl]. destruct u; exact Hs.
  - apply wf_reset, Hs.
  - apply wf_undo, Hs.
  - rewrite export_spec. destruct s as [[] n clk dl]. exact Hs.
  - apply wf_import, Hs.
Qed.

Theorem reachable_wf (s : Session) : reachable s -> wf s.
Proof.
  induction 1 as [config clk s H | c s _ IH].
  - exact (wf_new _ _ _ H).
  - exact (wf_perform c s IH).
Qed.

(** C4, as amended: on every reachable session [import(export())] returns
    normally and restores the vector, the weights, the deltas, the operation
    counter and, of each history entry, the vector snapshot, the operation
    label and the timestamp; the scalar and the operation index of an entry
    are not part of the payload and are undefined afterwards. *)
Theorem C4_import_export_round_trip (s : Session) :
  reachable s ->
  exists (data : Payload) (s1 s2 : Session),
    State.export s = (s1, Normal data) /\
    State.import data s1 = (s2, Normal ()) /\
    vector (self s2) = vector (self s) /\
    weights (self s2) = weights (self s) /\
    deltas (self s2) = deltas (self s) /\
    history (self s2) = forget <$> history (self s) /\
    operationCount (self s2) = operationCount (self s) /\
    observers (self s2) = observers (self s).
Proof.
  intros Hr. destruct (reachable_wf s Hr) as [Hv Hh].
  exists (exported (self s) (clock s (ticks s))), (ticked s).
  eexists. split; [apply export_spec|].
  rewrite import_spec.
  assert (Hnew : spread (p_vector (exported (self s) (clock s (ticks s))))
                 ≫= Vector.new = Normal (vector (self s))).
  { cbn [exported p_vector spread]. rewrite bind_Normal.
    destruct Hv as [Hl Ha]. rewrite (new_of_valid _ Hl Ha).
    destruct (vector (self s)); reflexivity. }
  rewrite Hnew, (import_history_exported _ _ Hh).
  split; [reflexivity|].
  destruct s as [[] n clk dl]. unfold imported.
  cbn [exported p_metadata mbind option_bind md_sessionStartTime].
  destruct (_ =? 0)%Z; repeat split.
Qed.

Lemma session_after_one_update_reachable : reachable session_after_one_update.
Proof.
  apply reachable_call. exact (reachable_new _ _ _ new_default).
Qed.

Lemma C4_witness :
  reachable session_after_one_update /\
  exists (data : Payload) (s1 s2 : Session),
    State.export session_after_one_update = (s1, Normal data) /\
    State.import data s1 = (s2, Normal ()) /\
    vector (self s2) = vector (self session_after_one_update) /\
    weights (self s2) = weights (self session_after_one_update) /\
    deltas (self s2) = deltas (self session_after_one_update) /\
    history (self s2) = forget <$> history (self session_after_one_update) /\
    operationCount (self s2) = operationCount (self session_after_one_update) /\
    observers (self s2) = observers (self session_after_one_update).
Proof.
  split; [exact session_after_one_update_reachable|].
  exact (C4_import_export_round_trip _ session_after_one_update_reachable).
Defined.

(** C4 as stated fails: the scalar value of a history entry does not
    survive the round trip.  After one [updateVector] on the fresh session
    the only entry carries the scalar 0.5; after [import(export())] it
    carries none. *)
Lemma C4_round_trip_loses_scalar :
  ~ (forall s : Session,
       reachable s ->
       forall (data : Payload) (s1 s2 : Session),
         State.export s = (s1, Normal data) ->
         State.import data s1 = (s2, Normal ()) ->
         h_scalar <$> history (self s2) = h_scalar <$> history (self s)).
Proof.
  intros H.
  specialize (H session_after_one_update session_after_one_update_reachable
                (exported (self session_after_one_update)
                   (clock session_after_one_update
                      (ticks session_after_one_update)))
                (ticked session_after_one_update)
                (State.import
                   (exported (self session_after_one_update)
                      (clock session_after_one_update
                         (ticks session_after_one_update)))
                   (ticked session_after_one_update)).1
                (export_spec _)).
  assert (Himp :
    State.import
      (exported (self session_after_one_update)
         (clock session_after_one_update (ticks session_after_one_update)))
      (ticked session_after_one_update)
    = ((State.import
          (exported (self session_after_one_update)
             (clock session_after_one_update (ticks session_after_one_update)))
          (ticked session_after_one_update)).1, Normal ()))
    by (vm_compute; reflexivity).
  specialize (H Himp). vm_compute in H. discriminate H.
Qed.

(** ** A failed import *)

(** C1, at a failing input: importing that payload into the fresh session
    throws, and the history, the session start time and the operation
    counter are as before, but the vector, the weights and the deltas are
    already those of the payload. *)
Theorem C1_failed_import_has_replaced_vector :
  let r := State.import payload_with_bad_history initial_session in
  r.2 = Throw InvalidImportData /\
  history (self r.1) = history (self initial_session) /\
  sessionStartTime (self r.1) = sessionStartTime (self initial_session) /\
  operationCount (self r.1) = operationCount (self initial_session) /\
  vector (self initial_session) = mkVector [Fin 0.5; Fin 0.5; Fin 0.5; Fin 0.5] /\
  vector (self r.1) = mkVector [Fin 0.1; Fin 0.2; Fin 0.3; Fin 0.4] /\
  weights (self initial_session) = [Fin 0.25; Fin 0.25; Fin 0.25; Fin 0.25] /\
  weights (self r.1) = [Fin 1; Fin 0; Fin 0; Fin 0] /\
  deltas (self initial_session) = DEFAULT_DELTAS /\
  deltas (self r.1) = ∅.
Proof. vm_compute. repeat split. Qed.

(** In general a failed [import] leaves the history, the start time, the
    counter and the observers alone, and either everything else too, or it
    has replaced vector, weights and deltas by those of the payload. *)
Lemma failed_import (data : Payload) (s s' : Session) (e : error) :
  State.import data s = (s', Throw e) ->
  e = InvalidImportData /\
  (s' = s \/
   exists v, spread (p_vector data) ≫= Vector.new = Normal v /\
             s' = with_self (import_first data v (self s)) s).
Proof.
  rewrite import_spec.
  destruct (spread (p_vector data) ≫= Vector.new) as [v|e0].
  - destruct (import_history data) as [entries|e1]; [discriminate|].
    intros [= <- <-]. split; [reflexivity|]. right. exists v. split; reflexivity.
  - intros [= <- <-]. split; [reflexivity|]. left. reflexivity.
Qed.

(** ** updateWeights *)

Lemma updateWeights_refuses (s : Session) (arg : option (list number)) :
  not_four arg -> State.updateWeights arg s = (s, Throw WeightsLength).
Proof.
  destruct arg as [l|]; cbn [not_four]; intros H; [|reflexivity].
  unfold State.updateWeights.
  destruct (Nat.eqb_spec (length l) 4) as [E|_]; [contradiction|reflexivity].
Qed.

Lemma updateWeights_normalizes (s : Session) (a b c d : Q) :
  0 < 0 + a + b + c + d ->
  let t := 0 + a + b + c + d in
  State.updateWeights (Some [Fin a; Fin b; Fin c; Fin d]) s
  = (mkSession
       (set_weights [Fin (a / t); Fin (b / t); Fin (c / t); Fin (d / t)] (self s))
       (S (ticks s)) (clock s)
       (delivered s ++
        ((fun o => (o, weightsUpdate
                         [Fin (a / t); Fin (b / t); Fin (c / t); Fin (d / t)]
                         (clock s (ticks s)))) <$> observers (self s))),
     Normal ()).
Proof.
  intros Ht t. unfold State.updateWeights.
  cbn [length Nat.eqb negb reduce reduce_from Number.add].
  fold t. destruct s as [[] n clk dl]. run_effects.
  assert (E : Qeq_bool t 0 = false).
  { destruct (Qeq_bool t 0) eqn:E; [|reflexivity].
    apply Qeq_bool_eq in E. subst t. lra. }
  rewrite E. reflexivity.
Qed.

(** C5, as amended: for four non-negative numbers whose sum is positive and
    at most 1e308 (so that adding them up stays clear of the largest
    floating-point number), [updateWeights] stores weights that sum to 1
    within epsilon; and it throws, changing nothing, when its argument is
    not an array of exactly four entries. *)
Theorem C5_updateWeights_normalizes
    (s : Session) (a b c d : Q) (other : option (list number)) :
  0 <= a -> 0 <= b -> 0 <= c -> 0 <= d ->
  0 < a + b + c + d -> a + b + c + d <= 1e308 ->
  not_four other ->
  (exists s', State.updateWeights (Some [Fin a; Fin b; Fin c; Fin d]) s
              = (s', Normal ()) /\
              sums_to_one (weights (self s'))) /\
  State.updateWeights other s = (s, Throw WeightsLength).
Proof.
  intros Ha Hb Hc Hd Hpos _ Hother.
  split; [|exact (updateWeights_refuses s other Hother)].
  assert (Ht : 0 < 0 + a + b + c + d) by lra.
  eexists. split; [exact (updateWeights_normalizes s a b c d Ht)|].
  destruct s as [[] n clk dl].
  cbn [self weights set_weights weights_sum reduce reduce_from Number.add].
  set (t := 0 + a + b + c + d) in *.
  assert (Hsum : 0 + a / t + b / t + c / t + d / t == 1).
  { subst t. field. lra. }
  eexists. split; [reflexivity|]. rewrite Hsum. discriminate.
Qed.

Lemma C5_witness :
  0 <= 2 /\ 0 <= 1 /\ 0 <= 1 /\ 0 <= 0 /\ 0 < 2 + 1 + 1 + 0 /\
  2 + 1 + 1 + 0 <= 1e308 /\
  not_four (Some [Fin 1; Fin 1; Fin 1]) /\
  (exists s', State.updateWeights (Some [Fin 2; Fin 1; Fin 1; Fin 0])
                initial_session = (s', Normal ()) /\
              sums_to_one (weights (self s'))) /\
  State.updateWeights (Some [Fin 1; Fin 1; Fin 1]) initial_session
  = (initial_session, Throw WeightsLength).
Proof.
  assert (H2 : 0 <= 2) by discriminate.
  assert (H1 : 0 <= 1) by discriminate.
  assert (H0 : 0 <= 0) by discriminate.
  assert (Hp : 0 < 2 + 1 + 1 + 0) by reflexivity.
  assert (Hb : 2 + 1 + 1 + 0 <= 1e308) by (vm_compute; discriminate).
  assert (Hn : not_four (Some [Fin 1; Fin 1; Fin 1])) by (cbn; lia).
  repeat (split; [assumption|]).
  exact (C5_updateWeights_normalizes initial_session 2 1 1 0
           (Some [Fin 1; Fin 1; Fin 1]) H2 H1 H1 H0 Hp Hb Hn).
Defined.

(** C5 as stated fails: the four weights 0, 0, 0, 0 are non-negative, and
    dividing each by their sum 0 stores NaN four times. *)
Lemma C5_zero_weights_do_not_sum_to_one :
  ~ (forall (s : Session) (a b c d : Q),
       0 <= a -> 0 <= b -> 0 <= c -> 0 <= d ->
       exists s', State.updateWeights (Some [Fin a; Fin b; Fin c; Fin d]) s
                  = (s', Normal ()) /\
                  sums_to_one (weights (self s'))).
Proof.
  intros H.
  destruct (H initial_session 0 0 0 0) as (s' & Hrun & q & Hsum & _);
    try discriminate.
  vm_compute in Hrun. injection Hrun as <-.
  vm_compute in Hsum. discriminate Hsum.
Qed.

Lemma zero_weights_stored_as_NaN :
  weights (self (State.updateWeights
                   (Some [Fin 0; Fin 0; Fin 0; Fin 0]) initial_session).1)
  = [NaN; NaN; NaN; NaN].
Proof. reflexivity. Qed.

(** ** The bound on the history, continued *)

Lemma new_small :
  State.new (mkConfig None (Some (Fin 2)) None None) example_clock
  = Normal small_session.
Proof. reflexivity. Qed.

(** With [maxHistory] 2, three updates of a fresh state leave the entries of
    the last two. *)
Lemma history_bounded_fifo_example :
  let s' := (update_all three_updates small_session).1 in
  update_all three_updates small_session = (s', Normal ()) /\
  length (history (self s')) = 2%nat /\
  history (self s') = drop 1 (log_of three_updates small_session).
Proof.
  intros s'.
  assert (Hv : Vector.valid (vector (self small_session)))
    by (apply validb_spec; reflexivity).
  assert (Hr : update_all three_updates small_session = (s', Normal ()))
    by (vm_compute; reflexivity).
  split; [exact Hr|].
  exact (history_bounded_fifo small_session s' three_updates 2 1 Hv eq_refl
           ltac:(cbn; lia) eq_refl Hr).
Qed.

(** C7, at a failing input: [import] stores the payload's history at its
    full length.  A state built with [maxHistory] 2 imports three history
    entries, and [import] returns normally with all three stored; after
    three further successful [updateVector] calls the history still holds
    three entries, more than [maxHistory]: [addToHistory] shifts one entry
    for each entry it pushes and never brings the length back under the
    bound. *)
Theorem C7_import_exceeds_bound :
  let after_import := State.import payload_with_three_entries small_session in
  let after_updates := update_all three_updates after_import.1 in
  State.new (mkConfig None (Some (Fin 2)) None None) example_clock
  = Normal small_session /\
  after_import.2 = Normal () /\
  maxHistory (self after_import.1) = Fin 2 /\
  length (history (self after_import.1)) = 3%nat /\
  after_updates.2 = Normal () /\
  maxHistory (self after_updates.1) = Fin 2 /\
  length (history (self after_updates.1)) = 3%nat /\
  exceeds (length (history (self after_updates.1)))
    (maxHistory (self after_updates.1)) = true.
Proof. vm_compute. repeat split. Qed.

(** * Further properties of the kernel *)

(** ** Keyed access to a vector *)

Lemma indexOf_Some (key : string) (i : nat) :
  Vector.indexOf key = Some i -> keys !! i = Some key /\ (i < 4)%nat.
Proof.
  unfold Vector.indexOf.
  destruct (list_find (fun k => k = key) keys) as [[j k]|] eqn:E; [|discriminate].
  cbn. intros [= <-]. apply list_find_Some in E. destruct E as (Hj & -> & _).
  split; [exact Hj|]. apply lookup_lt_Some in Hj. exact Hj.
Qed.

Lemma indexOf_known (key : string) :
  key ∈ keys -> exists i, Vector.indexOf key = Some i.
Proof.
  intros H. unfold Vector.indexOf.
  destruct (list_find (fun k => k = key) keys) as [[j k]|] eqn:E.
  - eexists. reflexivity.
  - apply list_find_None in E. rewrite Forall_forall in E.
    destruct (E key H eq_refl).
Qed.

Lemma indexOf_unknown (key : string) :
  key ∉ keys -> Vector.indexOf key = None.
Proof.
  intros H. destruct (Vector.indexOf key) as [i|] eqn:E; [|reflexivity].
  destruct (indexOf_Some _ _ E) as [Hk _].
  destruct H. exact (list_elem_of_lookup_2 _ _ _ Hk).
Qed.

Lemma indexOf_None (key : string) :
  Vector.indexOf key = None -> key ∉ keys.
Proof.
  intros H Hin. destruct (indexOf_known key Hin) as [i Hi]. congruence.
Qed.

(** X1: on a valid vector, [set] of a known key to a number in [0,1]
    succeeds; afterwards [get] of that key returns the number, [get] of
    every other key returns what it returned before, and the vector is still
    valid. *)
Theorem X1_set_then_get (v : ComplexityVector) (key : string) (x : Q) :
  Vector.valid v -> key ∈ keys -> 0 <= x <= 1 ->
  exists v',
    Vector.set v key (VNumber (Fin x)) = Normal v' /\
    Vector.valid v' /\
    Vector.get v' key = Some (Fin x) /\
    forall other, other <> key -> Vector.get v' other = Vector.get v other.
Proof.
  intros [Hlen Hall] Hkey Hx.
  destruct (indexOf_known key Hkey) as [i Hi].
  destruct (indexOf_Some key i Hi) as [Hki Hi4].
  assert (Hu : Vector.in_unit (Fin x)) by (exists x; auto).
  unfold Vector.set. rewrite Hi. unfold Vector.validate.
  change [VNumber (Fin x)] with (VNumber <$> [Fin x]).
  rewrite validate_in_unit by (constructor; [exact Hu | constructor]).
  eexists. split; [reflexivity|]. cbn [Vector.component].
  split; [|split].
  - split; cbn [data].
    + rewrite length_insert. exact Hlen.
    + apply Forall_insert; assumption.
  - unfold Vector.get. rewrite Hi. cbn [data]. unfold at_index.
    rewrite list_lookup_insert_eq by lia. reflexivity.
  - intros other Hne. unfold Vector.get.
    destruct (Vector.indexOf other) as [j|] eqn:Hj; [|reflexivity].
    destruct (indexOf_Some other j Hj) as [Hkj _].
    assert (Hij : i <> j) by (intros ->; congruence).
    cbn [data]. unfold at_index.
    rewrite list_lookup_insert_ne by exact Hij. reflexivity.
Qed.

Lemma X1_witness :
  Vector.valid (mkVector [Fin 0.8; Fin 0.4; Fin 0.6; Fin 0.3]) /\
  "dyn" ∈ keys /\ 0 <= 0.25 <= 1 /\
  exists v',
    Vector.set (mkVector [Fin 0.8; Fin 0.4; Fin 0.6; Fin 0.3]) "dyn"
      (VNumber (Fin 0.25)) = Normal v' /\
    Vector.valid v' /\
    Vector.get v' "dyn" = Some (Fin 0.25) /\
    forall other, other <> "dyn" ->
      Vector.get v' other
      = Vector.get (mkVector [Fin 0.8; Fin 0.4; Fin 0.6; Fin 0.3]) other.
Proof.
  assert (Hv : Vector.valid (mkVector [Fin 0.8; Fin 0.4; Fin 0.6; Fin 0.3]))
    by (apply validb_spec; reflexivity).
  assert (Hk : "dyn" ∈ keys) by (unfold keys; repeat constructor).
  assert (Hx : 0 <= 0.25 <= 1) by (split; discriminate).
  split; [exact Hv|]. split; [exact Hk|]. split; [exact Hx|].
  exact (X1_set_then_get _ "dyn" 0.25 Hv Hk Hx).
Defined.

(** X2: a key that names no pillar is ignored: [set] returns normally with
    the vector as it was, whatever the value (it is not validated), and
    [get] returns null. *)
Theorem X2_unknown_key_is_ignored
    (v : ComplexityVector) (key : string) (x : value) :
  key ∉ keys ->
  Vector.set v key x = Normal v /\ Vector.get v key = None.
Proof.
  intros H. unfold Vector.set, Vector.get.
  rewrite (indexOf_unknown key H). split; reflexivity.
Qed.

Lemma X2_witness :
  ("speed" ∉ keys) /\
  Vector.set (mkVector DEFAULT_VECTOR) "speed" (VString "fast")
  = Normal (mkVector DEFAULT_VECTOR) /\
  Vector.get (mkVector DEFAULT_VECTOR) "speed" = None.
Proof.
  assert (H : "speed" ∉ keys) by (apply indexOf_None; reflexivity).
  split; [exact H|].
  exact (X2_unknown_key_is_ignored (mkVector DEFAULT_VECTOR) "speed"
           (VString "fast") H).
Defined.

(** On a known key [set] throws exactly when the value is not a number in
    [0,1]. *)
Lemma set_rejects (v : ComplexityVector) (key : string) (x : value) :
  key ∈ keys ->
  (exists e, Vector.set v key x = Throw e)
  <-> ~ Vector.in_unit (Vector.component x) \/ (forall y, x <> VNumber y).
Proof.
  intros Hkey. destruct (indexOf_known key Hkey) as [i Hi].
  unfold Vector.set. rewrite Hi. unfold Vector.validate.
  cbn [Vector.validate_from].
  destruct x as [y| | | | | | |];
    try (split; [intros _; right; intros y; discriminate
                | intros _; eexists; reflexivity]).
  cbn [Vector.component].
  destruct (Number.isNaN y) eqn:Hn.
  - split; [|intros _; eexists; reflexivity].
    intros _. left. intros (q & -> & _). discriminate.
  - destruct ((y < Fin 0)%js || (y > Fin 1)%js) eqn:Hr.
    + split; [|intros _; eexists; reflexivity].
      intros _. left. intros Hu. destruct (in_unit_passes y Hu) as [_ H].
      congruence.
    + split.
      * intros [e He]. discriminate.
      * intros [H|H]; [|destruct (H y eq_refl)].
        exfalso. apply H.
        assert (Hs : Vector.validate_from 0 [VNumber y] = Normal ()).
        { cbn [Vector.validate_from]. rewrite Hn, Hr. reflexivity. }
        apply validate_sound in Hs. apply Forall_cons in Hs. exact (proj1 Hs).
Qed.

(** ** Comparing and measuring vectors *)

Lemma abs_diff_sym (x y : Q) (epsilon : number) :
  (Math.abs (Fin x - Fin y) < epsilon)%js
  = (Math.abs (Fin y - Fin x) < epsilon)%js.
Proof.
  unfold Number.sub, Number.neg, Number.add, Math.abs, Number.lt.
  destruct epsilon as [e| | |]; try reflexivity.
  pose proof (Qabs_Qminus x y) as H. unfold Qminus in H.
  destruct (Number.Qltb (Qabs (x + - y)) e) eqn:E1,
           (Number.Qltb (Qabs (y + - x)) e) eqn:E2; try reflexivity.
  - apply Qltb_lt in E1. apply Qltb_ge in E2. rewrite H in E1. lra.
  - apply Qltb_ge in E1. apply Qltb_lt in E2. rewrite H in E1. lra.
Qed.

(** X3: [equals] is symmetric on valid vectors, whatever the tolerance. *)
Theorem X3_equals_symmetric (a b : ComplexityVector) (epsilon : number) :
  Vector.valid a -> Vector.valid b ->
  Vector.equals a (Some b) epsilon = Vector.equals b (Some a) epsilon.
Proof.
  intros Ha Hb. components a Ha. components b Hb. unfold Vector.equals.
  cbn [data imap forallb at_index lookup list_lookup default id compose].
  rewrite (abs_diff_sym x x3), (abs_diff_sym x0 x4),
    (abs_diff_sym x1 x5), (abs_diff_sym x2 x6).
  reflexivity.
Qed.

Lemma X3_witness :
  let a := mkVector [Fin 0.8; Fin 0.4; Fin 0.6; Fin 0.3] in
  let b := mkVector [Fin 0.8; Fin 0.4; Fin 0.6; Fin 0.3000001] in
  Vector.valid a /\ Vector.valid b /\
  Vector.equals a (Some b) EPSILON = Vector.equals b (Some a) EPSILON.
Proof.
  intros a b.
  assert (Ha : Vector.valid a) by (apply validb_spec; reflexivity).
  assert (Hb : Vector.valid b) by (apply validb_spec; reflexivity).
  split; [exact Ha|]. split; [exact Hb|].
  exact (X3_equals_symmetric a b EPSILON Ha Hb).
Defined.

(** The model of [Math.sqrt] never exceeds the root: it is not negative and
    its square is at most its argument. *)
Lemma Qsqrt_bounds (q : Q) :
  0 <= q -> 0 <= Math.Qsqrt q /\ Math.Qsqrt q * Math.Qsqrt q <= q.
Proof.
  intros Hq. destruct q as [n d]. unfold Math.Qsqrt. cbn [Qnum Qden].
  assert (Hn : (0 <= n)%Z).
  { unfold Qle in Hq. cbn in Hq. lia. }
  destruct (Z.eqb_spec (Z.sqrt (n * Z.pos d) * Z.sqrt (n * Z.pos d))
              (n * Z.pos d)) as [E|_].
  - split.
    + unfold Qle. cbn. pose proof (Z.sqrt_nonneg (n * Z.pos d)). lia.
    + unfold Qle, Qmult. cbn [Qnum Qden]. rewrite E.
      rewrite Pos2Z.inj_mul. nia.
  - set (m := (n * Z.pos d * 10 ^ 32)%Z).
    assert (Hm : (0 <= m)%Z) by (subst m; nia).
    pose proof (Z.sqrt_spec m Hm) as [Hs _].
    pose proof (Z.sqrt_nonneg m) as Hs0.
    split.
    + unfold Qle. cbn. lia.
    + unfold Qle, Qmult. cbn [Qnum Qden].
      rewrite !Pos2Z.inj_mul.
      change (Z.pos (10 ^ 16)) with (10 ^ 16)%Z.
      assert (H16 : (10 ^ 16 * 10 ^ 16 = 10 ^ 32)%Z) by reflexivity.
      assert (Hle : (Z.sqrt m * Z.sqrt m * Z.pos d
                     <= n * Z.pos d * 10 ^ 32 * Z.pos d)%Z)
        by (apply Z.mul_le_mono_nonneg_r; [lia | exact Hs]).
      nia.
Qed.

(** X4: the magnitude of a valid vector is a number between 0 and 2. *)
Theorem X4_magnitude_bounds (v : ComplexityVector) :
  Vector.valid v ->
  exists m : Q, Vector.magnitude v = Fin m /\ 0 <= m <= 2.
Proof.
  intros Hv. components v Hv. unfold Vector.magnitude.
  cbn [data reduce reduce_from Number.add Number.mul].
  set (sum := 0 + x * x + x0 * x0 + x1 * x1 + x2 * x2).
  assert (Hsum : 0 <= sum <= 4) by (subst sum; nra).
  unfold Math.sqrt.
  assert (E : Number.Qltb sum 0 = false) by (apply Qltb_ge; lra).
  rewrite E. eexists. split; [reflexivity|].
  destruct (Qsqrt_bounds sum (proj1 Hsum)) as [Hroot Hsq].
  split; [exact Hroot|]. nra.
Qed.

Lemma X4_witness :
  Vector.valid (mkVector [Fin 1; Fin 1; Fin 1; Fin 1]) /\
  exists m : Q,
    Vector.magnitude (mkVector [Fin 1; Fin 1; Fin 1; Fin 1]) = Fin m /\
    0 <= m <= 2.
Proof.
  assert (Hv : Vector.valid (mkVector [Fin 1; Fin 1; Fin 1; Fin 1]))
    by (apply validb_spec; reflexivity).
  split; [exact Hv|]. exact (X4_magnitude_bounds _ Hv).
Defined.

(** ** undo *)

Lemma undo_spec (s : Session) (older : list HistoryEntry)
    (previous : HistoryEntry) :
  history (self s) = older ++ [previous] ->
  Vector.valid (h_vector previous) ->
  State.undo s = (undone s older previous, Normal true).
Proof.
  intros Hh Hv. unfold State.undo.
  rewrite M_bind_unfold. unfold Effect.this at 1. cbn iota.
  rewrite Hh, last_snoc, removelast_last.
  destruct s as [st n clk dl]. run_effects.
  rewrite (clone_valid _ Hv). reflexivity.
Qed.

Lemma undo_empty (s : Session) :
  history (self s) = [] -> State.undo s = (s, Normal false).
Proof.
  intros Hh. unfold State.undo.
  rewrite M_bind_unfold. unfold Effect.this at 1. cbn iota.
  rewrite Hh. reflexivity.
Qed.

Lemma trimmed_snoc (max : number) (h : list HistoryEntry) (e : HistoryEntry) :
  exceeds 1 max = false ->
  exists older,
    trimmed max (h ++ [e]) = older ++ [e] /\
    older = if exceeds (S (length h)) max then tail h else h.
Proof.
  intros Hone. rewrite trimmed_exceeds, length_app. cbn [length].
  replace (length h + 1)%nat with (S (length h)) by lia.
  destruct (exceeds (S (length h)) max) eqn:E.
  - destruct h as [|a h]; [cbn [length] in E; congruence|].
    exists h. split; reflexivity.
  - exists h. split; reflexivity.
Qed.

(** [undo] straight after a successful [updateVector]. *)
Lemma undo_after_update (s s1 : Session) (newVector : value)
    (operation : option string) :
  Vector.valid (vector (self s)) ->
  exceeds 1 (maxHistory (self s)) = false ->
  State.updateVector newVector operation s = (s1, Normal ()) ->
  exists s2,
    State.undo s1 = (s2, Normal true) /\
    vector (self s2) = vector (self s) /\
    operationCount (self s2) = S (S (operationCount (self s))) /\
    history (self s2) =
      if exceeds (S (length (history (self s)))) (maxHistory (self s))
      then tail (history (self s)) else history (self s).
Proof.
  intros Hv Hone Hrun.
  destruct (successful_updateVector _ _ _ _ Hv Hrun) as (v & _ & ->).
  destruct (trimmed_snoc (maxHistory (self s)) (history (self s))
              (logged_entry s operation) Hone) as (older & Ht & Ho).
  destruct (updated_history s v operation) as (Hh & _ & _).
  rewrite Ht in Hh.
  eexists. split; [exact (undo_spec _ older _ Hh Hv)|].
  rewrite <- Ho. destruct s as [[] n clk dl]. repeat split.
Qed.

(** X5: on a state whose [maxHistory] admits one entry (1 is not more than
    [maxHistory]), [undo] straight after a successful [updateVector] returns
    true and brings back the vector that was current before the update; the
    operation counter is two higher than before; the history is as before
    the update, except that the oldest entry stays lost when the update
    evicted it (one more entry was more than [maxHistory]). *)
Theorem X5_undo_reverts_update (s s1 : Session) (newVector : value)
    (operation : option string) :
  Vector.valid (vector (self s)) ->
  exceeds 1 (maxHistory (self s)) = false ->
  State.updateVector newVector operation s = (s1, Normal ()) ->
  exists s2,
    State.undo s1 = (s2, Normal true) /\
    vector (self s2) = vector (self s) /\
    operationCount (self s2) = S (S (operationCount (self s))) /\
    history (self s2) =
      if exceeds (S (length (history (self s)))) (maxHistory (self s))
      then tail (history (self s)) else history (self s).
Proof. exact (undo_after_update s s1 newVector operation). Qed.

Lemma X5_witness :
  let arg := VArray [VNumber (Fin 0.8); VNumber (Fin 0.4); VNumber (Fin 0.6);
                     VNumber (Fin 0.3)] in
  let s1 := (State.updateVector arg None initial_session).1 in
  Vector.valid (vector (self initial_session)) /\
  exceeds 1 (maxHistory (self initial_session)) = false /\
  State.updateVector arg None initial_session = (s1, Normal ()) /\
  exists s2,
    State.undo s1 = (s2, Normal true) /\
    vector (self s2) = vector (self initial_session) /\
    operationCount (self s2) = S (S (operationCount (self initial_session))) /\
    history (self s2) =
      if exceeds (S (length (history (self initial_session))))
           (maxHistory (self initial_session))
      then tail (history (self initial_session))
      else history (self initial_session).
Proof.
  intros arg s1.
  assert (Hv : Vector.valid (vector (self initial_session)))
    by (apply validb_spec; reflexivity).
  assert (Hm : exceeds 1 (maxHistory (self initial_session)) = false)
    by reflexivity.
  assert (Hr : State.updateVector arg None initial_session = (s1, Normal ()))
    by (vm_compute; reflexivity).
  split; [exact Hv|]. split; [exact Hm|]. split; [exact Hr|].
  exact (X5_undo_reverts_update initial_session s1 arg None Hv Hm Hr).
Defined.

(** X6: on an empty history [undo] returns false and does nothing else: the
    session, the clock and the notifications are as they were. *)
Theorem X6_undo_on_empty_history (s : Session) :
  history (self s) = [] -> State.undo s = (s, Normal false).
Proof. exact (undo_empty s). Qed.

Lemma X6_witness :
  history (self initial_session) = [] /\
  State.undo initial_session = (initial_session, Normal false).
Proof.
  split; [reflexivity|]. exact (X6_undo_on_empty_history initial_session eq_refl).
Defined.

(** X7: on a state whose [maxHistory] admits one entry (1 is not more than
    [maxHistory]), a [reset] can be undone once: [undo] after a successful
    [reset] returns true and brings back the vector that was current before
    the reset, with an empty history and the operation counter at 2. *)
Theorem X7_undo_after_reset (s s1 : Session) (initial : value) :
  Vector.valid (vector (self s)) ->
  exceeds 1 (maxHistory (self s)) = false ->
  State.reset initial s = (s1, Normal ()) ->
  exists s2,
    State.undo s1 = (s2, Normal true) /\
    vector (self s2) = vector (self s) /\
    history (self s2) = [] /\
    operationCount (self s2) = 2%nat.
Proof.
  intros Hv Hone Hrun. rewrite reset_unfold in Hrun.
  assert (Hc : Vector.valid (vector (self (cleared s))))
    by (destruct s as [[] n clk dl]; exact Hv).
  assert (Hm : exceeds 1 (maxHistory (self (cleared s))) = false)
    by (destruct s as [[] n clk dl]; exact Hone).
  destruct (undo_after_update _ _ _ _ Hc Hm Hrun)
    as (s2 & Hu & Hvec & Hcount & Hh).
  exists s2. split; [exact Hu|].
  assert (Hcl : vector (self (cleared s)) = vector (self s) /\
                history (self (cleared s)) = [] /\
                operationCount (self (cleared s)) = 0%nat)
    by (destruct s as [[] n clk dl]; repeat split).
  destruct Hcl as (E1 & E2 & E3). rewrite E1 in Hvec.
  rewrite E3 in Hcount. rewrite E2 in Hh.
  split; [exact Hvec|]. split; [|exact Hcount].
  rewrite Hh. destruct (exceeds _ _); reflexivity.
Qed.

Lemma X7_witness :
  let s1 := (State.reset VUndefined session_after_one_update).1 in
  Vector.valid (vector (self session_after_one_update)) /\
  exceeds 1 (maxHistory (self session_after_one_update)) = false /\
  State.reset VUndefined session_after_one_update = (s1, Normal ()) /\
  exists s2,
    State.undo s1 = (s2, Normal true) /\
    vector (self s2) = vector (self session_after_one_update) /\
    history (self s2) = [] /\
    operationCount (self s2) = 2%nat.
Proof.
  intros s1.
  assert (Hv : Vector.valid (vector (self session_after_one_update)))
    by (apply validb_spec; reflexivity).
  assert (Hm : exceeds 1 (maxHistory (self session_after_one_update)) = false)
    by reflexivity.
  assert (Hr : State.reset VUndefined session_after_one_update = (s1, Normal ()))
    by (vm_compute; reflexivity).
  split; [exact Hv|]. split; [exact Hm|]. split; [exact Hr|].
  exact (X7_undo_after_reset session_after_one_update s1 VUndefined Hv Hm Hr).
Defined.

(** ** Invariants of the session *)

(** X8: every vector a reachable session holds, the current one and every
    history snapshot, has four components in [0,1], also after calls that
    threw. *)
Theorem X8_reachable_vectors_valid (s : Session) :
  reachable s ->
  Vector.valid (vector (self s)) /\
  Forall (fun h => Vector.valid (h_vector h)) (history (self s)).
Proof. exact (reachable_wf s). Qed.

Lemma X8_witness :
  reachable session_after_one_update /\
  Vector.valid (vector (self session_after_one_update)) /\
  Forall (fun h => Vector.valid (h_vector h))
    (history (self session_after_one_update)).
Proof.
  split; [exact session_after_one_update_reachable|].
  exact (X8_reachable_vectors_valid _ session_after_one_update_reachable).
Defined.

Lemma logged_bound (s : Session) (operation : option string) :
  exceeds (length (history (self s))) (maxHistory (self s)) = false ->
  exceeds (length (history (self (logged s operation)))) (maxHistory (self s))
  = false /\
  maxHistory (self (logged s operation)) = maxHistory (self s).
Proof.
  intros H. destruct s as [[] n clk dl].
  cbn [logged self history maxHistory set_history] in *.
  split; [|reflexivity].
  rewrite trimmed_exceeds, length_app. cbn [length].
  replace (length history0 + 1)%nat with (S (length history0)) by lia.
  destruct (exceeds (S (length history0)) maxHistory0) eqn:E.
  - destruct history0 as [|e0 h0]; [exact H|].
    cbn [app tail]. rewrite length_app. cbn [length] in *.
    replace (length h0 + 1)%nat with (S (length h0)) by lia. exact H.
  - rewrite length_app. cbn [length].
    replace (length history0 + 1)%nat with (S (length history0)) by lia.
    exact E.
Qed.

Lemma updated_bound (s : Session) (v : ComplexityVector)
    (operation : option string) :
  exceeds (length (history (self s))) (maxHistory (self s)) = false ->
  exceeds (length (history (self (updated s v operation))))
    (maxHistory (self s)) = false /\
  maxHistory (self (updated s v operation)) = maxHistory (self s).
Proof.
  intros H. destruct (logged_bound s operation H) as [Hl Hm].
  destruct s as [[] n clk dl]. split; [exact Hl | reflexivity].
Qed.

Lemma updateVector_bound (s : Session) (newVector : value)
    (operation : option string) :
  Vector.valid (vector (self s)) ->
  exceeds (length (history (self s))) (maxHistory (self s)) = false ->
  exceeds (length (history (self (State.updateVector newVector operation s).1)))
    (maxHistory (self s)) = false /\
  maxHistory (self (State.updateVector newVector operation s).1)
  = maxHistory (self s).
Proof.
  intros Hv H. rewrite (updateVector_spec _ _ _ Hv).
  destruct newVector as [x| | |b|str|items|nv|];
    try exact (logged_bound s operation H).
  - destruct (Vector.new items);
      [exact (updated_bound s _ operation H) | exact (logged_bound s operation H)].
  - destruct (Vector.clone nv);
      [exact (updated_bound s _ operation H) | exact (logged_bound s operation H)].
Qed.

(** [improve] builds the vector first and hands it to [updateVector]. *)
Lemma improve_unfold (pillar : Z) (delta : number) (s : Session) :
  State.improve pillar delta s =
  match Vector.new
          (State.array_set (VNumber <$> data (vector (self s))) pillar
             (VNumber (Vector.clamp
                         (State.array_get (data (vector (self s))) pillar
                          + delta)%js)))
  with
  | Normal v =>
      State.updateVector (VVector v)
        (Some ("improve_" +:+ State.key_name pillar +:+ "_"
               +:+ NumberFormat.toFixed3 delta)) s
  | Throw e => (s, Throw e)
  end.
Proof.
  unfold State.improve.
  rewrite M_bind_unfold. unfold Effect.this at 1. cbn iota.
  rewrite M_bind_unfold. unfold Effect.lift at 1. unfold Vector.toArray.
  destruct (Vector.new _); reflexivity.
Qed.

Lemma perform_bound (c : call) (s : Session) :
  wf s -> is_import c = false ->
  exceeds (length (history (self s))) (maxHistory (self s)) = false ->
  exceeds (length (history (self (perform c s)))) (maxHistory (self s)) = false /\
  maxHistory (self (perform c s)) = maxHistory (self s).
Proof.
  intros [Hv Hh] Hc H. destruct c; try discriminate Hc; cbn [perform].
  - exact (updateVector_bound s _ _ Hv H).
  - unfold State.updateWeights. destruct newWeights as [w|]; [|auto].
    destruct (negb _); [auto|]. destruct s as [[] n clk dl]. auto.
  - destruct s as [[] n clk dl]. auto.
  - rewrite improve_unfold.
    destruct (Vector.new _) as [v|e]; [|auto].
    exact (updateVector_bound s _ _ Hv H).
  - destruct s as [[] n clk dl]. auto.
  - destruct s as [[] n clk dl]. unfold State.unsubscribe. run_effects.
    destruct (list_find _ _) as [[index x]|]; auto.
  - destruct s as [[] n clk dl]. destruct u; auto.
  - rewrite reset_unfold.
    assert (Hb : exceeds (length (history (self (cleared s))))
                   (maxHistory (self (cleared s))) = false).
    { destruct s as [[] n clk dl]. cbn [cleared with_self self history
        maxHistory set_history set_operationCount set_lastOperation length] in *.
      apply (exceeds_false_le _ _ _ (Nat.le_0_l _) H). }
    assert (Hcv : Vector.valid (vector (self (cleared s))))
      by (destruct s as [[] n clk dl]; exact Hv).
    destruct (updateVector_bound (cleared s) (reset_argument initial)
                (Some "reset") Hcv Hb) as [Hl Hm].
    assert (Hmax : maxHistory (self (cleared s)) = maxHistory (self s))
      by (destruct s as [[] n clk dl]; reflexivity).
    rewrite Hmax in Hl, Hm. auto.
  - destruct (decide (history (self s) = [])) as [Eh|Eh].
    + rewrite (undo_empty s Eh). auto.
    + destruct (exists_last Eh) as (h0 & e0 & Eh').
      rewrite Eh' in Hh. apply Forall_app in Hh.
      destruct Hh as [_ He]. apply Forall_cons in He.
      rewrite (undo_spec s h0 e0 Eh' (proj1 He)).
      rewrite Eh', length_app in H.
      destruct s as [[] n clk dl].
      cbn [undone self history maxHistory set_history set_operationCount
           set_lastOperation set_vector] in *.
      split; [|reflexivity].
      apply (exceeds_false_le _ _ _ (Nat.le_add_r _ _) H).
  - rewrite export_spec. destruct s as [[] n clk dl]. auto.
Qed.

(** X9: no call other than [import] lets the history of a reachable session
    outgrow [maxHistory], whether the call returns or throws, and no such call
    changes [maxHistory]: if the length of the history is not more than
    [maxHistory] before the call, it is not more after it. *)
Theorem X9_history_stays_bounded (c : call) (s : Session) :
  reachable s -> is_import c = false ->
  exceeds (length (history (self s))) (maxHistory (self s)) = false ->
  exceeds (length (history (self (perform c s))))
    (maxHistory (self (perform c s))) = false /\
  maxHistory (self (perform c s)) = maxHistory (self s).
Proof.
  intros Hr Hc H.
  destruct (perform_bound c s (reachable_wf s Hr) Hc H) as [Hl Hm].
  rewrite Hm. split; [exact Hl | reflexivity].
Qed.

Lemma X9_witness :
  let c := call_improve 0 (Fin 0.2) in
  reachable session_after_one_update /\
  is_import c = false /\
  exceeds (length (history (self session_after_one_update)))
    (maxHistory (self session_after_one_update)) = false /\
  exceeds (length (history (self (perform c session_after_one_update))))
    (maxHistory (self (perform c session_after_one_update))) = false /\
  maxHistory (self (perform c session_after_one_update))
  = maxHistory (self session_after_one_update).
Proof.
  intros c.
  assert (Hb : exceeds (length (history (self session_after_one_update)))
                 (maxHistory (self session_after_one_update)) = false)
    by (vm_compute; reflexivity).
  split; [exact session_after_one_update_reachable|].
  split; [reflexivity|]. split; [exact Hb|].
  exact (X9_history_stays_bounded c session_after_one_update
           session_after_one_update_reachable eq_refl Hb).
Defined.

(** X10: [updateWeights], [updateDeltas], [subscribe], unsubscribing,
    [notifyObservers] and [export] never change the current vector, the
    history, the operation counter or the last operation, whether they
    return or throw. *)
Theorem X10_bookkeeping_leaves_vector_and_history (c : call) (s : Session) :
  bookkeeping c = true ->
  vector (self (perform c s)) = vector (self s) /\
  history (self (perform c s)) = history (self s) /\
  operationCount (self (perform c s)) = operationCount (self s) /\
  lastOperation (self (perform c s)) = lastOperation (self s).
Proof.
  intros Hc. destruct c; try discriminate Hc; cbn [perform].
  - unfold State.updateWeights. destruct newWeights as [w|]; [|auto].
    destruct (negb _); [auto|]. destruct s as [[] n clk dl]. auto.
  - destruct s as [[] n clk dl]. auto.
  - destruct s as [[] n clk dl]. auto.
  - destruct s as [[] n clk dl]. unfold State.unsubscribe. run_effects.
    destruct (list_find _ _) as [[index x]|]; auto.
  - destruct s as [[] n clk dl]. destruct u; auto.
  - rewrite export_spec. destruct s as [[] n clk dl]. auto.
Qed.

Lemma X10_witness :
  let c := call_updateWeights (Some [Fin 1; Fin 1; Fin 1; Fin 1]) in
  bookkeeping c = true /\
  vector (self (perform c session_after_one_update))
  = vector (self session_after_one_update) /\
  history (self (perform c session_after_one_update))
  = history (self session_after_one_update) /\
  operationCount (self (perform c session_after_one_update))
  = operationCount (self session_after_one_update) /\
  lastOperation (self (perform c session_after_one_update))
  = lastOperation (self session_after_one_update).
Proof.
  intros c. split; [reflexivity|].
  exact (X10_bookkeeping_leaves_vector_and_history c session_after_one_update
           eq_refl).
Defined.

(** ** Observers and deltas *)

Lemma find_fresh (o : observer) (l k : list observer) :
  o ∉ l ->
  list_find (fun x => x = o) (l ++ o :: k) = Some (length l, o).
Proof.
  intros H. apply list_find_Some. split; [|split].
  - rewrite lookup_app_r by lia. rewrite Nat.sub_diag. reflexivity.
  - reflexivity.
  - intros j y Hj Hlt ->. rewrite lookup_app_l in Hj by exact Hlt.
    apply H. exact (list_elem_of_lookup_2 _ _ _ Hj).
Qed.

Lemma find_absent (o : observer) (l : list observer) :
  o ∉ l -> list_find (fun x => x = o) l = None.
Proof.
  intros H. apply list_find_None. apply Forall_forall.
  intros x Hx ->. exact (H Hx).
Qed.

Lemma delete_fresh (o : observer) (l k : list observer) :
  delete (length l) (l ++ o :: k) = l ++ k.
Proof.
  induction l as [|a l IH]; [reflexivity|].
  cbn [length app].
  change (delete (S (length l)) (a :: l ++ o :: k))
    with (a :: delete (length l) (l ++ o :: k)).
  rewrite IH. reflexivity.
Qed.

(** X11: for an observer that is not subscribed, the unsubscribe function is
    a no-op; [subscribe] followed by its unsubscribe function restores the
    list of observers; and after subscribing twice one unsubscribe leaves the
    observer registered once. *)
Theorem X11_subscribe_unsubscribe (s : Session) (o : observer) :
  o ∉ observers (self s) ->
  State.unsubscribe o s = (s, Normal ()) /\
  observers (self (perform (call_unsubscribe o) (perform (call_subscribe o) s)))
  = observers (self s) /\
  observers (self (perform (call_unsubscribe o)
                     (perform (call_subscribe o) (perform (call_subscribe o) s))))
  = observers (self s) ++ [o].
Proof.
  intros H. destruct s as [st n clk dl]. destruct st as [v h m w d obs lo cs t0 oc].
  cbn [self observers] in H.
  unfold perform, State.unsubscribe, State.subscribe. run_effects.
  rewrite (find_absent o obs H).
  rewrite (find_fresh o obs [] H).
  replace ((obs ++ [o]) ++ [o]) with (obs ++ o :: [o]) by (rewrite <- app_assoc; reflexivity).
  rewrite (find_fresh o obs [o] H).
  cbn [set_observers observers].
  rewrite (delete_fresh o obs []), (delete_fresh o obs [o]), app_nil_r.
  repeat split.
Qed.

Lemma X11_witness :
  (3%nat ∉ observers (self observed_session)) /\
  State.unsubscribe 3%nat observed_session = (observed_session, Normal ()) /\
  observers (self (perform (call_unsubscribe 3%nat)
                     (perform (call_subscribe 3%nat) observed_session)))
  = observers (self observed_session) /\
  observers (self (perform (call_unsubscribe 3%nat)
                     (perform (call_subscribe 3%nat)
                        (perform (call_subscribe 3%nat) observed_session))))
  = observers (self observed_session) ++ [3%nat].
Proof.
  assert (H : 3%nat ∉ observers (self observed_session)).
  { intros Hin. vm_compute in Hin.
    repeat (apply elem_of_cons in Hin; destruct Hin as [Hin|Hin];
            [discriminate Hin|]).
    exact (proj1 (elem_of_nil _) Hin). }
  split; [exact H|].
  exact (X11_subscribe_unsubscribe observed_session 3%nat H).
Defined.

(** X12: [updateDeltas] merges: afterwards a key of the argument has the
    argument's step size and every other key has the step size it had. *)
Theorem X12_updateDeltas_merges
    (s : Session) (newDeltas : gmap string number) (key : string) :
  exists s',
    State.updateDeltas newDeltas s = (s', Normal ()) /\
    deltas (self s') !! key =
      match newDeltas !! key with
      | Some d => Some d
      | None => deltas (self s) !! key
      end.
Proof.
  destruct s as [[] n clk dl]. eexists. split; [reflexivity|].
  cbn [self deltas set_deltas]. rewrite lookup_union.
  destruct (newDeltas !! key), (deltas0 !! key); reflexivity.
Qed.

(** ** The scalar projection *)

Lemma getScalar_four (st : ComplexityState) (x0 x1 x2 x3 a b c d : Q) :
  0 < a + b + c + d ->
  let t := 0 + a + b + c + d in
  State.getScalar st (Some (mkVector [Fin x0; Fin x1; Fin x2; Fin x3]))
    (Some [Fin a; Fin b; Fin c; Fin d])
  = if Number.Qltb 1e-6 (Qabs (t + - (1)))
    then Fin (0 + x0 * (a / t) + x1 * (b / t) + x2 * (c / t) + x3 * (d / t))
    else Fin (0 + x0 * a + x1 * b + x2 * c + x3 * d).
Proof.
  intros Hpos t. unfold State.getScalar.
  cbn [default from_option id reduce reduce_from Number.add Number.sub
       Number.neg Math.abs Number.gt Number.lt EPSILON].
  fold t. destruct (Number.Qltb 1e-6 (Qabs (t + - (1)))); [|reflexivity].
  assert (E : Qeq_bool t 0 = false).
  { destruct (Qeq_bool t 0) eqn:E; [|reflexivity].
    apply Qeq_bool_eq in E. subst t. lra. }
  cbn [fmap list_fmap Number.div Vector.toArray data reduce_from at_index
       lookup list_lookup default from_option id Number.mul Number.add].
  rewrite E. reflexivity.
Qed.

(** X13: for a valid vector and four non-negative weights with a positive
    sum, [getScalar] is a number between 0 and 1, up to the tolerance: it is
    not negative and at most 1.00001, whether the weights are renormalized
    or taken as they are (their sum is within 1e-6 of 1). *)
Theorem X13_getScalar_range
    (st : ComplexityState) (v : ComplexityVector) (a b c d : Q) :
  Vector.valid v ->
  0 <= a -> 0 <= b -> 0 <= c -> 0 <= d -> 0 < a + b + c + d ->
  exists q : Q,
    State.getScalar st (Some v) (Some [Fin a; Fin b; Fin c; Fin d]) = Fin q /\
    0 <= q <= 1.00001.
Proof.
  intros Hv Ha Hb Hc Hd Hpos. components v Hv.
  rewrite (getScalar_four st x x0 x1 x2 a b c d Hpos). cbv zeta.
  set (t := 0 + a + b + c + d).
  assert (Ht : 0 < t) by (subst t; lra).
  assert (Heps : 0 < 1e-6) by reflexivity.
  assert (Htol : 1 + 1e-6 <= 1.00001) by (vm_compute; discriminate).
  set (eps := 1e-6) in *. clearbody eps.
  destruct (Number.Qltb eps (Qabs (t + - (1)))) eqn:E.
  - eexists. split; [reflexivity|].
    assert (Hi : 0 < / t) by (apply Qinv_lt_0_compat; exact Ht).
    assert (Hone : a * / t + b * / t + c * / t + d * / t == 1)
      by (subst t; field; lra).
    change (a / t) with (a * / t). change (b / t) with (b * / t).
    change (c / t) with (c * / t). change (d / t) with (d * / t).
    generalize dependent (/ t). intros it Hi Hone.
    assert (Pa : 0 <= a * it) by nra.
    assert (Pb : 0 <= b * it) by nra.
    assert (Pc : 0 <= c * it) by nra.
    assert (Pd : 0 <= d * it) by nra.
    assert (Hq : 0 <= 0 + x * (a * it) + x0 * (b * it) + x1 * (c * it)
                      + x2 * (d * it) <= 1) by nra.
    lra.
  - eexists. split; [reflexivity|].
    apply Qltb_ge in E. apply Qabs_Qle_condition in E.
    assert (Hq : 0 <= 0 + x * a + x0 * b + x1 * c + x2 * d <= t)
      by (subst t; nra).
    lra.
Qed.

Lemma X13_witness :
  Vector.valid (mkVector [Fin 0.8; Fin 0.4; Fin 0.6; Fin 0.3]) /\
  0 <= 3 /\ 0 <= 1 /\ 0 <= 0 /\ 0 <= 0 /\ 0 < 3 + 1 + 0 + 0 /\
  exists q : Q,
    State.getScalar (self initial_session)
      (Some (mkVector [Fin 0.8; Fin 0.4; Fin 0.6; Fin 0.3]))
      (Some [Fin 3; Fin 1; Fin 0; Fin 0]) = Fin q /\
    0 <= q <= 1.00001.
Proof.
  assert (Hv : Vector.valid (mkVector [Fin 0.8; Fin 0.4; Fin 0.6; Fin 0.3]))
    by (apply validb_spec; reflexivity).
  assert (H3 : 0 <= 3) by discriminate.
  assert (H1 : 0 <= 1) by discriminate.
  assert (H0 : 0 <= 0) by discriminate.
  assert (Hp : 0 < 3 + 1 + 0 + 0) by reflexivity.
  repeat (split; [assumption|]).
  exact (X13_getScalar_range (self initial_session) _ 3 1 0 0 Hv H3 H1 H0 H0 Hp).
Defined.

(** X14: [ComplexityMath.computeScalarAverage] and
    [ComplexityState.getScalar] compute the same number from the same vector
    and weights; without weights the former falls back on the equal weights,
    the latter on the weights of the state. *)
Theorem X14_scalar_implementations_agree
    (st : ComplexityState) (v : ComplexityVector) (w : list number) :
  ComplexityMath.computeScalarAverage (Some v) (Some w)
  = Normal (State.getScalar st (Some v) (Some w)) /\
  ComplexityMath.computeScalarAverage (Some v) None
  = Normal (State.getScalar st (Some v) (Some DEFAULT_WEIGHTS)) /\
  State.getScalar st None None
  = State.getScalar st (Some (vector st)) (Some (weights st)).
Proof.
  unfold ComplexityMath.computeScalarAverage, State.getScalar.
  cbn [default from_option id].
  split; [|split].
  - destruct (_ > EPSILON)%js; reflexivity.
  - destruct (_ > EPSILON)%js; reflexivity.
  - reflexivity.
Qed.

Lemma add_NaN_r (x : number) : (x + NaN)%js = NaN.
Proof. destruct x; reflexivity. Qed.

Lemma NaN_add_l (x : number) : (NaN + x)%js = NaN.
Proof. reflexivity. Qed.

(** X15: the weights of the constructor's [config] are not checked, and
    with fewer than four of them [getScalar] of a valid vector is NaN. *)
Theorem X15_short_weights_give_NaN
    (st : ComplexityState) (v : ComplexityVector) (w : list number) :
  Vector.valid v -> (length w < 4)%nat ->
  State.getScalar st (Some v) (Some w) = NaN.
Proof.
  intros Hv Hw. components v Hv. unfold State.getScalar.
  cbn [default from_option id Vector.toArray data].
  destruct w as [|w0 [|w1 [|w2 [|w3 [|]]]]]; cbn [length] in Hw; try lia;
    match goal with
    | |- (if ?b then _ else _) = _ => destruct b
    end;
    cbn [reduce reduce_from at_index lookup list_lookup fmap list_fmap
         default from_option id Number.mul];
    rewrite ?add_NaN_r, ?NaN_add_l; reflexivity.
Qed.

Lemma X15_witness :
  Vector.valid (mkVector DEFAULT_VECTOR) /\
  (length [Fin 0.5; Fin 0.5] < 4)%nat /\
  State.getScalar (self initial_session) (Some (mkVector DEFAULT_VECTOR))
    (Some [Fin 0.5; Fin 0.5]) = NaN.
Proof.
  assert (Hv : Vector.valid (mkVector DEFAULT_VECTOR))
    by (apply validb_spec; reflexivity).
  assert (Hl : (length [Fin 0.5; Fin 0.5] < 4)%nat) by (cbn; lia).
  split; [exact Hv|]. split; [exact Hl|].
  exact (X15_short_weights_give_NaN (self initial_session) _ _ Hv Hl).
Defined.

(** ** Statistics *)

Lemma fold_max_Fin (qs : list Q) (a : Q) :
  exists m : Q,
    fold_left Math.max (Fin <$> qs) (Fin a) = Fin m /\
    a <= m /\ Forall (fun q => q <= m) qs /\ (m = a \/ m ∈ qs).
Proof.
  revert a. induction qs as [|q qs IH]; intros a.
  - exists a. repeat split; [lra | constructor | left; reflexivity].
  - cbn [fmap list_fmap fold_left].
    unfold Math.max at 2. unfold Number.lt.
    destruct (Number.Qltb a q) eqn:E.
    + apply Qltb_lt in E. destruct (IH q) as (m & Hm & Hq & Hall & Hin).
      exists m. split; [exact Hm|]. split; [lra|].
      split; [constructor; assumption|].
      right. destruct Hin as [->|Hin]; [left | right; exact Hin].
    + apply Qltb_ge in E. destruct (IH a) as (m & Hm & Ha & Hall & Hin).
      exists m. split; [exact Hm|]. split; [lra|].
      split; [constructor; [lra | assumption]|].
      destruct Hin as [->|Hin]; [left; reflexivity | right; right; exact Hin].
Qed.

Lemma fold_min_Fin (qs : list Q) (a : Q) :
  exists m : Q,
    fold_left Math.min (Fin <$> qs) (Fin a) = Fin m /\
    m <= a /\ Forall (fun q => m <= q) qs /\ (m = a \/ m ∈ qs).
Proof.
  revert a. induction qs as [|q qs IH]; intros a.
  - exists a. repeat split; [lra | constructor | left; reflexivity].
  - cbn [fmap list_fmap fold_left].
    unfold Math.min at 2. unfold Number.lt.
    destruct (Number.Qltb q a) eqn:E.
    + apply Qltb_lt in E. destruct (IH q) as (m & Hm & Hq & Hall & Hin).
      exists m. split; [exact Hm|]. split; [lra|].
      split; [constructor; assumption|].
      right. destruct Hin as [->|Hin]; [left | right; exact Hin].
    + apply Qltb_ge in E. destruct (IH a) as (m & Hm & Ha & Hall & Hin).
      exists m. split; [exact Hm|]. split; [lra|].
      split; [constructor; [lra | assumption]|].
      destruct Hin as [->|Hin]; [left; reflexivity | right; right; exact Hin].
Qed.

(** The largest of at least one finite number is one of them and bounds
    them all; likewise the smallest. *)
Lemma max_of_Fin (q : Q) (qs : list Q) :
  exists m : Q,
    Math.max_of (Fin <$> (q :: qs)) = Fin m /\
    Forall (fun x => x <= m) (q :: qs) /\ m ∈ q :: qs.
Proof.
  unfold Math.max_of. cbn [fmap list_fmap fold_left].
  change (Math.max NInf (Fin q)) with (Fin q).
  destruct (fold_max_Fin qs q) as (m & Hm & Hq & Hall & Hin).
  exists m. split; [exact Hm|]. split; [constructor; assumption|].
  destruct Hin as [->|Hin]; [left | right; exact Hin].
Qed.

Lemma min_of_Fin (q : Q) (qs : list Q) :
  exists m : Q,
    Math.min_of (Fin <$> (q :: qs)) = Fin m /\
    Forall (fun x => m <= x) (q :: qs) /\ m ∈ q :: qs.
Proof.
  unfold Math.min_of. cbn [fmap list_fmap fold_left].
  change (Math.min PInf (Fin q)) with (Fin q).
  destruct (fold_min_Fin qs q) as (m & Hm & Hq & Hall & Hin).
  exists m. split; [exact Hm|]. split; [constructor; assumption|].
  destruct Hin as [->|Hin]; [left | right; exact Hin].
Qed.

Lemma square_nonneg (a : Q) : 0 <= a * (a * 1).
Proof. destruct (Qlt_le_dec a 0); nra. Qed.

Ltac four_bounds H :=
  repeat match type of H with
         | Forall _ (_ :: _) =>
             let Hx := fresh "Hb" in
             apply Forall_cons in H; destruct H as [Hx H]
         end.

(** X16: for a state whose vector is valid, [getStatistics] returns, and in
    what it returns every component lies between [min] and [max], [mean]
    lies between them too, [range] is the difference [max - min] as the
    program computes it and lies in [0,1], [variance] is not negative, and
    [balanced] is the program's comparison of that range with 0.2. *)
Theorem X16_statistics_bounds (st : ComplexityState) :
  Vector.valid (vector st) ->
  exists (r : Statistics.t) (mn mx me rg var : Q),
    State.getStatistics st = Normal r /\
    Statistics.min r = Fin mn /\ Statistics.max r = Fin mx /\
    Statistics.mean r = Fin me /\ Statistics.range r = Fin rg /\
    Statistics.variance r = Fin var /\
    Forall (fun x => exists q, x = Fin q /\ mn <= q <= mx) (data (vector st)) /\
    mn <= me <= mx /\
    Statistics.range r = (Statistics.max r - Statistics.min r)%js /\
    0 <= rg <= 1 /\ 0 <= var /\
    Statistics.balanced r = (Statistics.range r < Fin 0.2)%js.
Proof.
  intros Hv. destruct st as [v h m w d obs lo cs t0 oc]. cbn [vector] in *.
  components v Hv.
  destruct (max_of_Fin x [x0; x1; x2]) as (mx & Hmx & Hmax & Hmxin).
  destruct (min_of_Fin x [x0; x1; x2]) as (mn & Hmn & Hmin & Hmnin).
  cbn [fmap list_fmap] in Hmx, Hmn.
  unfold State.getStatistics, State.calculateVariance.
  cbn [vector Vector.toArray data reduce1 reduce_from length].
  rewrite !bind_Normal. cbn [fmap list_fmap reduce1 reduce_from].
  rewrite !bind_Normal. rewrite Hmx, Hmn.
  cbn [Number.add Number.sub Number.neg Number.div Number.mul Math.pow
       Number.lt inject_Z Z.of_nat Pos.of_succ_nat Pos.succ].
  change (Qeq_bool (4 # 1) 0) with false.
  change (Qeq_bool 4 0) with false. cbv iota.
  four_bounds Hmax. four_bounds Hmin.
  assert (Hmx01 : 0 <= mx <= 1).
  { repeat (apply elem_of_cons in Hmxin; destruct Hmxin as [->|Hmxin]);
      try assumption. apply elem_of_nil in Hmxin. destruct Hmxin. }
  assert (Hmn01 : 0 <= mn <= 1).
  { repeat (apply elem_of_cons in Hmnin; destruct Hmnin as [->|Hmnin]);
      try assumption. apply elem_of_nil in Hmnin. destruct Hmnin. }
  eexists. exists mn, mx. do 3 eexists.
  split; [reflexivity|].
  cbn [Statistics.min Statistics.max Statistics.mean Statistics.range
       Statistics.variance Statistics.balanced].
  do 5 (split; [reflexivity|]).
  split.
  { repeat (apply List.Forall_cons; [eexists; split; [reflexivity|lra]|]).
    apply List.Forall_nil. }
  split; [unfold Qdiv; change (/ 4) with (1 # 4); lra|].
  split; [reflexivity|]. split; [lra|].
  split; [|reflexivity].
  change (inject_Z (Z.of_nat 4)) with 4.
  generalize ((x + x0 + x1 + x2) / 4). intros c.
  apply Qle_shift_div_l; [reflexivity|].
  pose proof (square_nonneg (x + - c)). pose proof (square_nonneg (x0 + - c)).
  pose proof (square_nonneg (x1 + - c)). pose proof (square_nonneg (x2 + - c)).
  lra.
Qed.

Lemma X16_witness :
  Vector.valid (vector (self session_after_one_update)) /\
  exists (r : Statistics.t) (mn mx me rg var : Q),
    State.getStatistics (self session_after_one_update) = Normal r /\
    Statistics.min r = Fin mn /\ Statistics.max r = Fin mx /\
    Statistics.mean r = Fin me /\ Statistics.range r = Fin rg /\
    Statistics.variance r = Fin var /\
    Forall (fun x => exists q, x = Fin q /\ mn <= q <= mx)
      (data (vector (self session_after_one_update))) /\
    mn <= me <= mx /\
    Statistics.range r = (Statistics.max r - Statistics.min r)%js /\
    0 <= rg <= 1 /\ 0 <= var /\
    Statistics.balanced r = (Statistics.range r < Fin 0.2)%js.
Proof.
  assert (Hv : Vector.valid (vector (self session_after_one_update)))
    by (apply validb_spec; reflexivity).
  split; [exact Hv|].
  exact (X16_statistics_bounds (self session_after_one_update) Hv).
Defined.

Lemma indexOf_number_first (qs : list Q) (m : Q) :
  m ∈ qs ->
  exists (i : nat) (q : Q),
    indexOf_number (Fin <$> qs) (Fin m) = Some i /\
    qs !! i = Some q /\ q == m /\
    forall (j : nat) (q' : Q), (j < i)%nat -> qs !! j = Some q' -> ~ q' == m.
Proof.
  intros Hin. unfold indexOf_number.
  destruct (list_find (fun y => Number.eq y (Fin m) = true) (Fin <$> qs))
    as [[i y]|] eqn:E.
  - apply list_find_Some in E. destruct E as (Hi & Hy & Hfirst).
    rewrite list_lookup_fmap in Hi.
    destruct (qs !! i) as [q|] eqn:Hq; [|discriminate].
    injection Hi as <-. cbn [Number.eq] in Hy. apply Qeq_bool_iff in Hy.
    exists i, q. split; [reflexivity|]. split; [exact Hq|].
    split; [exact Hy|].
    intros j q' Hj Hq' Heq.
    apply (Hfirst j (Fin q')); [|exact Hj|].
    + rewrite list_lookup_fmap, Hq'. reflexivity.
    + cbn [Number.eq]. apply Qeq_bool_iff. exact Heq.
  - exfalso. apply list_find_None in E. rewrite Forall_forall in E.
    apply (E (Fin m)).
    + apply list_elem_of_fmap. exists m. split; [reflexivity | exact Hin].
    + cbn [Number.eq]. apply Qeq_bool_iff. reflexivity.
Qed.

Lemma first_pillar (x x0 x1 x2 m : Q) :
  m ∈ [x; x0; x1; x2] ->
  exists k,
    (indexOf_number [Fin x; Fin x0; Fin x1; Fin x2] (Fin m) ≫= fun i => keys !! i)
    = Some k /\
    first_pillar_at [Fin x; Fin x0; Fin x1; Fin x2] m k.
Proof.
  intros Hin.
  destruct (indexOf_number_first [x; x0; x1; x2] m Hin)
    as (i & q & Hi & Hq & Heq & Hfirst).
  cbn [fmap list_fmap] in Hi. rewrite Hi. cbn [mbind option_bind].
  assert (Hlt : (i < 4)%nat) by (apply lookup_lt_Some in Hq; exact Hq).
  destruct (lookup_lt_is_Some_2 keys i Hlt) as [k Hk].
  exists k. split; [exact Hk|].
  exists i, q. split; [exact Hk|].
  split; [change [Fin x; Fin x0; Fin x1; Fin x2] with (Fin <$> [x; x0; x1; x2]);
          rewrite list_lookup_fmap, Hq; reflexivity|].
  split; [exact Heq|].
  intros j q' Hj Hq'. apply (Hfirst j q' Hj).
  change [Fin x; Fin x0; Fin x1; Fin x2] with (Fin <$> [x; x0; x1; x2]) in Hq'.
  rewrite list_lookup_fmap in Hq'.
  destruct ([x; x0; x1; x2] !! j); [|discriminate].
  injection Hq' as ->. reflexivity.
Qed.

(** X17: for a state whose vector is valid, [dominantPillar] is the name of
    the first pillar whose component equals [max], and [weakestPillar] the
    name of the first one whose component equals [min]. *)
Theorem X17_dominant_and_weakest_pillar (st : ComplexityState) :
  Vector.valid (vector st) ->
  exists (r : Statistics.t) (mn mx : Q) (dominant weakest : string),
    State.getStatistics st = Normal r /\
    Statistics.max r = Fin mx /\ Statistics.min r = Fin mn /\
    Statistics.dominantPillar r = Some dominant /\
    first_pillar_at (data (vector st)) mx dominant /\
    Statistics.weakestPillar r = Some weakest /\
    first_pillar_at (data (vector st)) mn weakest.
Proof.
  intros Hv. destruct st as [v h m w d obs lo cs t0 oc]. cbn [vector] in *.
  components v Hv.
  destruct (max_of_Fin x [x0; x1; x2]) as (mx & Hmx & _ & Hmxin).
  destruct (min_of_Fin x [x0; x1; x2]) as (mn & Hmn & _ & Hmnin).
  cbn [fmap list_fmap] in Hmx, Hmn.
  destruct (first_pillar x x0 x1 x2 mx Hmxin) as (kd & Hkd & Hd).
  destruct (first_pillar x x0 x1 x2 mn Hmnin) as (kw & Hkw & Hw).
  unfold State.getStatistics, State.calculateVariance.
  cbn [vector Vector.toArray data reduce1 reduce_from length].
  rewrite !bind_Normal. cbn [fmap list_fmap reduce1 reduce_from].
  rewrite !bind_Normal. rewrite Hmx, Hmn, Hkd, Hkw.
  eexists. exists mn, mx, kd, kw.
  split; [reflexivity|]. cbn [Statistics.max Statistics.min
    Statistics.dominantPillar Statistics.weakestPillar data].
  repeat (split; [reflexivity || assumption|]). assumption.
Qed.

Lemma X17_witness :
  Vector.valid (vector (self session_after_one_update)) /\
  exists (r : Statistics.t) (mn mx : Q) (dominant weakest : string),
    State.getStatistics (self session_after_one_update) = Normal r /\
    Statistics.max r = Fin mx /\ Statistics.min r = Fin mn /\
    Statistics.dominantPillar r = Some dominant /\
    first_pillar_at (data (vector (self session_after_one_update))) mx dominant /\
    Statistics.weakestPillar r = Some weakest /\
    first_pillar_at (data (vector (self session_after_one_update))) mn weakest.
Proof.
  assert (Hv : Vector.valid (vector (self session_after_one_update)))
    by (apply validb_spec; reflexivity).
  split; [exact Hv|].
  exact (X17_dominant_and_weakest_pillar (self session_after_one_update) Hv).
Defined.

(** The README's vector: algorithmic dominates, geometric is weakest. *)
Lemma statistics_example :
  exists r : Statistics.t,
    State.getStatistics (self session_after_one_update) = Normal r /\
    Statistics.dominantPillar r = Some "alg" /\
    Statistics.weakestPillar r = Some "geom" /\
    Statistics.balanced r = false.
Proof. eexists. split; [vm_compute; reflexivity|]. repeat split. Qed.

(** ** Improving a pillar *)

Lemma clamp_Fin_value (q : Q) :
  exists r : Q,
    Vector.clamp (Fin q) = Fin r /\ 0 <= r <= 1 /\
    (q <= 1 -> q <= r) /\ (0 <= q -> r <= q).
Proof.
  unfold Vector.clamp, Math.min, Math.max, Number.lt.
  destruct (Number.Qltb q 1) eqn:H1.
  - destruct (Number.Qltb 0 q) eqn:H0.
    + exists q. apply Qltb_lt in H1, H0. repeat split; lra.
    + exists 0. apply Qltb_lt in H1. apply Qltb_ge in H0. repeat split; lra.
  - cbn. exists 1. apply Qltb_ge in H1. repeat split; lra.
Qed.

(** What [applyImprovement] returns on a valid vector, a known pillar at
    index [i] and a step that is not NaN. *)
Lemma applyImprovement_known (v : ComplexityVector) (pillar : string)
    (i : nat) (delta : number) :
  Vector.valid v -> Vector.indexOf pillar = Some i ->
  Number.isNaN delta = false ->
  ComplexityMath.applyImprovement v pillar delta
  = Normal (mkVector (<[i := Vector.clamp (at_index (data v) i + delta)%js]>
                        (data v))).
Proof.
  intros Hv Hi Hd. destruct (indexOf_Some pillar i Hi) as [_ Hi4].
  unfold ComplexityMath.applyImprovement.
  rewrite (clone_valid v Hv), bind_Normal.
  unfold Vector.get, Vector.set. rewrite Hi.
  destruct Hv as [Hlen Hall].
  destruct (at_index_in_unit (data v) i Hall) as [q Hq]; [lia|]. rewrite Hq.
  pose proof (clamp_in_unit _ (add_not_NaN q delta Hd)) as Hc.
  unfold Vector.validate.
  change [VNumber (Vector.clamp (Fin q + delta))]
    with (VNumber <$> [Vector.clamp (Fin q + delta)%js]).
  rewrite validate_in_unit by (constructor; [exact Hc | constructor]).
  reflexivity.
Qed.

(** X18: on a valid vector, a known pillar and a step that is not NaN,
    [applyImprovement] returns a valid vector in which that pillar is the old
    value plus the step, clamped into [0,1], and every other pillar is as it
    was; a step that is not negative never lowers the pillar. *)
Theorem X18_applyImprovement_changes_one_pillar
    (v : ComplexityVector) (pillar : string) (delta : number) :
  Vector.valid v -> pillar ∈ keys -> Number.isNaN delta = false ->
  exists (r : ComplexityVector) (old new : Q),
    ComplexityMath.applyImprovement v pillar delta = Normal r /\
    Vector.valid r /\
    Vector.get v pillar = Some (Fin old) /\
    Vector.get r pillar = Some (Fin new) /\
    Fin new = Vector.clamp (Fin old + delta)%js /\
    (forall other, other <> pillar -> Vector.get r other = Vector.get v other) /\
    (forall d : Q, delta = Fin d -> 0 <= d -> old <= new).
Proof.
  intros Hv Hkey Hd.
  destruct (indexOf_known pillar Hkey) as [i Hi].
  destruct (indexOf_Some pillar i Hi) as [Hki Hi4].
  pose proof Hv as [Hlen Hall].
  destruct (at_index_in_unit (data v) i Hall) as [old Hold]; [lia|].
  assert (Hold01 : 0 <= old <= 1).
  { unfold at_index in Hold.
    destruct (lookup_lt_is_Some_2 (data v) i ltac:(lia)) as [y Hy].
    rewrite Hy in Hold. cbn in Hold. subst y.
    destruct (Forall_lookup_1 _ _ _ _ Hall Hy) as (q & [= <-] & Hq). exact Hq. }
  destruct (clamp_in_unit _ (add_not_NaN old delta Hd)) as (new & Hnew & Hnew01).
  exists (mkVector (<[i := Vector.clamp (at_index (data v) i + delta)%js]> (data v))),
    old, new.
  split; [exact (applyImprovement_known v pillar i delta Hv Hi Hd)|].
  rewrite Hold, Hnew.
  split; [|split; [|split; [|split; [|split]]]].
  - split; cbn [data].
    + rewrite length_insert. exact Hlen.
    + apply Forall_insert; [exact Hall|]. exists new. auto.
  - unfold Vector.get. rewrite Hi, Hold. reflexivity.
  - unfold Vector.get. rewrite Hi. cbn [data]. unfold at_index.
    rewrite list_lookup_insert_eq by lia. reflexivity.
  - reflexivity.
  - intros other Hne. unfold Vector.get.
    destruct (Vector.indexOf other) as [j|] eqn:Hj; [|reflexivity].
    destruct (indexOf_Some other j Hj) as [Hkj _].
    assert (Hij : i <> j) by (intros ->; congruence).
    cbn [data]. unfold at_index.
    rewrite list_lookup_insert_ne by exact Hij. reflexivity.
  - intros d -> Hd0. cbn [Number.add] in Hnew.
    destruct (clamp_Fin_value (old + d)) as (r & Hr & _ & Hup & _).
    rewrite Hr in Hnew. injection Hnew as ->.
    destruct (Qlt_le_dec 1 (old + d)) as [Hbig|Hsmall].
    + unfold Vector.clamp, Math.min, Math.max, Number.lt in Hr.
      assert (E : Number.Qltb (old + d) 1 = false) by (apply Qltb_ge; lra).
      rewrite E in Hr. cbn in Hr. injection Hr as <-. lra.
    + specialize (Hup Hsmall). lra.
Qed.

Lemma X18_witness :
  Vector.valid (mkVector [Fin 0.8; Fin 0.4; Fin 0.6; Fin 0.3]) /\
  "alg" ∈ keys /\ Number.isNaN (Fin 0.3) = false /\
  exists (r : ComplexityVector) (old new : Q),
    ComplexityMath.applyImprovement
      (mkVector [Fin 0.8; Fin 0.4; Fin 0.6; Fin 0.3]) "alg" (Fin 0.3) = Normal r /\
    Vector.valid r /\
    Vector.get (mkVector [Fin 0.8; Fin 0.4; Fin 0.6; Fin 0.3]) "alg"
    = Some (Fin old) /\
    Vector.get r "alg" = Some (Fin new) /\
    Fin new = Vector.clamp (Fin old + Fin 0.3)%js /\
    (forall other, other <> "alg" ->
       Vector.get r other
       = Vector.get (mkVector [Fin 0.8; Fin 0.4; Fin 0.6; Fin 0.3]) other) /\
    (forall d : Q, Fin 0.3 = Fin d -> 0 <= d -> old <= new).
Proof.
  assert (Hv : Vector.valid (mkVector [Fin 0.8; Fin 0.4; Fin 0.6; Fin 0.3]))
    by (apply validb_spec; reflexivity).
  assert (Hk : "alg" ∈ keys) by (unfold keys; repeat constructor).
  split; [exact Hv|]. split; [exact Hk|]. split; [reflexivity|].
  exact (X18_applyImprovement_changes_one_pillar _ "alg" (Fin 0.3) Hv Hk eq_refl).
Defined.

Lemma array_get_nat (l : list number) (i : nat) :
  State.array_get l (Z.of_nat i) = at_index l i.
Proof.
  unfold State.array_get.
  destruct (Z.ltb_spec (Z.of_nat i) 0) as [H|_]; [lia|].
  rewrite Nat2Z.id. reflexivity.
Qed.

Lemma array_set_nat (l : list number) (i : nat) (x : number) :
  (i < length l)%nat -> (i < 4)%nat ->
  State.array_set (VNumber <$> l) (Z.of_nat i) (VNumber x)
  = VNumber <$> <[i := x]> l.
Proof.
  intros Hi H4. unfold State.array_set.
  destruct (Z.ltb_spec (Z.of_nat i) 0) as [H|_]; [lia|].
  destruct (Z.leb_spec 4294967295 (Z.of_nat i)) as [H|_]; [lia|].
  cbn [orb]. rewrite Nat2Z.id, length_fmap.
  destruct (Nat.ltb_spec i (length l)) as [_|H]; [|lia].
  rewrite list_fmap_insert. reflexivity.
Qed.

Lemma key_name_nat (i : nat) (pillar : string) :
  keys !! i = Some pillar -> State.key_name (Z.of_nat i) = pillar.
Proof.
  intros H. unfold State.key_name.
  destruct (Z.ltb_spec (Z.of_nat i) 0) as [H0|_]; [lia|].
  rewrite Nat2Z.id, H. reflexivity.
Qed.

Lemma indexOf_of_lookup (i : nat) (pillar : string) :
  keys !! i = Some pillar -> Vector.indexOf pillar = Some i.
Proof.
  intros H. destruct i as [|[|[|[|i]]]]; cbn in H;
    try (injection H as <-; reflexivity).
  discriminate H.
Qed.

(** X19: the two ways to improve a pillar agree: on a session with a valid
    vector, [improve(i, delta)] with a pillar index from 0 to 3 and a step
    that is not NaN and, when finite, below 1e21 in absolute value, returns
    normally and installs exactly the vector that
    [ComplexityMath.applyImprovement] returns for the pillar's name, under
    the label improve_<name>_<delta with three decimals>. *)
Theorem X19_improve_agrees_with_applyImprovement
    (s : Session) (i : nat) (pillar : string) (delta : number) :
  Vector.valid (vector (self s)) ->
  keys !! i = Some pillar ->
  Number.isNaN delta = false ->
  fixed_notation delta ->
  exists (r : ComplexityVector) (s' : Session),
    ComplexityMath.applyImprovement (vector (self s)) pillar delta = Normal r /\
    State.improve (Z.of_nat i) delta s = (s', Normal ()) /\
    vector (self s') = r /\
    lastOperation (self s')
    = Some ("improve_" +:+ pillar +:+ "_" +:+ NumberFormat.toFixed3 delta).
Proof.
  intros Hv Hk Hd _.
  pose proof (indexOf_of_lookup i pillar Hk) as Hi.
  assert (Hi4 : (i < 4)%nat) by (apply lookup_lt_Some in Hk; exact Hk).
  pose proof Hv as [Hlen Hall].
  set (c := Vector.clamp (at_index (data (vector (self s))) i + delta)%js).
  assert (Hc : Vector.in_unit c).
  { destruct (at_index_in_unit _ i Hall) as [q Hq]; [lia|].
    subst c. rewrite Hq. exact (clamp_in_unit _ (add_not_NaN q delta Hd)). }
  set (r := mkVector (<[i := c]> (data (vector (self s))))).
  assert (Hr : Vector.valid r).
  { split; cbn [r data]; [rewrite length_insert; exact Hlen|].
    apply Forall_insert; assumption. }
  exists r. eexists.
  split; [exact (applyImprovement_known _ pillar i delta Hv Hi Hd)|].
  rewrite improve_unfold, array_get_nat, array_set_nat by lia.
  fold c. destruct Hr as [Hrl Hra]. cbn [r data] in Hrl, Hra.
  rewrite (new_of_valid _ Hrl Hra). fold r.
  rewrite (updateVector_spec _ _ _ Hv).
  rewrite (clone_valid r (conj Hrl Hra)), (key_name_nat i pillar Hk).
  split; [reflexivity|].
  destruct s as [[] n clk dl]. split; reflexivity.
Qed.

Lemma X19_witness :
  Vector.valid (vector (self session_after_one_update)) /\
  keys !! 0%nat = Some "alg" /\ Number.isNaN (Fin 0.2) = false /\
  fixed_notation (Fin 0.2) /\
  exists (r : ComplexityVector) (s' : Session),
    ComplexityMath.applyImprovement (vector (self session_after_one_update))
      "alg" (Fin 0.2) = Normal r /\
    State.improve (Z.of_nat 0) (Fin 0.2) session_after_one_update
    = (s', Normal ()) /\
    vector (self s') = r /\
    lastOperation (self s')
    = Some ("improve_" +:+ "alg" +:+ "_" +:+ NumberFormat.toFixed3 (Fin 0.2)).
Proof.
  assert (Hv : Vector.valid (vector (self session_after_one_update)))
    by (apply validb_spec; reflexivity).
  assert (Hf : fixed_notation (Fin 0.2)).
  { intros q [= <-]. vm_compute. reflexivity. }
  split; [exact Hv|]. split; [reflexivity|]. split; [reflexivity|].
  split; [exact Hf|].
  exact (X19_improve_agrees_with_applyImprovement session_after_one_update
           0 "alg" (Fin 0.2) Hv eq_refl eq_refl Hf).
Defined.

(** ** Signal loss, in general *)

(** [calculateSignalLoss] always returns, and its report is made of the
    vector changes and the scalar change as follows. *)
Lemma calculateSignalLoss_scalars (before after : ComplexityVector)
    (weights : option (list number)) :
  exists scalarBefore scalarAfter : number,
    ComplexityMath.computeScalarAverage (Some before) weights
    = Normal scalarBefore /\
    ComplexityMath.computeScalarAverage (Some after) weights
    = Normal scalarAfter /\
    ComplexityMath.calculateSignalLoss before after weights
    = Normal
        (let scalarDelta := (scalarAfter - scalarBefore)%js in
         let acc := reduce (loss_step scalarDelta) (vector_delta before after)
                      (∅, Fin 0) in
         mkSignalLoss acc.2 acc.1 scalarDelta (vector_delta before after)
           (acc.2 > ComplexityMath.SIGNAL_LOSS_THRESHOLD)%js
           (ComplexityMath.categorizeLoss (vector_delta before after)
              scalarDelta)).
Proof.
  unfold ComplexityMath.calculateSignalLoss.
  destruct (computeScalarAverage_returns before weights) as [sb Hb].
  destruct (computeScalarAverage_returns after weights) as [sa Ha].
  exists sb, sa. split; [exact Hb|]. split; [exact Ha|].
  rewrite Hb, Ha, !bind_Normal.
  unfold Vector.toArray. fold (vector_delta before after).
  change (fun (acc : gmap string number * number) (delta : number) (i : nat) =>
            let '(lostSignals, totalLoss) := acc in _)
    with (loss_step (sa - sb)%js).
  cbv zeta.
  destruct (reduce (loss_step (sa - sb)%js) (vector_delta before after) (∅, Fin 0))
    as [lost totalLoss].
  reflexivity.
Qed.

Lemma calculateSignalLoss_report (before after : ComplexityVector)
    (weights : option (list number)) :
  exists scalarDelta : number,
    ComplexityMath.calculateSignalLoss before after weights
    = Normal
        (let acc := reduce (loss_step scalarDelta) (vector_delta before after)
                      (∅, Fin 0) in
         mkSignalLoss acc.2 acc.1 scalarDelta (vector_delta before after)
           (acc.2 > ComplexityMath.SIGNAL_LOSS_THRESHOLD)%js
           (ComplexityMath.categorizeLoss (vector_delta before after)
              scalarDelta)).
Proof.
  destruct (calculateSignalLoss_scalars before after weights)
    as (sb & sa & _ & _ & H).
  exists (sa - sb)%js. exact H.
Qed.

Lemma loss_loop_idle (scalarDelta : number) (deltas : list number) (i : nat)
    (acc : gmap string number * number) :
  (Math.abs scalarDelta < ComplexityMath.SIGNAL_LOSS_THRESHOLD)%js = false ->
  (scalarDelta < Fin 0)%js = false ->
  reduce_from (loss_step scalarDelta) i deltas acc = acc.
Proof.
  intros H1 H2. revert i. induction deltas as [|d deltas IH]; intros i;
    [reflexivity|].
  cbn [reduce_from].
  assert (E : loss_step scalarDelta acc d i = acc).
  { unfold loss_step. destruct acc as [m t]. rewrite H1, H2, !andb_false_r.
    reflexivity. }
  rewrite E. apply IH.
Qed.

(** X20: whenever the scalar rises by 0.01 or more, [calculateSignalLoss]
    flags nothing, whatever the components did: the total is 0, no pillar is
    listed and [isSignalLost] is false. *)
Theorem X20_no_loss_when_scalar_rises
    (before after : ComplexityVector) (weights : option (list number))
    (r : SignalLoss) (q : Q) :
  ComplexityMath.calculateSignalLoss before after weights = Normal r ->
  scalarChange r = Fin q -> 0.01 <= q ->
  total r = Fin 0 /\ byPillar r = ∅ /\ isSignalLost r = false.
Proof.
  intros Hcalc.
  destruct (calculateSignalLoss_report before after weights) as [sd Hr].
  rewrite Hr in Hcalc. injection Hcalc as <-.
  cbn [scalarChange total byPillar isSignalLost]. intros -> Hq.
  assert (H1 : (Math.abs (Fin q) < ComplexityMath.SIGNAL_LOSS_THRESHOLD)%js = false).
  { cbn. apply Qltb_ge. rewrite Qabs_pos; lra. }
  assert (H2 : (Fin q < Fin 0)%js = false) by (cbn; apply Qltb_ge; lra).
  unfold reduce. rewrite (loss_loop_idle (Fin q) _ 0 _ H1 H2).
  repeat split.
Qed.

Lemma X20_witness :
  let before := mkVector [Fin 0.5; Fin 0.5; Fin 0.5; Fin 0.5] in
  let after := mkVector [Fin 0.9; Fin 0.2; Fin 0.5; Fin 0.5] in
  exists (r : SignalLoss) (q : Q),
    ComplexityMath.calculateSignalLoss before after None = Normal r /\
    scalarChange r = Fin q /\ 0.01 <= q /\
    total r = Fin 0 /\ byPillar r = ∅ /\ isSignalLost r = false.
Proof.
  intros before after.
  destruct (ComplexityMath.calculateSignalLoss before after None)
    as [r|e] eqn:Hcalc; [|vm_compute in Hcalc; discriminate Hcalc].
  assert (Hq : exists q, scalarChange r = Fin q /\ 0.01 <= q).
  { vm_compute in Hcalc. injection Hcalc as <-. eexists.
    split; [reflexivity|]. vm_compute. discriminate. }
  destruct Hq as (q & Hs & Hq).
  exists r, q. split; [reflexivity|]. split; [exact Hs|]. split; [exact Hq|].
  exact (X20_no_loss_when_scalar_rises before after None r q Hcalc Hs Hq).
Defined.

Lemma loss_loop_sound (scalarDelta : number) (deltas : list number) :
  forall (i : nat) (acc : gmap string number * number) (key : string)
         (d : number),
    (reduce_from (loss_step scalarDelta) i deltas acc).1 !! key = Some d ->
    acc.1 !! key = Some d \/
    exists j : nat,
      deltas !! j = Some d /\
      key = default "undefined" (keys !! (i + j)%nat) /\
      (d > Fin 0)%js = true.
Proof.
  induction deltas as [|x deltas IH]; intros i acc key d H;
    [left; exact H|].
  cbn [reduce_from] in H. apply IH in H. destruct H as [H|(j & Hj & Hk & Hd)].
  - unfold loss_step in H. destruct acc as [m t].
    destruct ((x > Fin 0)%js) eqn:Hx; cbn [andb] in H; [|left; exact H].
    assert (Hins : (<[default "undefined" (keys !! i) := x]> m) !! key = Some d
                   -> m !! key = Some d \/
                      exists j : nat,
                        (x :: deltas) !! j = Some d /\
                        key = default "undefined" (keys !! (i + j)%nat) /\
                        (d > Fin 0)%js = true).
    { intros Hm.
      destruct (decide (default "undefined" (keys !! i) = key)) as [<-|Hne].
      - rewrite lookup_insert_eq in Hm. injection Hm as <-.
        right. exists 0%nat. rewrite Nat.add_0_r. repeat split. exact Hx.
      - rewrite lookup_insert_ne in Hm by exact Hne. left. exact Hm. }
    destruct ((Math.abs scalarDelta < ComplexityMath.SIGNAL_LOSS_THRESHOLD)%js);
      [exact (Hins H)|].
    destruct ((scalarDelta < Fin 0)%js); [exact (Hins H) | left; exact H].
  - right. exists (S j). rewrite Nat.add_succ_r. repeat split; assumption.
Qed.

(** X21: a pillar is listed in the report's [byPillar] only if its
    component rose, and the amount listed is that rise. *)
Theorem X21_lost_pillars_did_improve
    (before after : ComplexityVector) (weights : option (list number))
    (r : SignalLoss) (key : string) (d : number) :
  ComplexityMath.calculateSignalLoss before after weights = Normal r ->
  byPillar r !! key = Some d ->
  exists j : nat,
    vectorChanges r !! j = Some d /\
    key = default "undefined" (keys !! j) /\
    d = (at_index (data after) j - at_index (data before) j)%js /\
    (d > Fin 0)%js = true.
Proof.
  intros Hcalc.
  destruct (calculateSignalLoss_report before after weights) as [sd Hr].
  rewrite Hr in Hcalc. injection Hcalc as <-.
  cbn [byPillar vectorChanges]. intros H.
  apply loss_loop_sound in H. destruct H as [H|(j & Hj & Hk & Hd)].
  - cbn in H. rewrite lookup_empty in H. discriminate H.
  - exists j. split; [exact Hj|]. split; [exact Hk|]. split; [|exact Hd].
    unfold vector_delta in Hj. rewrite list_lookup_imap in Hj.
    unfold at_index at 1.
    destruct (data after !! j) as [a|]; [|discriminate].
    cbn in Hj. injection Hj as <-. reflexivity.
Qed.

Lemma X21_witness :
  let before := mkVector [Fin 0.5; Fin 0.5; Fin 0.5; Fin 0.5] in
  let after := mkVector [Fin 0.65; Fin 0.35; Fin 0.5; Fin 0.5] in
  exists (r : SignalLoss) (d : number),
    ComplexityMath.calculateSignalLoss before after None = Normal r /\
    byPillar r !! "alg" = Some d /\
    exists j : nat,
      vectorChanges r !! j = Some d /\
      "alg" = default "undefined" (keys !! j) /\
      d = (at_index (data after) j - at_index (data before) j)%js /\
      (d > Fin 0)%js = true.
Proof.
  intros before after.
  destruct (ComplexityMath.calculateSignalLoss before after None)
    as [r|e] eqn:Hcalc; [|vm_compute in Hcalc; discriminate Hcalc].
  assert (Hd : exists d, byPillar r !! "alg" = Some d).
  { vm_compute in Hcalc. injection Hcalc as <-. eexists.
    vm_compute. reflexivity. }
  destruct Hd as (d & Hd).
  exists r, d. split; [reflexivity|]. split; [exact Hd|].
  exact (X21_lost_pillars_did_improve before after None r "alg" d Hcalc Hd).
Defined.

Lemma self_difference (x : number) :
  ((x - x)%js > Fin 0)%js = false /\
  ((x - x)%js > EPSILON)%js = false /\
  (Math.abs (x - x) > EPSILON)%js = false /\
  ((x - x)%js < Fin 0)%js = false.
Proof.
  destruct x as [q| | |]; try (repeat split; reflexivity).
  assert (H : q + - q == 0) by ring.
  unfold Number.sub, Number.neg, Number.add, Math.abs, Number.gt, Number.lt,
    EPSILON.
  repeat split; apply Qltb_ge; rewrite H; discriminate.
Qed.

(** X22: comparing a valid vector with itself reports nothing, whatever the
    weights: the total is 0, no pillar is listed, [isSignalLost] is false and
    the loss type is [none]. *)
Theorem X22_no_change_no_loss
    (v : ComplexityVector) (weights : option (list number)) :
  Vector.valid v ->
  exists r : SignalLoss,
    ComplexityMath.calculateSignalLoss v v weights = Normal r /\
    total r = Fin 0 /\ byPillar r = ∅ /\ isSignalLost r = false /\
    lossType r = none.
Proof.
  intros Hv.
  destruct (calculateSignalLoss_scalars v v weights) as (sb & sa & Hb & Ha & Hr).
  assert (sa = sb) by congruence. subst sa.
  eexists. split; [exact Hr|]. clear Hr Ha Hb.
  components v Hv.
  destruct (self_difference sb) as (_ & _ & Hs1 & Hs2).
  destruct (self_difference (Fin x)) as (Hx1 & Hx2 & _ & _).
  destruct (self_difference (Fin x0)) as (Hy1 & Hy2 & _ & _).
  destruct (self_difference (Fin x1)) as (Hz1 & Hz2 & _ & _).
  destruct (self_difference (Fin x2)) as (Hw1 & Hw2 & _ & _).
  cbv zeta.
  assert (Hvd : vector_delta (mkVector [Fin x; Fin x0; Fin x1; Fin x2])
                  (mkVector [Fin x; Fin x0; Fin x1; Fin x2])
                = [(Fin x - Fin x)%js; (Fin x0 - Fin x0)%js;
                   (Fin x1 - Fin x1)%js; (Fin x2 - Fin x2)%js])
    by reflexivity.
  rewrite Hvd.
  cbn [total byPillar isSignalLost lossType reduce reduce_from loss_step fst snd].
  repeat (rewrite ?Hx1, ?Hy1, ?Hz1, ?Hw1;
          cbn [andb fst snd reduce_from loss_step]).
  split; [reflexivity|]. split; [reflexivity|]. split; [reflexivity|].
  unfold ComplexityMath.categorizeLoss. cbn [existsb].
  rewrite Hx2, Hy2, Hz2, Hw2, Hs1. cbn [orb andb]. reflexivity.
Qed.

Lemma X22_witness :
  Vector.valid (mkVector [Fin 0.8; Fin 0.4; Fin 0.6; Fin 0.3]) /\
  exists r : SignalLoss,
    ComplexityMath.calculateSignalLoss
      (mkVector [Fin 0.8; Fin 0.4; Fin 0.6; Fin 0.3])
      (mkVector [Fin 0.8; Fin 0.4; Fin 0.6; Fin 0.3]) None = Normal r /\
    total r = Fin 0 /\ byPillar r = ∅ /\ isSignalLost r = false /\
    lossType r = none.
Proof.
  assert (Hv : Vector.valid (mkVector [Fin 0.8; Fin 0.4; Fin 0.6; Fin 0.3]))
    by (apply validb_spec; reflexivity).
  split; [exact Hv|]. exact (X22_no_change_no_loss _ None Hv).
Defined.

(** ** Pareto dominance *)

Lemma gt_is_strict (a b : Q) :
  (Fin a > Fin b + EPSILON)%js = true -> b < a.
Proof.
  unfold Number.gt, Number.lt, Number.add, EPSILON.
  assert (Heps : 0 < 1e-6) by reflexivity.
  generalize dependent 1e-6. intros eps Heps H.
  apply Qltb_lt in H. lra.
Qed.

Lemma not_gt_self (a : Q) : (Fin a > Fin a + EPSILON)%js = false.
Proof.
  unfold Number.gt, Number.lt, Number.add, EPSILON.
  assert (Heps : 0 < 1e-6) by reflexivity.
  generalize dependent 1e-6. intros eps Heps.
  apply Qltb_ge. lra.
Qed.

(** [dominates] on two vectors of four finite components, written out. *)
Lemma dominates_four (a0 a1 a2 a3 b0 b1 b2 b3 : Q) :
  ComplexityMath.dominates (mkVector [Fin a0; Fin a1; Fin a2; Fin a3])
    (mkVector [Fin b0; Fin b1; Fin b2; Fin b3])
  = ((Fin a0 >= Fin b0 - EPSILON)%js && ((Fin a1 >= Fin b1 - EPSILON)%js
     && ((Fin a2 >= Fin b2 - EPSILON)%js && ((Fin a3 >= Fin b3 - EPSILON)%js
     && true))))
    && ((Fin a0 > Fin b0 + EPSILON)%js || ((Fin a1 > Fin b1 + EPSILON)%js
     || ((Fin a2 > Fin b2 + EPSILON)%js || ((Fin a3 > Fin b3 + EPSILON)%js
     || false)))).
Proof. reflexivity. Qed.

(** X23: Pareto dominance is strict: no valid vector dominates itself, and a
    valid vector that dominates another is greater than it in at least one
    component, so that it never dominates a vector that is at least as large
    in every component. *)
Theorem X23_dominates_is_strict (a b : ComplexityVector) :
  Vector.valid a -> Vector.valid b ->
  ComplexityMath.dominates a a = false /\
  (ComplexityMath.dominates a b = true ->
   exists (i : nat) (x y : Q),
     data a !! i = Some (Fin x) /\ data b !! i = Some (Fin y) /\ y < x).
Proof.
  intros Ha Hb. components a Ha. components b Hb.
  rewrite !dominates_four. split.
  - rewrite !not_gt_self. apply andb_false_r.
  - intros Hd. apply andb_true_iff in Hd. destruct Hd as [_ Hd].
    apply orb_true_iff in Hd. destruct Hd as [Hd|Hd];
      [exists 0%nat; do 2 eexists; repeat split; exact (gt_is_strict _ _ Hd)|].
    apply orb_true_iff in Hd. destruct Hd as [Hd|Hd];
      [exists 1%nat; do 2 eexists; repeat split; exact (gt_is_strict _ _ Hd)|].
    apply orb_true_iff in Hd. destruct Hd as [Hd|Hd];
      [exists 2%nat; do 2 eexists; repeat split; exact (gt_is_strict _ _ Hd)|].
    apply orb_true_iff in Hd. destruct Hd as [Hd|Hd]; [|discriminate Hd].
    exists 3%nat. do 2 eexists. repeat split. exact (gt_is_strict _ _ Hd).
Qed.

Lemma X23_witness :
  let a := mkVector [Fin 0.9; Fin 0.9; Fin 0.5; Fin 0.5] in
  let b := mkVector [Fin 0.8; Fin 0.2; Fin 0.5; Fin 0.5] in
  Vector.valid a /\ Vector.valid b /\
  ComplexityMath.dominates a b = true /\
  ComplexityMath.dominates a a = false /\
  exists (i : nat) (x y : Q),
    data a !! i = Some (Fin x) /\ data b !! i = Some (Fin y) /\ y < x.
Proof.
  intros a b.
  assert (Ha : Vector.valid a) by (apply validb_spec; reflexivity).
  assert (Hb : Vector.valid b) by (apply validb_spec; reflexivity).
  assert (Hd : ComplexityMath.dominates a b = true) by reflexivity.
  split; [exact Ha|]. split; [exact Hb|]. split; [exact Hd|].
  destruct (X23_dominates_is_strict a b Ha Hb) as [Hirr Hstrict].
  split; [exact Hirr|]. exact (Hstrict Hd).
Defined.

Lemma dominated_from_spec (i : nat) (state : ComplexityVector)
    (others : list ComplexityVector) (j : nat) :
  ComplexityMath.dominated_from i state j others = true <->
  exists (k : nat) (other : ComplexityVector),
    others !! k = Some other /\ i <> (j + k)%nat /\
    ComplexityMath.dominates other state = true.
Proof.
  revert j. induction others as [|o others IH]; intros j.
  - cbn. split; [discriminate|]. intros (k & other & H & _). discriminate H.
  - cbn [ComplexityMath.dominated_from].
    destruct (negb (i =? j)%nat && ComplexityMath.dominates o state) eqn:E.
    + split; [|reflexivity]. intros _.
      apply andb_true_iff in E. destruct E as [Hne Hd].
      apply negb_true_iff, Nat.eqb_neq in Hne.
      exists 0%nat, o. rewrite Nat.add_0_r. auto.
    + rewrite IH. split.
      * intros (k & other & Hk & Hne & Hd). exists (S k), other.
        rewrite Nat.add_succ_r. auto.
      * intros (k & other & Hk & Hne & Hd). destruct k as [|k].
        -- cbn in Hk. injection Hk as ->. rewrite Nat.add_0_r in Hne.
           apply Nat.eqb_neq in Hne. rewrite Hne, Hd in E. discriminate E.
        -- exists k, other. rewrite Nat.add_succ_r in Hne. auto.
Qed.

Lemma filter_from_spec {A : Type} (f : A -> nat -> bool) (l : list A)
    (k : nat) (x : A) :
  x ∈ filter_from f k l <->
  exists n : nat, l !! n = Some x /\ f x (k + n)%nat = true.
Proof.
  revert k. induction l as [|y l IH]; intros k.
  - cbn. split; [intros H; apply elem_of_nil in H; destruct H|].
    intros (n & H & _). discriminate H.
  - cbn [filter_from]. destruct (f y k) eqn:E.
    + rewrite elem_of_cons, IH. split.
      * intros [->|(n & Hn & Hf)].
        -- exists 0%nat. rewrite Nat.add_0_r. auto.
        -- exists (S n). rewrite Nat.add_succ_r. auto.
      * intros ([|n] & Hn & Hf).
        -- left. cbn in Hn. congruence.
        -- right. exists n. rewrite Nat.add_succ_r in Hf. auto.
    + rewrite IH. split.
      * intros (n & Hn & Hf). exists (S n). rewrite Nat.add_succ_r. auto.
      * intros ([|n] & Hn & Hf).
        -- cbn in Hn. injection Hn as ->. rewrite Nat.add_0_r in Hf. congruence.
        -- exists n. rewrite Nat.add_succ_r in Hf. auto.
Qed.

(** X24: [computeParetoFrontier] returns exactly the pairs of a state and
    its index for which no state at another index dominates it. *)
Theorem X24_pareto_frontier_characterised
    (states : list ComplexityVector) (state : ComplexityVector) (index : nat) :
  (state, index) ∈ ComplexityMath.computeParetoFrontier states <->
  states !! index = Some state /\
  forall (j : nat) (other : ComplexityVector),
    j <> index -> states !! j = Some other ->
    ComplexityMath.dominates other state = false.
Proof.
  unfold ComplexityMath.computeParetoFrontier, filter_indexed.
  rewrite filter_from_spec. cbn [Nat.add]. split.
  - intros (n & Hn & Hf). rewrite list_lookup_imap in Hn.
    destruct (states !! n) as [s|] eqn:Hs; [|discriminate].
    cbn in Hn. injection Hn as -> ->. split; [exact Hs|].
    rewrite list_lookup_imap, Hs in Hf. cbn in Hf.
    apply negb_true_iff in Hf.
    intros j other Hne Hj.
    destruct (ComplexityMath.dominates other state) eqn:Hd; [|reflexivity].
    assert (Ht : ComplexityMath.dominated_from index state 0 states = true).
    { apply dominated_from_spec. exists j, other. cbn. auto. }
    congruence.
  - intros [Hs Hall]. exists index. rewrite !list_lookup_imap, Hs. cbn.
    split; [reflexivity|]. apply negb_true_iff.
    destruct (ComplexityMath.dominated_from index state 0 states) eqn:Hd;
      [|reflexivity].
    apply dominated_from_spec in Hd. destruct Hd as (k & other & Hk & Hne & Hd).
    cbn in Hne. rewrite (Hall k other (not_eq_sym Hne) Hk) in Hd. discriminate Hd.
Qed.

(** ** Interpolation *)

Lemma mix_in_unit (x y t : Q) :
  0 <= x <= 1 -> 0 <= y <= 1 -> 0 <= t <= 1 ->
  Vector.in_unit (Fin (x * (1 + - t) + y * t)).
Proof. intros Hx Hy Ht. eexists. split; [reflexivity|]. nra. Qed.

Lemma mix_at_0 (x y t : Q) :
  t == 0 ->
  (Math.abs (Fin (x * (1 + - t) + y * t + - x)) < EPSILON)%js = true.
Proof.
  intros Ht.
  unfold Math.abs, Number.lt, EPSILON.
  apply Qltb_lt.
  assert (E : x * (1 + - t) + y * t + - x == 0) by (rewrite Ht; ring).
  rewrite E. reflexivity.
Qed.

Lemma mix_at_1 (x y t : Q) :
  t == 1 ->
  (Math.abs (Fin (x * (1 + - t) + y * t + - y)) < EPSILON)%js = true.
Proof.
  intros Ht.
  unfold Math.abs, Number.lt, EPSILON.
  apply Qltb_lt.
  assert (E : x * (1 + - t) + y * t + - y == 0) by (rewrite Ht; ring).
  rewrite E. reflexivity.
Qed.

(** X25: [interpolate] of two valid vectors with a factor [t] in [0,1]
    returns a valid vector, which equals the first vector at [t = 0] and the
    second at [t = 1]; with a factor below 0 or above 1 it throws its
    interpolation-factor error. *)
Theorem X25_interpolate (v1 v2 : ComplexityVector) (t outside : Q) :
  Vector.valid v1 -> Vector.valid v2 -> 0 <= t <= 1 ->
  outside < 0 \/ 1 < outside ->
  (exists r : ComplexityVector,
     ComplexityMath.interpolate v1 v2 (Fin t) = Interpolated (Normal r) /\
     Vector.valid r /\
     (t == 0 -> Vector.equals r (Some v1) EPSILON = true) /\
     (t == 1 -> Vector.equals r (Some v2) EPSILON = true)) /\
  ComplexityMath.interpolate v1 v2 (Fin outside) = InterpolationFactorError.
Proof.
  intros H1 H2 Ht Hout. split.
  - components v1 H1. components v2 H2.
    unfold ComplexityMath.interpolate.
    assert (E : (Fin t < Fin 0)%js || (Fin t > Fin 1)%js = false).
    { apply orb_false_iff. split; apply Qltb_ge; lra. }
    rewrite E.
    eexists. split; [|split; [|split]].
    + f_equal. apply new_of_valid; [reflexivity|].
      cbn. repeat (apply List.Forall_cons; [apply mix_in_unit; assumption|]).
      apply List.Forall_nil.
    + split; [reflexivity|].
      cbn. repeat (apply List.Forall_cons; [apply mix_in_unit; assumption|]).
      apply List.Forall_nil.
    + intros Hz. unfold Vector.equals.
      cbn [data Vector.toArray imap forallb at_index lookup list_lookup default
           from_option id compose Number.mul Number.add Number.sub Number.neg].
      rewrite !(mix_at_0 _ _ t Hz). reflexivity.
    + intros Hz. unfold Vector.equals.
      cbn [data Vector.toArray imap forallb at_index lookup list_lookup default
           from_option id compose Number.mul Number.add Number.sub Number.neg].
      rewrite !(mix_at_1 _ _ t Hz). reflexivity.
  - unfold ComplexityMath.interpolate.
    assert (E : (Fin outside < Fin 0)%js || (Fin outside > Fin 1)%js = true).
    { apply orb_true_iff. destruct Hout as [H|H]; [left|right];
        apply Qltb_lt; exact H. }
    rewrite E. reflexivity.
Qed.

Lemma X25_witness :
  let v1 := mkVector [Fin 0.8; Fin 0.4; Fin 0.6; Fin 0.3] in
  let v2 := mkVector [Fin 0.5; Fin 0.5; Fin 0.5; Fin 0.5] in
  Vector.valid v1 /\ Vector.valid v2 /\ 0 <= 0.25 <= 1 /\
  (1.5 < 0 \/ 1 < 1.5) /\
  (exists r : ComplexityVector,
     ComplexityMath.interpolate v1 v2 (Fin 0.25) = Interpolated (Normal r) /\
     Vector.valid r /\
     (0.25 == 0 -> Vector.equals r (Some v1) EPSILON = true) /\
     (0.25 == 1 -> Vector.equals r (Some v2) EPSILON = true)) /\
  ComplexityMath.interpolate v1 v2 (Fin 1.5) = InterpolationFactorError.
Proof.
  intros v1 v2.
  assert (Ha : Vector.valid v1) by (apply validb_spec; reflexivity).
  assert (Hb : Vector.valid v2) by (apply validb_spec; reflexivity).
  assert (Ht : 0 <= 0.25 <= 1) by (split; discriminate).
  assert (Ho : 1.5 < 0 \/ 1 < 1.5) by (right; reflexivity).
  split; [exact Ha|]. split; [exact Hb|]. split; [exact Ht|]. split; [exact Ho|].
  exact (X25_interpolate v1 v2 0.25 1.5 Ha Hb Ht Ho).
Defined.

(** ** Distances *)

Lemma Qabs_diff_unit (x y : Q) :
  0 <= x <= 1 -> 0 <= y <= 1 -> 0 <= Qabs (x + - y) <= 1.
Proof.
  intros Hx Hy. split; [apply Qabs_nonneg|].
  apply Qabs_Qle_condition. split; lra.
Qed.

Lemma Qabs_square (a : Q) : a * (a * 1) == Qabs a * Qabs a.
Proof.
  apply (Qabs_case a (fun r => a * (a * 1) == r * r)); intros _; ring.
Qed.

(** X26: between two valid vectors the Manhattan, Chebyshev and Euclidean
    distances of [computeDistance] are finite numbers with
    0 <= chebyshev <= 1, chebyshev <= manhattan <= 4 * chebyshev and
    0 <= euclidean <= 2; a metric name that is not one of the four known
    ones gives the Euclidean distance. *)
Theorem X26_distance_bounds (v1 v2 : ComplexityVector) (metric : string) :
  Vector.valid v1 -> Vector.valid v2 ->
  metric ∉ ["euclidean"; "manhattan"; "chebyshev"; "weighted"] ->
  (exists m c e : Q,
     ComplexityMath.computeDistance v1 v2 (Some "manhattan") = Fin m /\
     ComplexityMath.computeDistance v1 v2 (Some "chebyshev") = Fin c /\
     ComplexityMath.computeDistance v1 v2 None = Fin e /\
     0 <= c <= 1 /\ c <= m <= 4 * c /\ 0 <= e <= 2) /\
  ComplexityMath.computeDistance v1 v2 (Some metric) =
  ComplexityMath.computeDistance v1 v2 None.
Proof.
  intros H1 H2 Hm. split.
  - components v1 H1. components v2 H2.
    pose proof (Qabs_diff_unit x x3 ltac:(assumption) ltac:(assumption)) as Ha.
    pose proof (Qabs_diff_unit x0 x4 ltac:(assumption) ltac:(assumption)) as Hb.
    pose proof (Qabs_diff_unit x1 x5 ltac:(assumption) ltac:(assumption)) as Hc.
    pose proof (Qabs_diff_unit x2 x6 ltac:(assumption) ltac:(assumption)) as Hd.
    destruct (max_of_Fin (Qabs (x + - x3))
                [Qabs (x0 + - x4); Qabs (x1 + - x5); Qabs (x2 + - x6)])
      as (c & Ec & Hall & Hin).
    unfold ComplexityMath.computeDistance, ComplexityMath.euclidean.
    cbn [default from_option id String.eqb Ascii.eqb Bool.eqb Vector.toArray data
         reduce reduce_from imap at_index lookup list_lookup compose
         Number.sub Number.neg Number.add Number.mul Math.abs Math.pow].
    cbn [fmap list_fmap] in Ec. rewrite Ec.
    set (sq := 0 + (x + - x3) * ((x + - x3) * 1) + (x0 + - x4) * ((x0 + - x4) * 1)
               + (x1 + - x5) * ((x1 + - x5) * 1) + (x2 + - x6) * ((x2 + - x6) * 1)).
    assert (Esq : sq == Qabs (x + - x3) * Qabs (x + - x3)
                        + Qabs (x0 + - x4) * Qabs (x0 + - x4)
                        + Qabs (x1 + - x5) * Qabs (x1 + - x5)
                        + Qabs (x2 + - x6) * Qabs (x2 + - x6)).
    { unfold sq. rewrite !Qabs_square. ring. }
    assert (Hsq : 0 <= sq).
    { rewrite Esq. nra. }
    unfold Math.sqrt. rewrite (proj2 (Qltb_ge sq 0) Hsq).
    destruct (Qsqrt_bounds sq Hsq) as [Hr0 Hr1].
    do 3 eexists. split; [reflexivity|]. split; [reflexivity|].
    split; [reflexivity|].
    apply Forall_cons in Hall as [Ca Hall].
    apply Forall_cons in Hall as [Cb Hall].
    apply Forall_cons in Hall as [Cc Hall].
    apply Forall_cons in Hall as [Cd _].
    assert (Hr2 := Qle_trans _ _ _ Hr1 (proj2 (Qle_lteq _ _) (or_intror Esq))).
    clear Esq Hsq Ec Hr1. clearbody sq.
    revert Hin Ca Cb Cc Cd Hr0 Hr2 Ha Hb Hc Hd.
    generalize (Math.Qsqrt sq) (Qabs (x + - x3)) (Qabs (x0 + - x4))
               (Qabs (x1 + - x5)) (Qabs (x2 + - x6)).
    intros e a b c' d Hin Ca Cb Cc Cd Hr0 Hr1 Ha Hb Hc Hd.
    assert (He : e * e <= 4) by nra.
    assert (Hem : e <= 2) by nra.
    assert (Hor : c = a \/ c = b \/ c = c' \/ c = d).
    { apply elem_of_cons in Hin as [->|Hin]; [tauto|].
      apply elem_of_cons in Hin as [->|Hin]; [tauto|].
      apply elem_of_cons in Hin as [->|Hin]; [tauto|].
      apply elem_of_cons in Hin as [->|Hin]; [tauto|].
      apply elem_of_nil in Hin. contradiction. }
    clear Hin He Hr1.
    destruct Hor as [ -> | [ -> | [ -> | -> ] ] ]; repeat split; lra.
  - unfold ComplexityMath.computeDistance.
    cbn [default from_option id].
    change (String.eqb "euclidean" "euclidean") with true. cbn iota.
    destruct (String.eqb_spec metric "euclidean") as [->|_]; [reflexivity|].
    destruct (String.eqb_spec metric "manhattan") as [->|_].
    { exfalso. apply Hm. repeat constructor. }
    destruct (String.eqb_spec metric "chebyshev") as [->|_].
    { exfalso. apply Hm. repeat constructor. }
    destruct (String.eqb_spec metric "weighted") as [->|_].
    { exfalso. apply Hm. repeat constructor. }
    reflexivity.
Qed.

Lemma X26_witness :
  let v1 := mkVector [Fin 0.8; Fin 0.4; Fin 0.6; Fin 0.3] in
  let v2 := mkVector [Fin 0.5; Fin 0.5; Fin 0.5; Fin 0.5] in
  Vector.valid v1 /\ Vector.valid v2 /\
  ("cosine" ∉ ["euclidean"; "manhattan"; "chebyshev"; "weighted"]) /\
  (exists m c e : Q,
     ComplexityMath.computeDistance v1 v2 (Some "manhattan") = Fin m /\
     ComplexityMath.computeDistance v1 v2 (Some "chebyshev") = Fin c /\
     ComplexityMath.computeDistance v1 v2 None = Fin e /\
     0 <= c <= 1 /\ c <= m <= 4 * c /\ 0 <= e <= 2) /\
  ComplexityMath.computeDistance v1 v2 (Some "cosine") =
  ComplexityMath.computeDistance v1 v2 None.
Proof.
  intros v1 v2.
  assert (Ha : Vector.valid v1) by (apply validb_spec; reflexivity).
  assert (Hb : Vector.valid v2) by (apply validb_spec; reflexivity).
  assert (Hm : "cosine" ∉ ["euclidean"; "manhattan"; "chebyshev"; "weighted"]).
  { intros Hin. repeat (apply elem_of_cons in Hin as [Hin|Hin]; [discriminate|]).
    apply elem_of_nil in Hin. exact Hin. }
  split; [exact Ha|]. split; [exact Hb|]. split; [exact Hm|].
  exact (X26_distance_bounds v1 v2 "cosine" Ha Hb Hm).
Defined.

(** With a factor that is NaN the guard of [interpolate] lets the call
    through, and it is the constructor that throws. *)
Lemma interpolate_NaN (v1 v2 : ComplexityVector) :
  Vector.valid v1 -> Vector.valid v2 ->
  ComplexityMath.interpolate v1 v2 NaN
  = Interpolated (Throw (NotANumber 0 (VNumber NaN))).
Proof.
  intros H1 H2. components v1 H1. components v2 H2. reflexivity.
Qed.

(** ** The cycle *)






Lemma applyImprovement_NaN (v : ComplexityVector) (pillar : string)
    (delta : number) :
  Vector.valid v -> pillar ∈ keys -> Number.isNaN delta = true ->
  ComplexityMath.applyImprovement v pillar delta
  = Throw (NotANumber 0 (VNumber NaN)).
Proof.
  intros Hv Hk Hd. destruct delta; try discriminate.
  destruct (indexOf_known pillar Hk) as [i Hi].
  destruct (indexOf_Some pillar i Hi) as [_ Hi4].
  unfold ComplexityMath.applyImprovement.
  rewrite (clone_valid v Hv), bind_Normal.
  unfold Vector.get, Vector.set. rewrite Hi.
  components v Hv.
  destruct i as [|[|[|[|i]]]]; try lia; reflexivity.
Qed.

(** X28: on a valid initial vector [generateCycle] throws the constructor's
    not-a-number error as soon as one of the four step sizes alg, info, dyn,
    geom is missing from the deltas or is NaN. *)
Theorem X28_cycle_needs_every_step
    (initial : ComplexityVector) (deltas : gmap string number) (key : string) :
  Vector.valid initial -> key ∈ keys ->
  Number.isNaN (ComplexityMath.step deltas key) = true ->
  ComplexityMath.generateCycle initial deltas
  = Throw (NotANumber 0 (VNumber NaN)).
Proof.
  intros Hv Hk Hn.
  assert (Kalg : "alg" ∈ keys) by (unfold keys; repeat constructor).
  assert (Kinfo : "info" ∈ keys) by (unfold keys; repeat constructor).
  assert (Kdyn : "dyn" ∈ keys) by (unfold keys; repeat constructor).
  assert (Kgeom : "geom" ∈ keys) by (unfold keys; repeat constructor).
  unfold ComplexityMath.generateCycle.
  rewrite (clone_valid initial Hv), !bind_Normal.
  destruct (Number.isNaN (ComplexityMath.step deltas "alg")) eqn:N0.
  { rewrite (applyImprovement_NaN _ _ _ Hv Kalg N0). reflexivity. }
  destruct (applyImprovement_valid initial "alg" _ Hv Kalg N0) as (c1 & -> & H1).
  rewrite bind_Normal, (clone_valid c1 H1), bind_Normal.
  destruct (Number.isNaN (ComplexityMath.step deltas "info")) eqn:N1.
  { rewrite (applyImprovement_NaN _ _ _ H1 Kinfo N1). reflexivity. }
  destruct (applyImprovement_valid c1 "info" _ H1 Kinfo N1) as (c2 & -> & H2).
  rewrite bind_Normal, (clone_valid c2 H2), bind_Normal.
  destruct (Number.isNaN (ComplexityMath.step deltas "dyn")) eqn:N2.
  { rewrite (applyImprovement_NaN _ _ _ H2 Kdyn N2). reflexivity. }
  destruct (applyImprovement_valid c2 "dyn" _ H2 Kdyn N2) as (c3 & -> & H3).
  rewrite bind_Normal, (clone_valid c3 H3), bind_Normal.
  destruct (Number.isNaN (ComplexityMath.step deltas "geom")) eqn:N3.
  { rewrite (applyImprovement_NaN _ _ _ H3 Kgeom N3). reflexivity. }
  exfalso. unfold keys in Hk.
  repeat (apply elem_of_cons in Hk as [->|Hk]; [congruence|]).
  apply elem_of_nil in Hk. exact Hk.
Qed.

Lemma X28_witness :
  let initial := mkVector [Fin 0.5; Fin 0.5; Fin 0.5; Fin 0.5] in
  let deltas : gmap string number :=
    <["alg" := Fin 0.2]> (<["info" := Fin 0.2]> (<["dyn" := Fin 0.15]> ∅)) in
  Vector.valid initial /\ "geom" ∈ keys /\
  Number.isNaN (ComplexityMath.step deltas "geom") = true /\
  ComplexityMath.generateCycle initial deltas
  = Throw (NotANumber 0 (VNumber NaN)).
Proof.
  intros initial deltas.
  assert (Hv : Vector.valid initial) by (apply validb_spec; reflexivity).
  assert (Hk : "geom" ∈ keys) by (unfold keys; repeat constructor).
  assert (Hn : Number.isNaN (ComplexityMath.step deltas "geom") = true)
    by reflexivity.
  repeat (split; [assumption|]).
  exact (X28_cycle_needs_every_step initial deltas "geom" Hv Hk Hn).
Defined.

(** ** Validation reports *)

Lemma ge_Fin (q r : Q) : (Fin q >= Fin r)%js = true <-> r <= q.
Proof.
  unfold Number.ge, Number.lt. rewrite negb_true_iff. apply Qltb_ge.
Qed.

Lemma le_Fin (q r : Q) : (Fin q <= Fin r)%js = true <-> q <= r.
Proof. unfold Number.le. apply ge_Fin. Qed.

(** No number is both at least 0.99 and at most 0.01. *)
Lemma saturated_not_empty (v : number) :
  (v >= Fin 0.99)%js = true -> (v <= Fin 0.01)%js = false.
Proof.
  destruct v as [q| | |]; try reflexivity; try discriminate.
  intros H. apply ge_Fin in H.
  destruct (Fin q <= Fin 0.01)%js eqn:E; [|reflexivity].
  apply le_Fin in E. lra.
Qed.

(** The loop of [generateWarnings] pushes one warning for each component
    that is saturated or near zero. *)
Lemma warnings_loop_length (f : list string -> number -> nat -> list string)
    (arr : list number) (i : nat) (acc : list string) :
  (forall w v j,
     f w v j = if (v >= Fin 0.99)%js then w ++ [default "undefined"
                   (["Algorithmic"; "Information"; "Dynamical"; "Geometric"] !! j)
                   +:+ " complexity is saturated"]
               else if (v <= Fin 0.01)%js then w ++ [default "undefined"
                   (["Algorithmic"; "Information"; "Dynamical"; "Geometric"] !! j)
                   +:+ " complexity is near zero"]
               else w) ->
  length (reduce_from f i arr acc)
  = (length acc
     + length (List.filter (fun v => (v >= Fin 0.99)%js) arr)
     + length (List.filter (fun v => (v <= Fin 0.01)%js) arr))%nat.
Proof.
  intros Hf. revert i acc.
  induction arr as [|v arr IH]; intros i acc; cbn [reduce_from List.filter].
  - cbn. lia.
  - rewrite IH, Hf.
    destruct (v >= Fin 0.99)%js eqn:Es.
    + rewrite (saturated_not_empty v Es). rewrite length_app. cbn [length]. lia.
    + destruct (v <= Fin 0.01)%js; [rewrite length_app|]; cbn [length]; lia.
Qed.

Lemma filter_nonempty {A : Type} (p : A -> bool) (l : list A) :
  length (List.filter p l) <> 0%nat -> exists x, x ∈ l /\ p x = true.
Proof.
  induction l as [|a l IH]; cbn [List.filter]; [intros H; contradiction H; reflexivity|].
  destruct (p a) eqn:E.
  - intros _. exists a. split; [constructor | exact E].
  - intros H. destruct (IH H) as (x & Hx & Hp).
    exists x. split; [constructor; exact Hx | exact Hp].
Qed.

(** X29: [validateState] reports a valid vector as valid; the number of its
    warnings is the number of saturated components plus the number of
    near-zero components, plus one when the spread of the components exceeds
    0.8; at most four components are counted; and a vector reported as
    balanced has no saturated or no near-zero component and carries no
    warning about the spread. *)
Theorem X29_validateState_report (v : ComplexityVector) :
  Vector.valid v ->
  let r := ComplexityMath.validateState v in
  let arr := Vector.toArray v in
  sv_valid r = true /\
  length (sv_warnings r)
  = (sv_saturated r + sv_empty r
     + (if (Math.max_of arr - Math.min_of arr > Fin 0.8)%js then 1 else 0))%nat /\
  (sv_saturated r + sv_empty r <= 4)%nat /\
  (sv_balanced r = true ->
   (sv_saturated r = 0%nat \/ sv_empty r = 0%nat) /\
   length (sv_warnings r) = (sv_saturated r + sv_empty r)%nat).
Proof.
  intros Hv r arr.
  assert (Hlen : length (sv_warnings r)
                 = (sv_saturated r + sv_empty r
                    + (if (Math.max_of arr - Math.min_of arr > Fin 0.8)%js
                       then 1 else 0))%nat).
  { subst r arr. unfold ComplexityMath.validateState, ComplexityMath.generateWarnings.
    cbn [sv_warnings sv_saturated sv_empty]. unfold reduce.
    destruct (_ > Fin 0.8)%js.
    - rewrite length_app, warnings_loop_length by reflexivity. cbn [length]. lia.
    - rewrite warnings_loop_length by reflexivity. cbn [length]. lia. }
  split; [|split; [exact Hlen|]].
  { subst r. components v Hv.
    unfold ComplexityMath.validateState. cbn [sv_valid Vector.toArray data forallb].
    repeat match goal with
           | Hq : 0 <= ?q <= 1 |- context [(Fin ?q >= Fin 0)%js] =>
               rewrite (proj2 (ge_Fin q 0) (proj1 Hq)),
                       (proj2 (le_Fin q 1) (proj2 Hq))
           end.
    reflexivity. }
  assert (Hcount : (sv_saturated r + sv_empty r <= 4)%nat).
  { pose proof Hv as [H4 _].
    { clear Hlen. subst r. unfold ComplexityMath.validateState.
      cbn [sv_saturated sv_empty]. unfold Vector.toArray.
      destruct v as [l]. cbn [data] in *.
      destruct l as [|a [|b [|c [|d [|]]]]]; try discriminate H4.
      cbn [List.filter].
      destruct (a >= Fin 0.99)%js eqn:Ea; [rewrite (saturated_not_empty a Ea)|];
      destruct (b >= Fin 0.99)%js eqn:Eb; [rewrite (saturated_not_empty b Eb)| |
                                           rewrite (saturated_not_empty b Eb)|];
      destruct (c >= Fin 0.99)%js eqn:Ec;
        try rewrite (saturated_not_empty c Ec);
      destruct (d >= Fin 0.99)%js eqn:Ed;
        try rewrite (saturated_not_empty d Ed);
      repeat match goal with
             | |- context [(?y <= Fin 0.01)%js] => destruct (y <= Fin 0.01)%js
             end; cbn [length]; lia. } }
  split; [exact Hcount|].
  intros Hbal.
  assert (Hspread : (Math.max_of arr - Math.min_of arr > Fin 0.8)%js = false
                    /\ (sv_saturated r = 0%nat \/ sv_empty r = 0%nat)).
  { subst r arr. unfold ComplexityMath.validateState in *.
    cbn [sv_balanced sv_saturated sv_empty] in *.
    components v Hv. unfold Vector.toArray in *. cbn [data] in *.
    change [Fin x; Fin x0; Fin x1; Fin x2] with (Fin <$> [x; x0; x1; x2]) in *.
    destruct (max_of_Fin x [x0; x1; x2]) as (M & EM & HM & _).
    destruct (min_of_Fin x [x0; x1; x2]) as (m & Em & Hmin & _).
    rewrite EM, Em in *.
    cbn [Number.sub Number.neg Number.add] in *.
    unfold Number.lt in Hbal. apply Qltb_lt in Hbal.
    split.
    { unfold Number.gt, Number.lt. apply Qltb_ge. lra. }
    destruct (length (List.filter (fun v => (v >= Fin 0.99)%js)
                        (Fin <$> [x; x0; x1; x2]))) eqn:Es; [left; reflexivity|].
    destruct (length (List.filter (fun v => (v <= Fin 0.01)%js)
                        (Fin <$> [x; x0; x1; x2]))) eqn:Ee; [right; reflexivity|].
    exfalso.
    destruct (filter_nonempty (fun v => (v >= Fin 0.99)%js)
                (Fin <$> [x; x0; x1; x2]) ltac:(rewrite Es; discriminate))
      as (hi & Hhi & Phi).
    destruct (filter_nonempty (fun v => (v <= Fin 0.01)%js)
                (Fin <$> [x; x0; x1; x2]) ltac:(rewrite Ee; discriminate))
      as (lo & Hlo & Plo).
    apply list_elem_of_fmap in Hhi as (qh & -> & Hqh).
    apply list_elem_of_fmap in Hlo as (ql & -> & Hql).
    apply ge_Fin in Phi. apply le_Fin in Plo.
    rewrite Forall_forall in HM, Hmin.
    pose proof (HM qh Hqh). pose proof (Hmin ql Hql). lra. }
  destruct Hspread as [Hs Hor]. split; [exact Hor|].
  rewrite Hlen, Hs. lia.
Qed.

Lemma X29_witness :
  let v := mkVector [Fin 1; Fin 0.995; Fin 0; Fin 0.5] in
  Vector.valid v /\
  let r := ComplexityMath.validateState v in
  let arr := Vector.toArray v in
  sv_valid r = true /\
  length (sv_warnings r)
  = (sv_saturated r + sv_empty r
     + (if (Math.max_of arr - Math.min_of arr > Fin 0.8)%js then 1 else 0))%nat /\
  (sv_saturated r + sv_empty r <= 4)%nat /\
  (sv_balanced r = true ->
   (sv_saturated r = 0%nat \/ sv_empty r = 0%nat) /\
   length (sv_warnings r) = (sv_saturated r + sv_empty r)%nat).
Proof.
  intros v.
  assert (Hv : Vector.valid v) by (apply validb_spec; reflexivity).
  split; [exact Hv|].
  exact (X29_validateState_report v Hv).
Defined.

(** The report on a vector with two saturated components, one at zero and a
    spread of 1: four warnings. *)
Lemma validateState_example :
  ComplexityMath.validateState (mkVector [Fin 1; Fin 0.995; Fin 0; Fin 0.5])
  = mkStateValidation true 2 1 false
      ["Algorithmic complexity is saturated";
       "Information complexity is saturated";
       "Dynamical complexity is near zero";
       "Highly unbalanced complexity distribution"].
Proof. vm_compute. reflexivity. Qed.

(** ** The time series chart *)

Lemma length_shift_snoc {A : Type} (l : list A) (x : A) :
  length (TimeSeries.shift (l ++ [x])) = length l.
Proof. destruct l; cbn; [reflexivity|]. rewrite length_app. cbn. lia. Qed.

Lemma last_shift_snoc {A : Type} (l : list A) (x : A) :
  l <> [] -> last (TimeSeries.shift (l ++ [x])) = Some x.
Proof.
  destruct l as [|a l]; [intros H; contradiction H; reflexivity|].
  intros _. cbn. apply last_snoc.
Qed.

(** One call of [recordState] on a chart whose arrays are parallel, hold
    the last [min k maxPoints] of the counter values below [k], and whose
    counter is [k]. *)
Lemma recordState_step (c : TimeSeriesChart) (st : ComplexityState) (k : nat) :
  let mp := ts_maxPoints c in
  ts_operationCount c = k ->
  parallel (ts_history c) (Nat.min k mp) ->
  sr_operations (ts_history c) = seq (k - Nat.min k mp) (Nat.min k mp) ->
  let c' := TimeSeries.recordState c st in
  ts_maxPoints c' = mp /\
  ts_operationCount c' = S k /\
  parallel (ts_history c') (Nat.min (S k) mp) /\
  sr_operations (ts_history c') = seq (S k - Nat.min (S k) mp) (Nat.min (S k) mp) /\
  ((0 < mp)%nat ->
   last (sr_algorithmic (ts_history c'))
   = Some (at_index (Vector.toArray (vector st)) 0) /\
   last (sr_information (ts_history c'))
   = Some (at_index (Vector.toArray (vector st)) 1) /\
   last (sr_dynamical (ts_history c'))
   = Some (at_index (Vector.toArray (vector st)) 2) /\
   last (sr_geometric (ts_history c'))
   = Some (at_index (Vector.toArray (vector st)) 3) /\
   last (sr_scalar (ts_history c')) = Some (State.getScalar st None None)).
Proof.
  intros mp Hk (L0 & L1 & L2 & L3 & L4 & L5) Hops c'.
  subst c'. unfold TimeSeries.recordState. fold mp.
  cbn [ts_maxPoints ts_operationCount ts_history sr_operations].
  rewrite length_app, L0. cbn [length]. rewrite Hk.
  split; [reflexivity|]. split; [reflexivity|].
  destruct (Nat.ltb_spec mp (Nat.min k mp + 1)) as [Hfull|Hroom].
  - assert (Hmin : Nat.min k mp = mp) by lia.
    assert (Hmin' : Nat.min (S k) mp = mp) by lia.
    rewrite Hmin in *. rewrite Hmin'.
    cbn [sr_operations sr_algorithmic sr_information sr_dynamical
         sr_geometric sr_scalar].
    split.
    { unfold parallel.
      cbn [sr_operations sr_algorithmic sr_information sr_dynamical
           sr_geometric sr_scalar].
      rewrite !length_shift_snoc. tauto. }
    split.
    { rewrite Hops.
      replace k with ((k - mp) + mp)%nat at 2 by lia.
      rewrite <- seq_S. cbn [TimeSeries.shift tail seq].
      f_equal. lia. }
    intros Hpos.
    rewrite !last_shift_snoc; [tauto| | | | |];
      intros E; [rewrite E in L5|rewrite E in L4|rewrite E in L3
                |rewrite E in L2|rewrite E in L1]; cbn in *; lia.
  - assert (Hmin : Nat.min k mp = k) by lia.
    assert (Hmin' : Nat.min (S k) mp = S k) by lia.
    rewrite Hmin in *. rewrite Hmin'.
    cbn [sr_operations sr_algorithmic sr_information sr_dynamical
         sr_geometric sr_scalar].
    split.
    { unfold parallel.
      cbn [sr_operations sr_algorithmic sr_information sr_dynamical
           sr_geometric sr_scalar].
      rewrite !length_app, L0, L1, L2, L3, L4, L5. cbn [length].
      repeat split; lia. }
    split.
    { rewrite Hops. replace (k - k)%nat with 0%nat by lia.
      replace (S k - S k)%nat with 0%nat by lia.
      rewrite seq_S. reflexivity. }
    intros _. rewrite !last_snoc. tauto.
Qed.

Lemma chart_after_snoc (maxPoints : option nat) (first : ComplexityState)
    (later : list ComplexityState) (st : ComplexityState) :
  chart_after maxPoints first (later ++ [st])
  = TimeSeries.recordState (chart_after maxPoints first later) st.
Proof. unfold chart_after. rewrite fold_left_app. reflexivity. Qed.

(** X30: a chart built on a state and notified any number of times has
    recorded one point per call: its counter is the number of calls, its six
    arrays are parallel and hold the last [maxPoints] points at most, the
    operation labels are the consecutive counter values of these calls, and
    with room for at least one point the newest point is the vector and the
    scalar of the state recorded last. *)
Theorem X30_chart_series_parallel_and_bounded
    (maxPoints : option nat) (first : ComplexityState)
    (later : list ComplexityState) :
  let c := chart_after maxPoints first later in
  let mp := default 50%nat maxPoints in
  let k := S (length later) in
  let newest := List.last later first in
  ts_maxPoints c = mp /\
  ts_operationCount c = k /\
  parallel (ts_history c) (Nat.min k mp) /\
  sr_operations (ts_history c) = seq (k - Nat.min k mp) (Nat.min k mp) /\
  ((0 < mp)%nat ->
   last (sr_algorithmic (ts_history c))
   = Some (at_index (Vector.toArray (vector newest)) 0) /\
   last (sr_information (ts_history c))
   = Some (at_index (Vector.toArray (vector newest)) 1) /\
   last (sr_dynamical (ts_history c))
   = Some (at_index (Vector.toArray (vector newest)) 2) /\
   last (sr_geometric (ts_history c))
   = Some (at_index (Vector.toArray (vector newest)) 3) /\
   last (sr_scalar (ts_history c)) = Some (State.getScalar newest None None)).
Proof.
  induction later as [|st later IH] using rev_ind; intros c mp k newest.
  - subst c k newest. unfold chart_after, TimeSeries.new.
    cbn [fold_left length List.last]. fold mp.
    apply (recordState_step (mkChart mp TimeSeries.no_points 0) first 0%nat).
    + reflexivity.
    + cbn. repeat split; reflexivity.
    + reflexivity.
  - subst c k newest. rewrite chart_after_snoc, length_app, List.last_last.
    cbn [length]. replace (S (length later + 1)) with (S (S (length later))) by lia.
    destruct IH as (Hmp & Hk & Hpar & Hops & _). fold mp in Hmp.
    rewrite <- Hmp.
    apply (recordState_step (chart_after maxPoints first later) st
             (S (length later))).
    + exact Hk.
    + rewrite Hmp. exact Hpar.
    + rewrite Hmp. exact Hops.
Qed.

Lemma X30_witness :
  let first := self initial_session in
  let c := chart_after (Some 1%nat) first [first; first] in
  (0 < 1)%nat /\
  ts_maxPoints c = 1%nat /\
  ts_operationCount c = 3%nat /\
  parallel (ts_history c) 1 /\
  sr_operations (ts_history c) = [2%nat] /\
  last (sr_scalar (ts_history c)) = Some (State.getScalar first None None).
Proof.
  intros first c.
  destruct (X30_chart_series_parallel_and_bounded (Some 1%nat) first [first; first])
    as (Hmp & Hk & Hpar & Hops & Hlast).
  assert (Hpos : (0 < 1)%nat) by lia.
  destruct (Hlast Hpos) as (_ & _ & _ & _ & Hs).
  split; [exact Hpos|]. split; [exact Hmp|]. split; [exact Hk|].
  split; [exact Hpar|]. split; [exact Hops|]. exact Hs.
Defined.
